(** * Invoice to PDF converter: a shallow embedding of [main.py]

    The script has two pieces of logic: [create_pdf_from_excel], which turns
    one uploaded spreadsheet into the bytes of a one-page PDF, and the batch
    loop under the "Convert to PDF" button, which calls it for every uploaded
    file and collects the results in the dictionary [pdf_files] and the list
    [errors].  Both are embedded below, together with the parts of the Python
    runtime, pathlib, pandas and fpdf they rely on.

    Python text is represented by [string], holding the UTF-8 bytes of the
    text; byte strings by [list byte]. *)

From Stdlib Require Import ZArith QArith Qabs List String Ascii Bool Lia Permutation.
From Stdlib Require Import DecimalString SpecFloat.
From Stdlib Require Strings.Byte.
Import ListNotations.

Local Open Scope list_scope.
Local Open Scope string_scope.
Local Open Scope Z_scope.

Abbreviation byte := Byte.byte.

(** ** Python strings *)

Module PyStr.

(** [s.split(sep)] for a one-character separator: every occurrence of the
    separator cuts, and empty pieces are kept. *)
Fixpoint split (sep : ascii) (s : string) : list string :=
  match s with
  | EmptyString => [EmptyString]
  | String c rest =>
      if Ascii.eqb c sep then EmptyString :: split sep rest
      else match split sep rest with
           | [] => [String c EmptyString]
           | piece :: pieces => String c piece :: pieces
           end
  end.

(** [s.replace(old, new)] for one-character [old] and [new]. *)
Fixpoint replace (old new : ascii) (s : string) : string :=
  match s with
  | EmptyString => EmptyString
  | String c rest =>
      String (if Ascii.eqb c old then new else c) (replace old new rest)
  end.

Definition is_lower (c : ascii) : bool :=
  let n := nat_of_ascii c in ((97 <=? n) && (n <=? 122))%nat.

Definition is_upper (c : ascii) : bool :=
  let n := nat_of_ascii c in ((65 <=? n) && (n <=? 90))%nat.

Definition to_upper (c : ascii) : ascii :=
  if is_lower c then ascii_of_nat (nat_of_ascii c - 32) else c.

Definition to_lower (c : ascii) : ascii :=
  if is_upper c then ascii_of_nat (nat_of_ascii c + 32) else c.

(** [s.title()]: a cased character that follows an uncased one is put in
    upper case, a cased character that follows a cased one in lower case.
    Only the ASCII letters are cased here; every other byte is copied and
    counts as uncased.  Python cases every letter, so the title of a text
    with a letter outside ASCII is outside the embedding: the properties
    that state a header text ask for a name of ASCII characters. *)
Fixpoint title_from (previous_is_cased : bool) (s : string) : string :=
  match s with
  | EmptyString => EmptyString
  | String c rest =>
      if is_lower c || is_upper c then
        String (if previous_is_cased then to_lower c else to_upper c)
               (title_from true rest)
      else String c (title_from false rest)
  end.

Definition title (s : string) : string := title_from false s.

(** [s.rfind(c)]: the index of the last occurrence of [c], if any. *)
Fixpoint rfind (c : ascii) (s : string) : option nat :=
  match s with
  | EmptyString => None
  | String d rest =>
      match rfind c rest with
      | Some i => Some (S i)
      | None => if Ascii.eqb d c then Some 0%nat else None
      end
  end.

(** [s[:i]] *)
Definition prefix (i : nat) (s : string) : string := substring 0 i s.

(** [str(n)] for a Python or numpy integer. *)
Definition of_Z (n : Z) : string := NilZero.string_of_int (Z.to_int n).

Fixpoint contains (c : ascii) (s : string) : bool :=
  match s with
  | EmptyString => false
  | String d rest => Ascii.eqb d c || contains c rest
  end.

End PyStr.

(** ** pathlib: [Path(name).stem]

    POSIX flavour: the path is cut at ["/"], empty and ["."] components are
    dropped, and the name is the last component left ([""] when there is
    none).  The stem is the name without its last suffix; a name whose last
    dot is its first or its last character has no suffix. *)

Definition path_name (p : string) : string :=
  last (filter (fun part => negb (String.eqb part "" || String.eqb part "."))
               (PyStr.split "/" p))
       "".

Definition name_stem (name : string) : string :=
  match PyStr.rfind "." name with
  | Some i =>
      if ((0 <? i) && (i <? String.length name - 1))%nat
      then PyStr.prefix i name
      else name
  | None => name
  end.

Definition stem (p : string) : string := name_stem (path_name p).

(** ** Exceptions and results

    An exception is its class name and the text [str(e)] gives.  A call that
    may raise returns [inl e] when it raises [e]. *)

Record exn := Raise { exn_class : string; exn_text : string }.

Definition str_exn (e : exn) : string := exn_text e.

Definition result (A : Type) : Type := (exn + A)%type.

Definition rbind {A B : Type} (r : result A) (k : A -> result B) : result B :=
  match r with
  | inl e => inl e
  | inr a => k a
  end.

Fixpoint rmap {A B : Type} (f : A -> result B) (l : list A) : result (list B) :=
  match l with
  | [] => inr []
  | a :: rest =>
      rbind (f a) (fun b => rbind (rmap f rest) (fun bs => inr (b :: bs)))
  end.

Definition quote : string := String (ascii_of_nat 39) EmptyString.

Definition dquote : string := String (ascii_of_nat 34) EmptyString.

(** [repr(s)] of a text without quotes or escapes, as [str(KeyError(s))]
    shows it. *)
Definition repr_str (s : string) : string := quote ++ s ++ quote.

Definition KeyError (key : string) : exn := Raise "KeyError" (repr_str key).

Definition IndexError : exn := Raise "IndexError" "list index out of range".

(** [l[i]] on a Python list, for a non-negative [i]. *)
Definition list_getitem {A : Type} (l : list A) (i : nat) : result A :=
  match nth_error l i with
  | Some a => inr a
  | None => inl IndexError
  end.

(** ** The numeric runtime

    Floating-point numbers are those of the Python and numpy runtime: the
    embedding takes them through this interface.  [float_sum] is the sum
    pandas computes for a float64 column ([Series.sum], missing values
    skipped, the rest added in numpy's order), [float_str] is [str] of a
    float. *)

Class FloatRuntime : Type := {
  float : Type;
  float_of_int : Z -> float;
  float_add : float -> float -> float;
  float_sum : list float -> float;
  float_isnan : float -> bool;
  float_str : float -> string
}.

(** The result of a 64-bit integer operation, in two's complement. *)
Definition wrap64 (z : Z) : Z := (z + 2 ^ 63) mod 2 ^ 64 - 2 ^ 63.

(** A Python integer too large for [float(n)]: the conversion raises
    [OverflowError] when the nearest double is not finite. *)
Definition int_too_large (n : Z) : bool := 2 ^ 1024 - 2 ^ 970 <=? Z.abs n.

(** ** Python values and pandas tables *)

Section Pandas.

Context {F : FloatRuntime}.

(** The scalars a cell or a column label can hold: integers, floats and
    texts (booleans and dates are left out). *)
Inductive pyobj : Type :=
| PInt (n : Z)
| PFloat (x : float)
| PStr (s : string).

Definition type_name (v : pyobj) : string :=
  match v with
  | PInt _ => "int"
  | PFloat _ => "float"
  | PStr _ => "str"
  end.

(** [str(v)] *)
Definition py_str (v : pyobj) : string :=
  match v with
  | PInt n => PyStr.of_Z n
  | PFloat x => float_str x
  | PStr s => s
  end.

Definition unsupported_operand (a b : pyobj) : exn :=
  Raise "TypeError"
        ("unsupported operand type(s) for +: " ++ quote ++ type_name a ++ quote
         ++ " and " ++ quote ++ type_name b ++ quote).

Definition cannot_concatenate (b : pyobj) : exn :=
  Raise "TypeError"
        ("can only concatenate str (not " ++ dquote ++ type_name b ++ dquote
         ++ ") to str").

Definition too_large : exn :=
  Raise "OverflowError" "int too large to convert to float".

(** [a + b] *)
Definition py_add (a b : pyobj) : result pyobj :=
  match a, b with
  | PInt m, PInt n => inr (PInt (m + n))
  | PInt m, PFloat y =>
      if int_too_large m then inl too_large
      else inr (PFloat (float_add (float_of_int m) y))
  | PFloat x, PInt n =>
      if int_too_large n then inl too_large
      else inr (PFloat (float_add x (float_of_int n)))
  | PFloat x, PFloat y => inr (PFloat (float_add x y))
  | PStr s, PStr t => inr (PStr (s ++ t))
  | PStr _, _ => inl (cannot_concatenate b)
  | _, PStr _ => inl (unsupported_operand a b)
  end.

(** A column of a table, by its dtype.  The entries of an [Int64] column are
    64-bit integers; an [Object] column holds Python values of any kind, a
    missing cell being the float NaN. *)
Inductive Series : Type :=
| Int64 (values : list Z)
| Float64 (values : list float)
| Object (values : list pyobj).

Inductive dtype : Type := int64 | float64 | object.

Definition series_dtype (s : Series) : dtype :=
  match s with
  | Int64 _ => int64
  | Float64 _ => float64
  | Object _ => object
  end.

Definition series_len (s : Series) : nat :=
  match s with
  | Int64 vs => List.length vs
  | Float64 vs => List.length vs
  | Object vs => List.length vs
  end.

(** A missing value in an object column counts as [0] in a sum.  (This is
    pandas 2, where a column of texts with a missing cell is an object
    column; pandas 3 reads it as a [str] column, whose sum skips the cell.
    The properties of sums of texts are stated for columns without missing
    cells, where the two agree.) *)
Definition fill_missing (v : pyobj) : pyobj :=
  match v with
  | PFloat x => if float_isnan x then PInt 0 else v
  | _ => v
  end.

(** One step of a sum: the next entry is added unless an earlier addition
    raised. *)
Definition add_next (acc : result pyobj) (x : pyobj) : result pyobj :=
  rbind acc (fun a => py_add a x).

(** The reduction of an object array by [+]: left to right from the first
    entry, and [0] for an empty array. *)
Definition object_sum (vs : list pyobj) : result pyobj :=
  match vs with
  | [] => inr (PInt 0)
  | v :: rest => fold_left add_next rest (inr v)
  end.

(** [s.sum()] *)
Definition series_sum (s : Series) : result pyobj :=
  match s with
  | Int64 vs => inr (PInt (wrap64 (fold_left Z.add vs 0)))
  | Float64 vs => inr (PFloat (float_sum vs))
  | Object vs => object_sum (map fill_missing vs)
  end.

(** A table as [pd.read_excel] returns it: the columns in sheet order, each
    with its label.  Labels are distinct and the columns have one length. *)
Definition DataFrame : Type := list (pyobj * Series).

(** [df.columns] *)
Definition df_columns (df : DataFrame) : list pyobj := map fst df.

Definition label_is (key : string) (label : pyobj) : bool :=
  match label with
  | PStr s => String.eqb s key
  | _ => false
  end.

(** [df[key]] *)
Definition df_getitem (df : DataFrame) (key : string) : result Series :=
  match find (fun col => label_is key (fst col)) df with
  | Some col => inr (snd col)
  | None => inl (KeyError key)
  end.

Definition nrows (df : DataFrame) : nat :=
  match df with
  | [] => 0%nat
  | (_, s) :: _ => series_len s
  end.

(** The dtype of a row taken across the columns: the rows of a table with an
    object column hold the values as they are, the rows of an all-numeric
    table with a float column hold floats. *)
Definition common_dtype (df : DataFrame) : dtype :=
  if existsb (fun col => match series_dtype (snd col) with object => true | _ => false end) df
  then object
  else if existsb (fun col => match series_dtype (snd col) with float64 => true | _ => false end) df
  then float64
  else int64.

Definition series_item (common : dtype) (s : Series) (i : nat) : option pyobj :=
  match s with
  | Int64 vs =>
      option_map (fun n => match common with
                           | float64 => PFloat (float_of_int n)
                           | _ => PInt n
                           end)
                 (nth_error vs i)
  | Float64 vs => option_map PFloat (nth_error vs i)
  | Object vs => nth_error vs i
  end.

(** A row: the labels with the row's values. *)
Definition Row : Type := list (pyobj * pyobj).

Definition row_at (df : DataFrame) (i : nat) : Row :=
  flat_map (fun col => match series_item (common_dtype df) (snd col) i with
                       | Some v => [(fst col, v)]
                       | None => []
                       end)
           df.

(** [df.iterrows()], the rows in order (the index is not used). *)
Definition iterrows (df : DataFrame) : list Row :=
  map (row_at df) (seq 0 (nrows df)).

(** [row[key]] *)
Definition row_getitem (row : Row) (key : string) : result pyobj :=
  match find (fun entry => label_is key (fst entry)) row with
  | Some entry => inr (snd entry)
  | None => inl (KeyError key)
  end.

(** What an uploaded file holds: bytes that do not open as a workbook (with
    the exception the reader raises), or the sheets of a workbook by name. *)
Inductive payload : Type :=
| Unreadable (why : exn)
| Workbook (sheets : list (string * DataFrame)).

(** Streamlit's [UploadedFile]: a name and the uploaded content. *)
Record UploadedFile : Type := { name : string; content : payload }.

Definition sheet_not_found (sheet_name : string) : exn :=
  Raise "ValueError" ("Worksheet named " ++ quote ++ sheet_name ++ quote ++ " not found").

(** [pd.read_excel(file, sheet_name=...)].  The sheets are held as the
    tables the reader returns, after it has settled the type of each column:
    a column whose cells are numbers, or texts that all read as numbers,
    comes as a numeric column, so that a column of Python values holds at
    least one text that does not read as a number (or an integer too large
    for 64 bits), or is empty.  The type inference itself is not part of the
    embedding: a property holds for every table, also for those the reader
    never returns, and the sample tables are chosen among those it does. *)
Definition read_excel (file : UploadedFile) (sheet_name : string) : result DataFrame :=
  match content file with
  | Unreadable why => inl why
  | Workbook sheets =>
      match find (fun sh => String.eqb (fst sh) sheet_name) sheets with
      | Some sh => inr (snd sh)
      | None => inl (sheet_not_found sheet_name)
      end
  end.

End Pandas.

(** ** The world outside: the clock and the working directory

    Each [datetime.now()] takes the next reading of the clock.  A reading is
    given by the texts made of it: the date as [strftime("%Y%m%d")] prints
    it, the time of day to the second, and the text of [timestamp()].

    The readings counted are those that reach a document or a file name: the
    script's own, and the one the PDF writer takes for the creation time.  A
    library may read the clock for its own use besides (the workbook reader
    does, when it opens a file); such a reading shows in nothing the script
    makes, and [clock] and [reads] leave it out.  So [reads] does not bound
    the calls of [datetime.now()] in the process. *)

Record instant : Type := {
  date_Ymd : string;
  time_HMS : string;
  timestamp : string
}.

Record world : Type := {
  clock : nat -> instant;
  reads : nat;
  disk : list (string * list byte)
}.

(** A computation that reads and changes the world and may raise. *)
Definition M (A : Type) : Type := world -> result A * world.

Definition ret {A : Type} (a : A) : M A := fun w => (inr a, w).

Definition bind {A B : Type} (m : M A) (k : A -> M B) : M B :=
  fun w => match m w with
           | (inl e, w') => (inl e, w')
           | (inr a, w') => k a w'
           end.

Definition lift {A : Type} (r : result A) : M A := fun w => (r, w).

(** [try: m  except Exception as e: handler e] *)
Definition try_except {A : Type} (m : M A) (handler : exn -> M A) : M A :=
  fun w => match m w with
           | (inl e, w') => handler e w'
           | (inr a, w') => (inr a, w')
           end.

Declare Scope py_scope.
Delimit Scope py_scope with py.
Notation "x <- m ;; k" := (bind m (fun x => k))
  (at level 61, m at next level, right associativity) : py_scope.
Notation "' p <- m ;; k" := (bind m (fun p => k))
  (at level 61, p pattern, m at next level, right associativity) : py_scope.
Notation "x <~ r ;; k" := (rbind r (fun x => k))
  (at level 61, r at next level, right associativity) : py_scope.

Definition datetime_now : M instant :=
  fun w => (inr (clock w (reads w)),
            {| clock := clock w; reads := S (reads w); disk := disk w |}).

Definition set_disk (w : world) (d : list (string * list byte)) : world :=
  {| clock := clock w; reads := reads w; disk := d |}.

Definition other_path (path : string) (entry : string * list byte) : bool :=
  negb (String.eqb (fst entry) path).

(** [with open(path, "wb") as f: f.write(data)] *)
Definition write_file (path : string) (data : list byte) : M unit :=
  fun w => (inr tt, set_disk w ((path, data) :: filter (other_path path) (disk w))).

Definition file_content (path : string) (w : world) : option (list byte) :=
  option_map snd (find (fun entry => String.eqb (fst entry) path) (disk w)).

(** [os.remove(path)] *)
Definition os_remove (path : string) : M unit :=
  fun w => match file_content path w with
           | Some _ => (inr tt, set_disk w (filter (other_path path) (disk w)))
           | None =>
               (inl (Raise "FileNotFoundError"
                           ("[Errno 2] No such file or directory: " ++ repr_str path)), w)
           end.

(** ** fpdf

    An [FPDF] object is the page set-up it was made with and the calls made
    on it, in order.  What the writer does with them is its own business:
    [image_error] tells whether it can decode the bytes of an image file (and
    the exception it raises for the file at a path when it cannot); [stamp]
    is the creation time it makes of a reading of the clock to write it into
    the document; [output] is the finished document as latin-1 bytes, given
    that stamp, or the exception raised on the way. *)

Inductive pdf_call : Type :=
| add_page
| set_font (family : string) (size : Z) (style : string)
| set_text_color (r g b : Z)
| cell (w h : Z) (txt : string) (border ln : Z)
| image (data : list byte) (w : Z).

Record FPDF : Type := {
  orientation : string;
  unit_ : string;
  format : string;
  calls : list pdf_call
}.

Definition FPDF_new (orientation unit format : string) : FPDF :=
  {| orientation := orientation; unit_ := unit; format := format; calls := [] |}.

Definition call (pdf : FPDF) (c : pdf_call) : FPDF :=
  {| orientation := orientation pdf; unit_ := unit_ pdf; format := format pdf;
     calls := calls pdf ++ [c] |}.

Class PdfWriter : Type := {
  image_error : list byte -> option (string -> exn);
  stamp : instant -> string;
  output : FPDF -> string -> result (list byte)
}.

(** An ordered dictionary with text keys: assignment to a key that is present
    replaces its value in place, a new key goes to the end. *)
Fixpoint dict_set {V : Type} (key : string) (v : V) (d : list (string * V)) : list (string * V) :=
  match d with
  | [] => [(key, v)]
  | (k, old) :: rest =>
      if String.eqb k key then (k, v) :: rest
      else (k, old) :: dict_set key v rest
  end.

Definition dict_get {V : Type} (key : string) (d : list (string * V)) : option V :=
  option_map snd (find (fun entry => String.eqb (fst entry) key) d).

Definition dict_keys {V : Type} (d : list (string * V)) : list string := map fst d.

(** ** The script *)

Section Converter.

Context {F : FloatRuntime} {W : PdfWriter}.

Local Open Scope py_scope.

Definition raise {A : Type} (e : exn) : M A := fun w => (inl e, w).

(** [pdf.image(path, w=...)]: the writer reads the file at [path]. *)
Definition pdf_image (pdf : FPDF) (path : string) (w : Z) : M FPDF :=
  fun wd =>
    match file_content path wd with
    | Some data =>
        match image_error data with
        | Some failure => (inl (failure path), wd)
        | None => (inr (call pdf (image data w)), wd)
        end
    | None =>
        (inl (Raise "FileNotFoundError"
                    ("[Errno 2] No such file or directory: " ++ repr_str path)), wd)
    end.

(** [pdf.output(dest='S').encode('latin-1')] *)
Definition pdf_output (pdf : FPDF) : M (list byte) :=
  now <- datetime_now ;;
  lift (output pdf (stamp now)).

(** Lines 65-71: the invoice number and the date, from the file's stem. *)
Definition invoice_fields (filename : string) : M (string * string) :=
  let parts := PyStr.split "-" filename in
  if (2 <=? List.length parts)%nat
  then ret (nth 0 parts "", nth 1 parts "")
  else now <- datetime_now ;; ret (filename, date_Ymd now).

(** Lines 78-81 *)
Definition add_invoice_header (pdf : FPDF) (invoice_nr date : string) : FPDF :=
  let pdf := call pdf (set_font "Times" 16 "B") in
  let pdf := call pdf (cell 50 8 ("Invoice nr." ++ invoice_nr) 0 1) in
  let pdf := call pdf (set_font "Times" 16 "B") in
  call pdf (cell 50 8 ("Date: " ++ date) 0 1).

Definition no_replace (item : pyobj) : exn :=
  Raise "AttributeError"
        (quote ++ type_name item ++ quote ++ " object has no attribute "
         ++ quote ++ "replace" ++ quote).

(** [item.replace("_", " ").title()] *)
Definition header_text (item : pyobj) : result string :=
  match item with
  | PStr s => inr (PyStr.title (PyStr.replace "_" " " s))
  | _ => inl (no_replace item)
  end.

(** Lines 87-95 *)
Definition add_table_header (pdf : FPDF) (df : DataFrame) : result FPDF :=
  columns <~ rmap header_text (df_columns df) ;;
  let pdf := call pdf (set_font "Times" 10 "B") in
  let pdf := call pdf (set_text_color 80 80 80) in
  c0 <~ list_getitem columns 0 ;;
  let pdf := call pdf (cell 30 8 c0 1 0) in
  c1 <~ list_getitem columns 1 ;;
  let pdf := call pdf (cell 70 8 c1 1 0) in
  c2 <~ list_getitem columns 2 ;;
  let pdf := call pdf (cell 30 8 c2 1 0) in
  c3 <~ list_getitem columns 3 ;;
  let pdf := call pdf (cell 30 8 c3 1 0) in
  c4 <~ list_getitem columns 4 ;;
  inr (call pdf (cell 30 8 c4 1 1)).

(** Lines 99-105: the body of the loop over the rows. *)
Definition add_table_row (pdf : FPDF) (row : Row) : result FPDF :=
  let pdf := call pdf (set_font "Times" 10 "") in
  let pdf := call pdf (set_text_color 80 80 80) in
  product_id <~ row_getitem row "product_id" ;;
  let pdf := call pdf (cell 30 8 (py_str product_id) 1 0) in
  product_name <~ row_getitem row "product_name" ;;
  let pdf := call pdf (cell 70 8 (py_str product_name) 1 0) in
  amount_purchased <~ row_getitem row "amount_purchased" ;;
  let pdf := call pdf (cell 30 8 (py_str amount_purchased) 1 0) in
  price_per_unit <~ row_getitem row "price_per_unit" ;;
  let pdf := call pdf (cell 30 8 (py_str price_per_unit) 1 0) in
  total_price <~ row_getitem row "total_price" ;;
  inr (call pdf (cell 30 8 (py_str total_price) 1 1)).

(** Line 98: [for index, row in df.iterrows()] *)
Fixpoint add_table_rows (pdf : FPDF) (rows : list Row) : result FPDF :=
  match rows with
  | [] => inr pdf
  | row :: rest => pdf <~ add_table_row pdf row ;; add_table_rows pdf rest
  end.

(** Line 108: [df["total_price"].sum()] *)
Definition total_price_sum (df : DataFrame) : result pyobj :=
  column <~ df_getitem df "total_price" ;; series_sum column.

(** Lines 109-115 *)
Definition add_total_row (pdf : FPDF) (total_sum : pyobj) : FPDF :=
  let pdf := call pdf (set_font "Times" 10 "") in
  let pdf := call pdf (set_text_color 80 80 80) in
  let pdf := call pdf (cell 30 8 "" 1 0) in
  let pdf := call pdf (cell 70 8 "" 1 0) in
  let pdf := call pdf (cell 30 8 "" 1 0) in
  let pdf := call pdf (cell 30 8 "" 1 0) in
  call pdf (cell 30 8 (py_str total_sum) 1 1).

(** Lines 118-119 *)
Definition add_total_text (pdf : FPDF) (total_sum : pyobj) : FPDF :=
  let pdf := call pdf (set_font "Times" 10 "B") in
  call pdf (cell 30 8 ("The total price is " ++ py_str total_sum) 0 1).

(** Lines 122-133: the company name, and the logo through a temporary file. *)
Definition add_company (pdf : FPDF) (company_name : string)
    (logo_data : option (list byte)) : M FPDF :=
  let pdf := call pdf (set_font "Times" 10 "B") in
  let pdf := call pdf (cell 25 8 company_name 0 0) in
  match logo_data with
  | Some data =>
      now <- datetime_now ;;
      let logo_path := "temp_logo_" ++ timestamp now ++ ".png" in
      _ <- write_file logo_path data ;;
      pdf <- pdf_image pdf logo_path 10 ;;
      _ <- os_remove logo_path ;;
      ret pdf
  | None => ret pdf
  end.

(** Lines 62-133: the document, before it is written out, and the stem. *)
Definition build_pdf (file : UploadedFile) (company_name : string)
    (logo_data : option (list byte)) : M (FPDF * string) :=
  let filename := stem (name file) in
  ' (invoice_nr, date) <- invoice_fields filename ;;
  let pdf := FPDF_new "P" "mm" "A4" in
  let pdf := call pdf add_page in
  let pdf := add_invoice_header pdf invoice_nr date in
  df <- lift (read_excel file "Sheet 1") ;;
  pdf <- lift (add_table_header pdf df) ;;
  pdf <- lift (add_table_rows pdf (iterrows df)) ;;
  total_sum <- lift (total_price_sum df) ;;
  let pdf := add_total_row pdf total_sum in
  let pdf := add_total_text pdf total_sum in
  pdf <- add_company pdf company_name logo_data ;;
  ret (pdf, filename).

Definition processing_error (file : UploadedFile) (e : exn) : exn :=
  Raise "Exception" ("Error processing " ++ name file ++ ": " ++ str_exn e).

(** Lines 58-139 *)
Definition create_pdf_from_excel (file : UploadedFile) (company_name : string)
    (logo_data : option (list byte)) : M (list byte * string) :=
  try_except
    (' (pdf, filename) <- build_pdf file company_name logo_data ;;
     pdf_bytes <- pdf_output pdf ;;
     ret (pdf_bytes, filename))
    (fun e => raise (processing_error file e)).

(** The two collections the batch loop fills: [pdf_files] and [errors]. *)
Definition BatchResult : Type := (list (string * list byte) * list string)%type.

Definition error_line (file : UploadedFile) (e : exn) : string :=
  "❌ " ++ name file ++ ": " ++ str_exn e.

(** Lines 162-169: one turn of the loop over the uploaded files (the calls
    that update the status text and the progress bar are left out). *)
Definition convert_file (company_name : string) (logo_data : option (list byte))
    (acc : BatchResult) (file : UploadedFile) (w : world) : BatchResult * world :=
  match create_pdf_from_excel file company_name logo_data w with
  | (inr (pdf_bytes, filename), w') =>
      ((dict_set (filename ++ ".pdf") pdf_bytes (fst acc), snd acc), w')
  | (inl e, w') => ((fst acc, (snd acc ++ [error_line file e])%list), w')
  end.

(** Line 161: [for idx, file in enumerate(uploaded_files)] *)
Fixpoint convert_loop (uploaded_files : list UploadedFile) (company_name : string)
    (logo_data : option (list byte)) (acc : BatchResult) (w : world)
    : BatchResult * world :=
  match uploaded_files with
  | [] => (acc, w)
  | file :: rest =>
      let (acc', w') := convert_file company_name logo_data acc file w in
      convert_loop rest company_name logo_data acc' w'
  end.

(** Lines 157-172: the batch, from empty [pdf_files] and [errors]. *)
Definition convert (uploaded_files : list UploadedFile) (company_name : string)
    (logo_data : option (list byte)) (w : world) : BatchResult * world :=
  convert_loop uploaded_files company_name logo_data ([], []) w.

End Converter.

(** ** streamlit: the page

    A run of the script puts elements on the page, one call after the other.
    An element is the call that made it; [within c e] is an element drawn
    inside column [c] of a row of columns ([with cols[c]:]).  The data of a
    download button is either bytes, or the buffer a [zipfile.ZipFile] has
    written, given by its members in the order of the [writestr] calls. *)

Inductive download : Type :=
| PdfBytes (data : list byte)
| ZipBuffer (members : list (string * list byte)).

Inductive element : Type :=
| st_markdown (body : string)
| st_header (body : string)
| st_subheader (body : string)
| st_info (body : string)
| st_error (body : string)
| st_write (body : string)
| st_metric (label : string) (value : nat)
| st_button (label : string) (type_ : string)
| st_download_button (label : string) (data : download) (file_name mime : string)
                     (type_ : option string)
| within (column : nat) (e : element).

Section Page.

Context {F : FloatRuntime} {W : PdfWriter}.

Local Open Scope py_scope.

(** Lines 204-210: [for idx, (pdf_name, pdf_data) in enumerate(pdf_files.items())],
    from [idx] on. *)
Fixpoint download_buttons (cols : list nat) (idx : nat)
    (items : list (string * list byte)) : result (list element) :=
  match items with
  | [] => inr []
  | (pdf_name, pdf_data) :: rest =>
      column <~ list_getitem cols (idx mod 3) ;;
      buttons <~ download_buttons cols (S idx) rest ;;
      inr (within column
             (st_download_button ("📄 " ++ pdf_name) (PdfBytes pdf_data) pdf_name
                                 "application/pdf" None)
           :: buttons)
  end.

(** Lines 219-222: one [writestr] for every item of [pdf_files]. *)
Definition writestr_all (pdf_files : list (string * list byte))
    : list (string * list byte) :=
  fold_left (fun members item => (members ++ [item])%list) pdf_files [].

(** Lines 174-232: the results, for [total] uploads (the elements put on the
    page when the run ends without an exception). *)
Definition show_results (total : nat) (pdf_files : list (string * list byte))
    (errors : list string) : M (list element) :=
  let page := [ st_markdown "---"; st_header "✅ Conversion Complete!";
                within 0 (st_metric "Total Files" total);
                within 1 (st_metric "Successful" (List.length pdf_files));
                within 2 (st_metric "Errors" (List.length errors)) ] in
  let page := match errors with
              | [] => page
              | _ :: _ => (page ++ st_error "**Errors occurred:**" :: map st_write errors)%list
              end in
  match pdf_files with
  | [] => ret page
  | _ :: _ =>
      let page := (page ++ [ st_markdown "---"; st_subheader "📥 Download PDFs";
                             st_write "**Download Individual Files:**" ])%list in
      let cols := [0; 1; 2]%nat in
      buttons <- lift (download_buttons cols 0 pdf_files) ;;
      let page := (page ++ buttons)%list in
      if (1 <? List.length pdf_files)%nat then
        let page := (page ++ [st_markdown "---"; st_write "**Download All as ZIP:**"])%list in
        let zip_buffer := ZipBuffer (writestr_all pdf_files) in
        now <- datetime_now ;;
        ret (page ++ [ st_download_button
                         "📦 Download All PDFs (ZIP)" zip_buffer
                         ("invoices_" ++ date_Ymd now ++ "_" ++ time_HMS now ++ ".zip")
                         "application/zip" (Some "primary") ])%list
      else ret page
  end.

(** Lines 144-232: what a press of the button does.  [logo_file] is the
    content of the uploaded logo, when there is one (the progress bar and
    the status text, which are emptied before the results are shown, are
    left out). *)
Definition on_convert (uploaded_files : list UploadedFile) (company_name : string)
    (logo_file : option (list byte)) : M (list element) :=
  fun w =>
    let logo_data := logo_file in
    let '((pdf_files, errors), w1) := convert uploaded_files company_name logo_data w in
    show_results (List.length uploaded_files) pdf_files errors w1.

(** Lines 142-235: the part of the page under the uploads, for a run of the
    script in which the button is pressed or not. *)
Definition page_body (uploaded_files : list UploadedFile) (pressed : bool)
    (company_name : string) (logo_file : option (list byte)) : M (list element) :=
  match uploaded_files with
  | [] => ret [st_info "👆 Please upload Excel files to get started"]
  | _ :: _ =>
      let button := st_button "🔄 Convert to PDF" "primary" in
      if pressed
      then results <- on_convert uploaded_files company_name logo_file ;;
           ret (button :: results)
      else ret [button]
  end.

End Page.

(** ** A reference runtime: IEEE 754 binary64

    Doubles as [spec_float] with 53 bits of precision, addition rounded to
    nearest-even, and [repr] printing the shortest decimal that reads back as
    the same double, the way Python and numpy print a float.  [sum] adds from
    [0.0] in column order, skipping NaN: numpy's order for a column of fewer
    than eight entries (longer columns are added in blocks, which the
    interface [FloatRuntime] leaves open). *)

Module Binary64.

Definition prec : Z := 53.
Definition emax : Z := 1024.

Definition of_Z (n : Z) : spec_float := binary_normalize prec emax n 0 false.

(** The double nearest to [m * 2 ^ e]. *)
Definition of_binary (m e : Z) : spec_float := binary_normalize prec emax m e false.

Definition add : spec_float -> spec_float -> spec_float := SFadd prec emax.

Definition isnan (x : spec_float) : bool :=
  match x with S754_nan => true | _ => false end.

(** [Series.sum] on a float64 column: pandas puts [0.0] for each missing
    value and numpy adds the array up ([np.add.reduce]).  numpy adds fewer
    than eight entries from left to right; up to 128 entries it keeps eight
    running sums, entry [i] going to sum [i mod 8], adds these up in pairs,
    and then adds what is left past the last full group of eight; a longer
    array it cuts in two at a multiple of eight near the middle.  The sum
    starts from [-0.0] (numpy 1.25 and later), and the sum of no entry is
    [0.0]. *)

Definition zero_if_nan (x : spec_float) : spec_float :=
  if isnan x then S754_zero false else x.

Fixpoint add_lanes (r xs : list spec_float) : list spec_float :=
  match r, xs with
  | a :: r', x :: xs' => add a x :: add_lanes r' xs'
  | _, _ => r
  end.

Fixpoint lanes (fuel : nat) (r rest : list spec_float)
    : list spec_float * list spec_float :=
  match fuel with
  | O => (r, rest)
  | S fuel' =>
      if (8 <=? List.length rest)%nat
      then lanes fuel' (add_lanes r (firstn 8 rest)) (skipn 8 rest)
      else (r, rest)
  end.

Definition block_sum (xs : list spec_float) : spec_float :=
  let (r, rest) := lanes (List.length xs) (firstn 8 xs) (skipn 8 xs) in
  match r with
  | [r0; r1; r2; r3; r4; r5; r6; r7] =>
      fold_left add rest
        (add (add (add r0 r1) (add r2 r3)) (add (add r4 r5) (add r6 r7)))
  | _ => fold_left add xs (S754_zero true)
  end.

Fixpoint pairwise_sum (fuel : nat) (xs : list spec_float) : spec_float :=
  let n := List.length xs in
  if (n <? 8)%nat then fold_left add xs (S754_zero true)
  else if (n <=? 128)%nat then block_sum xs
  else match fuel with
       | O => block_sum xs
       | S fuel' =>
           let n2 := (n / 2 - (n / 2) mod 8)%nat in
           add (pairwise_sum fuel' (firstn n2 xs)) (pairwise_sum fuel' (skipn n2 xs))
       end.

Definition sum (xs : list spec_float) : spec_float :=
  match xs with
  | [] => S754_zero false
  | _ :: _ => add (S754_zero true) (pairwise_sum (List.length xs) (map zero_if_nan xs))
  end.

Definition pow2 (e : Z) : Q :=
  if 0 <=? e then inject_Z (2 ^ e) else Qmake 1 (Z.to_pos (2 ^ (- e))).

Definition pow10 (e : Z) : Q :=
  if 0 <=? e then inject_Z (10 ^ e) else Qmake 1 (Z.to_pos (10 ^ (- e))).

Definition Qfloor_ (q : Q) : Z := Qnum q / Zpos (Qden q).

Definition Qltb (a b : Q) : bool := match Qcompare a b with Lt => true | _ => false end.
Definition Qleb (a b : Q) : bool := match Qcompare a b with Gt => false | _ => true end.

Fixpoint exponent10 (fuel : nat) (v : Q) (k : Z) : Z :=
  match fuel with
  | O => k
  | S fuel' => if Qltb v (pow10 (k + 1)) then k else exponent10 fuel' v (k + 1)
  end.

Definition Qdist (a b : Q) : Q := Qabs (a - b)%Q.

(** The candidates with [n] digits: [D * 10^q] just below and just above [v]. *)
Definition candidate (v lo hi : Q) (inclusive : bool) (k : Z) (n : Z) : option (Z * Z) :=
  let q := k - n + 1 in
  let d := Qfloor_ (v / pow10 q)%Q in
  let inside c := if inclusive then Qleb lo c && Qleb c hi else Qltb lo c && Qltb c hi in
  let below := (inject_Z d * pow10 q)%Q in
  let above := (inject_Z (d + 1) * pow10 q)%Q in
  match inside below, inside above with
  | true, true =>
      match Qcompare (Qdist v below) (Qdist v above) with
      | Lt => Some (d, q)
      | Gt => Some (d + 1, q)
      | Eq => Some (if Z.even d then d else d + 1, q)
      end
  | true, false => Some (d, q)
  | false, true => Some (d + 1, q)
  | false, false => None
  end.

Fixpoint shortest (fuel : nat) (v lo hi : Q) (inclusive : bool) (k n : Z) : Z * Z :=
  match fuel with
  | O => (Qfloor_ (v / pow10 (k - n + 1))%Q, k - n + 1)
  | S fuel' =>
      match candidate v lo hi inclusive k n with
      | Some r => r
      | None => shortest fuel' v lo hi inclusive k (n + 1)
      end
  end.

Fixpoint strip_zeros (fuel : nat) (d q : Z) : Z * Z :=
  match fuel with
  | O => (d, q)
  | S fuel' => if (d mod 10 =? 0) && negb (d =? 0) then strip_zeros fuel' (d / 10) (q + 1) else (d, q)
  end.

(** The shortest decimal [d * 10^q] that reads back as the double [m * 2^e]. *)
Definition shortest_decimal (m : positive) (e : Z) : Z * Z :=
  let v := (inject_Z (Zpos m) * pow2 e)%Q in
  let half_up := pow2 (e - 1) in
  let half_down := if (Zpos m =? 2 ^ 52) && (-1074 <? e) then pow2 (e - 2) else pow2 (e - 1) in
  let k0 := (Zpos (digits2_pos m) + e - 1) * 30103 / 100000 - 2 in
  let k := exponent10 8 v k0 in
  let (d, q) := shortest 17 v (v - half_down)%Q (v + half_up)%Q (Z.even (Zpos m)) k 1 in
  strip_zeros 20 d q.

Fixpoint zeros (n : nat) : string :=
  match n with O => "" | S n' => String "0" (zeros n') end.

Definition digits_of (d : Z) : string := NilZero.string_of_uint (N.to_uint (Z.to_N d)).

Definition exponent_text (x : Z) : string :=
  let a := digits_of (Z.abs x) in
  (if x <? 0 then "-" else "+") ++ (if Z.abs x <? 10 then "0" ++ a else a).

Definition format_short (d q : Z) : string :=
  let ds := digits_of d in
  let nd := Z.of_nat (String.length ds) in
  let decpt := nd + q in
  if (decpt <=? -4) || (16 <? decpt) then
    substring 0 1 ds
    ++ (if 1 <? nd then "." ++ substring 1 (String.length ds - 1) ds else "")
    ++ "e" ++ exponent_text (decpt - 1)
  else if decpt <=? 0 then "0." ++ zeros (Z.to_nat (- decpt)) ++ ds
  else if nd <=? decpt then ds ++ zeros (Z.to_nat (decpt - nd)) ++ ".0"
  else substring 0 (Z.to_nat decpt) ds ++ "." ++ substring (Z.to_nat decpt) (Z.to_nat (nd - decpt)) ds.

(** [repr] of a double, which is also its [str]. *)
Definition repr (x : spec_float) : string :=
  match x with
  | S754_zero s => if s then "-0.0" else "0.0"
  | S754_infinity s => if s then "-inf" else "inf"
  | S754_nan => "nan"
  | S754_finite s m e =>
      let (d, q) := shortest_decimal m e in
      (if s then "-" else "") ++ format_short d q
  end.

End Binary64.

Definition binary64 : FloatRuntime := {|
  float := spec_float;
  float_of_int := Binary64.of_Z;
  float_add := Binary64.add;
  float_sum := Binary64.sum;
  float_isnan := Binary64.isnan;
  float_str := Binary64.repr
|}.

(** ** A stand-in PDF writer

    For running the script on examples.  It keeps the two ways fpdf fails on
    this script, an image file it does not take for a PNG and a text with a
    character outside latin-1 (in UTF-8, a byte from [0xC4] on), stamps the
    document with the date and the time to the second, and writes the calls
    out as lines of text in place of PDF syntax.

    The image check follows fpdf's reader of PNG files: the signature, the
    header chunk and its fields, then the chunks one after the other up to
    the end chunk, and the palette an indexed image needs; a file that stops
    short fails where the reader would run out of bytes.  The image data is
    not inflated, the transparency chunk is skipped unread, and chunk lengths
    are taken as unsigned. *)

Module PlainWriter.

Import Strings.Byte.

Definition png_signature : list byte := [x89; x50; x4e; x47; x0d; x0a; x1a; x0a].

Fixpoint starts_with (start data : list byte) : bool :=
  match start, data with
  | [], _ => true
  | b :: start', d :: data' => Byte.eqb b d && starts_with start' data'
  | _ :: _, [] => false
  end.

Definition fpdf_error (what : string) (path : string) : exn :=
  Raise "RuntimeError" ("FPDF error: " ++ what ++ path).

Definition not_png (path : string) : exn :=
  Raise "RuntimeError" ("FPDF error: Not a PNG file: " ++ path).

(** Reading four bytes for an integer when fewer are left. *)
Definition short_read (path : string) : exn :=
  Raise "error" "unpack requires a buffer of 4 bytes".

(** [ord(f.read(1))] at the end of the file. *)
Definition no_byte (path : string) : exn :=
  Raise "TypeError" "ord() expected a character, but string of length 0 found".

(** The image is drawn [10] wide and its height follows from its width. *)
Definition zero_width (path : string) : exn :=
  Raise "ZeroDivisionError" "division by zero".

Definition int_at (data : list byte) : option (nat * list byte) :=
  match data with
  | a :: b :: c :: d :: rest =>
      Some ((((Byte.to_nat a * 256 + Byte.to_nat b) * 256 + Byte.to_nat c) * 256
             + Byte.to_nat d)%nat, rest)
  | _ => None
  end.

Definition chunk_is (type_ : string) (data : list byte) : bool :=
  match list_byte_of_string type_ with
  | [a; b; c; d] =>
      match data with
      | a' :: b' :: c' :: d' :: _ =>
          Byte.eqb a a' && Byte.eqb b b' && Byte.eqb c c' && Byte.eqb d d'
      | _ => false
      end
  | _ => false
  end.

(** The chunks after the header: whether a palette with bytes in it was
    seen when the end chunk is met, or nothing when the bytes run out. *)
Fixpoint scan_chunks (fuel : nat) (data : list byte) (palette : bool) : option bool :=
  match fuel with
  | O => None
  | S fuel' =>
      match int_at data with
      | None => None
      | Some (n, rest) =>
          if chunk_is "IEND" rest then Some palette
          else if chunk_is "PLTE" rest
          then scan_chunks fuel' (skipn (n + 4) (skipn 4 rest))
                           (negb (n =? 0)%nat && negb (List.length rest <=? 4)%nat)
          else scan_chunks fuel' (skipn (n + 4) (skipn 4 rest)) palette
      end
  end.

Definition check_image (data : list byte) : option (string -> exn) :=
  if negb (starts_with png_signature data) then Some not_png
  else
    let after_length := skipn 12 data in
    if negb (chunk_is "IHDR" after_length) then Some (fpdf_error "Incorrect PNG file: ")
    else
      match int_at (skipn 16 data) with
      | None => Some short_read
      | Some (width, after_width) =>
          match int_at after_width with
          | None => Some short_read
          | Some (_, fields) =>
              match fields with
              | [] => Some no_byte
              | bpc :: fields1 =>
                  if (8 <? Byte.to_nat bpc)%nat
                  then Some (fpdf_error "16-bit depth not supported: ")
                  else
                    match fields1 with
                    | [] => Some no_byte
                    | ct :: fields2 =>
                        let ct := Byte.to_nat ct in
                        if negb ((ct =? 0) || (ct =? 2) || (ct =? 3) || (ct =? 4)
                                 || (ct =? 6))%nat
                        then Some (fpdf_error "Unknown color type: ")
                        else
                          match fields2 with
                          | [] => Some no_byte
                          | compression :: fields3 =>
                              if negb (Byte.to_nat compression =? 0)%nat
                              then Some (fpdf_error "Unknown compression method: ")
                              else
                                match fields3 with
                                | [] => Some no_byte
                                | filter_ :: fields4 =>
                                    if negb (Byte.to_nat filter_ =? 0)%nat
                                    then Some (fpdf_error "Unknown filter method: ")
                                    else
                                      match fields4 with
                                      | [] => Some no_byte
                                      | interlace :: chunks =>
                                          if negb (Byte.to_nat interlace =? 0)%nat
                                          then Some (fpdf_error "Interlacing not supported: ")
                                          else
                                            match scan_chunks (List.length data)
                                                              (skipn 4 chunks) false with
                                            | None => Some short_read
                                            | Some palette =>
                                                if (ct =? 3)%nat && negb palette
                                                then Some (fpdf_error "Missing palette in ")
                                                else if (width =? 0)%nat
                                                then Some zero_width
                                                else None
                                            end
                                      end
                                end
                          end
                    end
              end
          end
      end.

Definition latin1 (s : string) : bool :=
  forallb (fun c => (nat_of_ascii c <? 196)%nat) (list_ascii_of_string s).

Definition encodable (c : pdf_call) : bool :=
  match c with
  | cell _ _ txt _ _ => latin1 txt
  | _ => true
  end.

Definition newline : string := String (ascii_of_nat 10) EmptyString.

Definition show (c : pdf_call) : list byte :=
  match c with
  | add_page => list_byte_of_string ("page" ++ newline)
  | set_font family size style =>
      list_byte_of_string
        ("font " ++ family ++ " " ++ PyStr.of_Z size ++ " " ++ style ++ newline)
  | set_text_color r g b =>
      list_byte_of_string
        ("color " ++ PyStr.of_Z r ++ " " ++ PyStr.of_Z g ++ " " ++ PyStr.of_Z b ++ newline)
  | cell w h txt border ln =>
      list_byte_of_string
        ("cell " ++ PyStr.of_Z w ++ " " ++ PyStr.of_Z h ++ " " ++ PyStr.of_Z border
         ++ " " ++ PyStr.of_Z ln ++ " " ++ txt ++ newline)
  | image data w =>
      (list_byte_of_string ("image " ++ PyStr.of_Z w ++ " ") ++ data
       ++ list_byte_of_string newline)%list
  end.

Definition encode_error : exn :=
  Raise "UnicodeEncodeError"
        "'latin-1' codec can't encode character: ordinal not in range(256)".

Definition write (pdf : FPDF) (created : string) : result (list byte) :=
  if forallb encodable (calls pdf)
  then inr (list_byte_of_string
              ("%PDF " ++ orientation pdf ++ " " ++ unit_ pdf ++ " " ++ format pdf
               ++ " D:" ++ created ++ newline)
            ++ flat_map show (calls pdf))%list
  else inl encode_error.

End PlainWriter.

Definition plain_writer : PdfWriter := {|
  image_error := PlainWriter.check_image;
  stamp := fun now => date_Ymd now ++ time_HMS now;
  output := PlainWriter.write
|}.

(** ** Sample uploads *)

Module Samples.

Definition steady_clock (n : nat) : instant :=
  {| date_Ymd := "20240115"; time_HMS := "093000"; timestamp := "1705311000.25" |}.

(** The world after [n] readings of that clock, with an empty directory. *)
Definition after (n : nat) : world := {| clock := steady_clock; reads := n; disk := [] |}.

Definition monday : world := after 0.

(** The same second on a clock that differs below the second, some readings
    in, with a file lying in the directory. *)
Definition other_clock (n : nat) : instant :=
  {| date_Ymd := "20240115"; time_HMS := "093000"; timestamp := "1705311000.75" |}.

Definition monday_again : world :=
  {| clock := other_clock; reads := 7; disk := [("notes.txt", [Byte.x41])] |}.

(** The same day, one second later. *)
Definition later_clock (n : nat) : instant :=
  {| date_Ymd := "20240115"; time_HMS := "093001"; timestamp := "1705311001.25" |}.

Definition a_second_later : world := {| clock := later_clock; reads := 0; disk := [] |}.

(** A PNG file of one grey pixel. *)
Definition png_logo : list byte :=
  (PlainWriter.png_signature
   ++ [ Byte.x00; Byte.x00; Byte.x00; Byte.x0d; Byte.x49; Byte.x48; Byte.x44; Byte.x52;
        Byte.x00; Byte.x00; Byte.x00; Byte.x01; Byte.x00; Byte.x00; Byte.x00; Byte.x01;
        Byte.x08; Byte.x00; Byte.x00; Byte.x00; Byte.x00; Byte.x3a; Byte.x7e; Byte.x9b;
        Byte.x55;
        Byte.x00; Byte.x00; Byte.x00; Byte.x0a; Byte.x49; Byte.x44; Byte.x41; Byte.x54;
        Byte.x78; Byte.x9c; Byte.x63; Byte.x60; Byte.x00; Byte.x00; Byte.x00; Byte.x02;
        Byte.x00; Byte.x01; Byte.x48; Byte.xaf; Byte.xa4; Byte.x71;
        Byte.x00; Byte.x00; Byte.x00; Byte.x00; Byte.x49; Byte.x45; Byte.x4e; Byte.x44;
        Byte.xae; Byte.x42; Byte.x60; Byte.x82 ])%list.

Definition half (n : Z) : spec_float := Binary64.of_binary n (-1).

(** Three items whose totals are [100], [250.5] and [49.5]. *)
Definition three_items : @DataFrame binary64 :=
  [ (PStr "product_id", Int64 [101; 102; 103]);
    (PStr "product_name", Object [PStr "Pen"; PStr "Desk lamp"; PStr "Ink"]);
    (PStr "amount_purchased", Int64 [10; 3; 11]);
    (PStr "price_per_unit", Float64 (F := binary64) [Binary64.of_Z 10; half 167; half 9]);
    (PStr "total_price", Float64 (F := binary64) [Binary64.of_Z 100; half 501; half 99]) ].

(** The totals typed with their currency, as text. *)
Definition text_totals : @DataFrame binary64 :=
  [ (PStr "product_id", Int64 [101; 102]);
    (PStr "product_name", Object [PStr "Pen"; PStr "Ink"]);
    (PStr "amount_purchased", Int64 [1; 2]);
    (PStr "price_per_unit", Int64 [10; 10]);
    (PStr "total_price", Object [PStr "10 EUR"; PStr "20 EUR"]) ].

(** A total typed with its currency under a number. *)
Definition mixed_totals : @DataFrame binary64 :=
  [ (PStr "product_id", Int64 [101; 102]);
    (PStr "product_name", Object [PStr "Pen"; PStr "Ink"]);
    (PStr "amount_purchased", Int64 [1; 2]);
    (PStr "price_per_unit", Int64 [10; 10]);
    (PStr "total_price", Object [PInt 10; PStr "20 EUR"]) ].

(** A sixth column whose header cell holds the number 2024. *)
Definition numbered_column : @DataFrame binary64 :=
  (three_items ++ [ (PInt 2024, Int64 [1; 2; 3]) ])%list.

(** A sixth column with a text header. *)
Definition noted : @DataFrame binary64 :=
  (three_items ++ [ (PStr "note", Object [PStr "a"; PStr "b"; PStr "c"]) ])%list.

(** A header row and nothing below it. *)
Definition header_only : @DataFrame binary64 :=
  [ (PStr "product_id", Object []);
    (PStr "product_name", Object []);
    (PStr "amount_purchased", Object []);
    (PStr "price_per_unit", Object []);
    (PStr "total_price", Object []) ].

Definition upload (file_name : string) (df : @DataFrame binary64) : @UploadedFile binary64 :=
  {| name := file_name; content := Workbook [("Sheet 1", df)] |}.

(** A workbook whose only sheet has another name. *)
Definition wrong_sheet (file_name : string) : @UploadedFile binary64 :=
  {| name := file_name; content := Workbook [("Sheet1", three_items)] |}.

Definition run_convert (files : list (@UploadedFile binary64)) : BatchResult :=
  fst (@convert binary64 plain_writer files "PythonHow" None monday).

Definition run_create (file : @UploadedFile binary64) : result (list byte * string) :=
  fst (@create_pdf_from_excel binary64 plain_writer file "PythonHow" None monday).

Definition run_build (file : @UploadedFile binary64) : result (FPDF * string) :=
  fst (@build_pdf binary64 plain_writer file "PythonHow" None monday).

(** The bytes the stand-in writer makes of an upload (none when it fails). *)
Definition document (file : @UploadedFile binary64) : list byte :=
  match run_create file with
  | inr (pdf_bytes, _) => pdf_bytes
  | inl _ => []
  end.

(** Three uploads, the second without a sheet named "Sheet 1". *)
Definition three_uploads : list (@UploadedFile binary64) :=
  [ upload "A-20240115.xlsx" three_items; wrong_sheet "B.xlsx"; upload "C.xlsx" header_only ].

(** Two uploads with one name. *)
Definition same_name : list (@UploadedFile binary64) :=
  [ upload "A.xlsx" three_items; upload "A.xlsx" header_only ].

End Samples.

(** ** More sample sheets *)

Module Cases.

Import Samples.

(** The first four columns of the three items. *)
Definition four_columns : @DataFrame binary64 := firstn 4 three_items.

(** The three items with the column of totals under another name. *)
Definition renamed_total : @DataFrame binary64 :=
  (firstn 4 three_items
   ++ [ (PStr "total", Float64 (F := binary64) [Binary64.of_Z 100; half 501; half 99]) ])%list.

(** The three items with the columns in the opposite order. *)
Definition reordered : @DataFrame binary64 := rev three_items.

(** A table of numbers only, with two float columns. *)
Definition numbers_only : @DataFrame binary64 :=
  [ (PStr "product_id", Int64 [1; 2]);
    (PStr "product_name", Int64 [7; 8]);
    (PStr "amount_purchased", Int64 [3; 4]);
    (PStr "price_per_unit", Float64 (F := binary64) [half 5; half 3]);
    (PStr "total_price", Float64 (F := binary64) [half 15; Binary64.of_Z 6]) ].

(** Totals that are whole numbers. *)
Definition whole_totals : @DataFrame binary64 :=
  [ (PStr "product_id", Int64 [101; 102]);
    (PStr "product_name", Object [PStr "Pen"; PStr "Ink"]);
    (PStr "amount_purchased", Int64 [1; 2]);
    (PStr "price_per_unit", Int64 [10; 10]);
    (PStr "total_price", Int64 [10; 20]) ].

(** Two bytes that are no image. *)
Definition no_image : list byte := [Byte.x41; Byte.x42].

(** A header row with [total_price] as the only required name, and nothing
    below it. *)
Definition other_headers : @DataFrame binary64 :=
  [ (PStr "id", Object []);
    (PStr "name", Object []);
    (PStr "qty", Object []);
    (PStr "price", Object []);
    (PStr "total_price", Object []) ].

(** A header row without [total_price], and nothing below it. *)
Definition bare_headers : @DataFrame binary64 :=
  [ (PStr "id", Object []);
    (PStr "name", Object []);
    (PStr "qty", Object []);
    (PStr "price", Object []);
    (PStr "total", Object []) ].

End Cases.

(** ** Vocabulary for the properties *)

Section Vocabulary.

Context {F : FloatRuntime} {W : PdfWriter}.

(** The key under which the batch loop files a converted upload. *)
Definition output_name (file : UploadedFile) : string := stem (name file) ++ ".pdf".

(** The output names of the uploads of a batch that convert, in batch order
    (each upload runs in the world the uploads before it have left). *)
Fixpoint converted (files : list UploadedFile) (company_name : string)
    (logo_data : option (list byte)) (w : world) : list string :=
  match files with
  | [] => []
  | file :: rest =>
      match create_pdf_from_excel file company_name logo_data w with
      | (inr _, w') => output_name file :: converted rest company_name logo_data w'
      | (inl _, w') => converted rest company_name logo_data w'
      end
  end.

(** Two readings of the clock that show the same date to the script and the
    same creation time to the writer. *)
Definition same_reading (a b : instant) : Prop :=
  date_Ymd a = date_Ymd b /\ stamp a = stamp b.

(** Two worlds whose clocks will show the same, reading by reading. *)
Definition agree (w1 w2 : world) : Prop :=
  forall n : nat,
    same_reading (clock w1 (reads w1 + n)%nat) (clock w2 (reads w2 + n)%nat).

(** Two outcomes of one call: the same value, or an exception each. *)
Definition similar {A : Type} (r1 r2 : result A) : Prop :=
  match r1, r2 with
  | inr a, inr b => a = b
  | inl _, inl _ => True
  | _, _ => False
  end.

(** Two computations that, run in worlds that agree, end in worlds that
    agree, with values related by [R] or with an exception each. *)
Definition related {A : Type} (R : A -> A -> Prop) (m1 m2 : M A) : Prop :=
  forall w1 w2,
    agree w1 w2 ->
    match fst (m1 w1), fst (m2 w2) with
    | inr a, inr b => R a b
    | inl _, inl _ => True
    | _, _ => False
    end /\ agree (snd (m1 w1)) (snd (m2 w2)).

Definition is_text (v : pyobj) : bool :=
  match v with
  | PStr _ => true
  | _ => false
  end.

Definition is_number (v : pyobj) : bool := negb (is_text v).

(** A missing cell: the float NaN. *)
Definition is_missing (v : pyobj) : bool :=
  match v with
  | PFloat x => float_isnan x
  | _ => false
  end.

(** The texts of a list, one after the other. *)
Definition join (texts : list string) : string := fold_right append "" texts.

(** The sum of a list of integers. *)
Definition Zsum (ns : list Z) : Z := fold_right Z.add 0 ns.

(** The five column names the rows are read by. *)
Definition required_columns : list string :=
  ["product_id"; "product_name"; "amount_purchased"; "price_per_unit"; "total_price"].

(** The text shown for a field of a row. *)
Definition shown (row : Row) (key : string) : string :=
  match row_getitem row key with
  | inr v => py_str v
  | inl _ => ""
  end.

(** The calls that draw one body row: the five named fields, in this order. *)
Definition row_calls (row : Row) : list pdf_call :=
  [ set_font "Times" 10 ""; set_text_color 80 80 80;
    cell 30 8 (shown row "product_id") 1 0;
    cell 70 8 (shown row "product_name") 1 0;
    cell 30 8 (shown row "amount_purchased") 1 0;
    cell 30 8 (shown row "price_per_unit") 1 0;
    cell 30 8 (shown row "total_price") 1 1 ].

(** The header text made of a column name. *)
Definition titled (column_name : string) : string :=
  PyStr.title (PyStr.replace "_" " " column_name).

(** The calls that draw the logo, when there is one. *)
Definition logo_calls (logo_data : option (list byte)) : list pdf_call :=
  match logo_data with
  | Some data => [image data 10]
  | None => []
  end.

(** The writer can decode the logo, when there is one. *)
Definition logo_decodes (logo_data : option (list byte)) : Prop :=
  forall data, logo_data = Some data -> image_error data = None.

(** Every column has as many entries as the table has rows. *)
Definition rectangular (df : DataFrame) : Prop :=
  forall col, In col df -> series_len (snd col) = nrows df.

End Vocabulary.

(** ** Vocabulary for the further properties *)

(** The name of the temporary logo file made at a reading of the clock. *)
Definition logo_path_at (now : instant) : string :=
  "temp_logo_" ++ timestamp now ++ ".png".

(** What a computation may do to the working directory: it keeps the clock
    and leaves every file as it was, save, when [touches] is set, the files
    whose names start with "temp_logo_". *)
Definition footprint {A : Type} (touches : bool) (m : M A) : Prop :=
  forall w,
    clock (snd (m w)) = clock w /\
    forall p, touches = false \/ String.prefix "temp_logo_" p = false ->
              file_content p (snd (m w)) = file_content p w.

Definition has_logo (logo_data : option (list byte)) : bool :=
  match logo_data with
  | Some _ => true
  | None => false
  end.

Section Traces.

Context {F : FloatRuntime} {W : PdfWriter}.

(** The error lines of the uploads of a batch that do not convert, in batch
    order (each upload runs in the world the uploads before it have left). *)
Fixpoint failures (files : list UploadedFile) (company_name : string)
    (logo_data : option (list byte)) (w : world) : list string :=
  match files with
  | [] => []
  | file :: rest =>
      match create_pdf_from_excel file company_name logo_data w with
      | (inr _, w') => failures rest company_name logo_data w'
      | (inl e, w') => error_line file e :: failures rest company_name logo_data w'
      end
  end.

End Traces.

Definition differs_from (a b : string) : bool := negb (String.eqb b a).

(** The names of a list without repetitions, each at its first place. *)
Fixpoint first_occurrences (names : list string) : list string :=
  match names with
  | [] => []
  | n :: rest => n :: filter (differs_from n) (first_occurrences rest)
  end.

Definition absent_from (keys : list string) (k : string) : bool :=
  negb (existsb (String.eqb k) keys).

(** A text of ASCII characters only. *)
Fixpoint ascii_only (s : string) : bool :=
  match s with
  | EmptyString => true
  | String c rest => (nat_of_ascii c <? 128)%nat && ascii_only rest
  end.

(** What a page shows. *)

Fixpoint unwrap (e : element) : element :=
  match e with
  | within _ inner => unwrap inner
  | _ => e
  end.

(** The PDF downloads of a page: file name and data, in page order. *)
Definition pdf_downloads (page : list element) : list (string * list byte) :=
  flat_map (fun e => match unwrap e with
                     | st_download_button _ (PdfBytes data) file_name _ _ =>
                         [(file_name, data)]
                     | _ => []
                     end) page.

(** The ZIP downloads of a page: file name and members. *)
Definition zip_downloads (page : list element)
    : list (string * list (string * list byte)) :=
  flat_map (fun e => match unwrap e with
                     | st_download_button _ (ZipBuffer members) file_name _ _ =>
                         [(file_name, members)]
                     | _ => []
                     end) page.

(** The columns the download buttons of a page are drawn in. *)
Definition download_columns (page : list element) : list nat :=
  flat_map (fun e => match e with
                     | within column (st_download_button _ _ _ _ _) => [column]
                     | _ => []
                     end) page.

(** The metrics of a page: label and value. *)
Definition metrics (page : list element) : list (string * nat) :=
  flat_map (fun e => match unwrap e with
                     | st_metric label value => [(label, value)]
                     | _ => []
                     end) page.

Fixpoint leading_writes (page : list element) : list string :=
  match page with
  | st_write body :: rest => body :: leading_writes rest
  | _ => []
  end.

(** The lines written under the error box of a page, when it has one. *)
Fixpoint error_box (page : list element) : option (list string) :=
  match page with
  | [] => None
  | st_error _ :: rest => Some (leading_writes rest)
  | _ :: rest => error_box rest
  end.

Definition is_error (e : element) : bool :=
  match e with
  | st_error _ => true
  | _ => false
  end.

(** * Properties *)

(** ** The pieces on small inputs *)

Example stem_xlsx : stem "2024-001-20240115.xlsx" = "2024-001-20240115".
Proof. reflexivity. Qed.

Example stem_two_dots : stem "a.b.xlsx" = "a.b".
Proof. reflexivity. Qed.

Example stem_hidden : stem ".xlsx" = ".xlsx".
Proof. reflexivity. Qed.

Example stem_directory : stem "uploads/INV2024.xlsx" = "INV2024".
Proof. reflexivity. Qed.

Example split_hyphens :
  PyStr.split "-" "2024-001-20240115" = ["2024"; "001"; "20240115"].
Proof. reflexivity. Qed.

Example split_keeps_empty : PyStr.split "-" "a--b-" = ["a"; ""; "b"; ""].
Proof. reflexivity. Qed.

Example title_header :
  PyStr.title (PyStr.replace "_" " " "amount_purchased") = "Amount Purchased".
Proof. reflexivity. Qed.

Example of_Z_negative : PyStr.of_Z (-1250) = "-1250".
Proof. reflexivity. Qed.

Example wrap64_overflow : wrap64 (2 ^ 62 + 2 ^ 62) = - 2 ^ 63.
Proof. reflexivity. Qed.

Example repr_tenth_plus_fifth :
  Binary64.repr (Binary64.add (SFdiv 53 1024 (Binary64.of_Z 1) (Binary64.of_Z 10))
                              (SFdiv 53 1024 (Binary64.of_Z 2) (Binary64.of_Z 10)))
  = "0.30000000000000004".
Proof. vm_compute. reflexivity. Qed.

Example repr_large : Binary64.repr (Binary64.of_Z (10 ^ 16)) = "1e+16".
Proof. vm_compute. reflexivity. Qed.

Example repr_small :
  Binary64.repr (SFdiv 53 1024 (Binary64.of_Z 1) (Binary64.of_Z 100000)) = "1e-05".
Proof. vm_compute. reflexivity. Qed.

(** Seven tenths are added from left to right, ten in eight running sums. *)
Example sum_of_seven_tenths :
  Binary64.repr
    (Binary64.sum (repeat (SFdiv 53 1024 (Binary64.of_Z 1) (Binary64.of_Z 10)) 7))
  = "0.7".
Proof. vm_compute. reflexivity. Qed.

Example sum_of_ten_tenths :
  Binary64.repr
    (Binary64.sum (repeat (SFdiv 53 1024 (Binary64.of_Z 1) (Binary64.of_Z 10)) 10))
  = "1.0" /\
  Binary64.repr
    (fold_left Binary64.add
       (repeat (SFdiv 53 1024 (Binary64.of_Z 1) (Binary64.of_Z 10)) 10) (S754_zero false))
  = "0.9999999999999999".
Proof. split; vm_compute; reflexivity. Qed.

Example sum_skips_missing :
  Binary64.repr (Binary64.sum [S754_nan; Binary64.of_binary 3 (-1); S754_nan]) = "1.5" /\
  Binary64.repr (Binary64.sum [S754_nan]) = "0.0" /\
  Binary64.repr (Binary64.sum []) = "0.0".
Proof. split; [|split]; vm_compute; reflexivity. Qed.

Example png_logo_is_an_image :
  PlainWriter.check_image Samples.png_logo = None /\
  (exists failure,
      PlainWriter.check_image (firstn 12 Samples.png_logo) = Some failure /\
      failure "logo.png"
      = Raise "RuntimeError" "FPDF error: Incorrect PNG file: logo.png").
Proof. split; [reflexivity|]. eexists. split; reflexivity. Qed.

(** ** The ordered dictionary *)

Section Dict.

Context {V : Type}.

Implicit Types (d : list (string * V)) (key : string) (v : V).

Lemma dict_get_set_same key v d : dict_get key (dict_set key v d) = Some v.
Proof.
  unfold dict_get.
  induction d as [|[k old] rest IH]; simpl.
  - now rewrite String.eqb_refl.
  - destruct (String.eqb k key) eqn:E; simpl; rewrite E; [reflexivity | exact IH].
Qed.

Lemma dict_get_set_other key key' v d :
  key' <> key -> dict_get key' (dict_set key v d) = dict_get key' d.
Proof.
  intros Hne. unfold dict_get.
  induction d as [|[k old] rest IH]; simpl.
  - destruct (String.eqb key key') eqn:E; [|reflexivity].
    apply String.eqb_eq in E. congruence.
  - destruct (String.eqb k key) eqn:E; simpl.
    + apply String.eqb_eq in E. subst k.
      destruct (String.eqb key key') eqn:E'; [|reflexivity].
      apply String.eqb_eq in E'. congruence.
    + destruct (String.eqb k key'); [reflexivity | exact IH].
Qed.

Lemma dict_set_present key v d :
  In key (dict_keys d) ->
  dict_keys (dict_set key v d) = dict_keys d /\
  List.length (dict_set key v d) = List.length d.
Proof.
  unfold dict_keys.
  induction d as [|[k old] rest IH]; simpl; intros Hin; [contradiction|].
  destruct (String.eqb k key) eqn:E; simpl; [now split|].
  destruct Hin as [Heq | Hin].
  - subst k. now rewrite String.eqb_refl in E.
  - destruct (IH Hin) as [Hk Hl]. now rewrite Hk, Hl.
Qed.

Lemma dict_set_absent key v d :
  ~ In key (dict_keys d) ->
  dict_keys (dict_set key v d) = (dict_keys d ++ [key])%list /\
  List.length (dict_set key v d) = S (List.length d).
Proof.
  unfold dict_keys.
  induction d as [|[k old] rest IH]; simpl; intros Hnot; [now split|].
  destruct (String.eqb k key) eqn:E.
  - apply String.eqb_eq in E. tauto.
  - simpl. destruct IH as [Hk Hl]; [tauto|]. now rewrite Hk, Hl.
Qed.

Lemma dict_set_keys_incl key v d k :
  In k (dict_keys (dict_set key v d)) -> k = key \/ In k (dict_keys d).
Proof.
  destruct (in_dec string_dec key (dict_keys d)) as [Hin | Hnot].
  - destruct (dict_set_present key v d Hin) as [-> _]. now right.
  - destruct (dict_set_absent key v d Hnot) as [-> _].
    rewrite in_app_iff. simpl. intuition.
Qed.

Lemma dict_set_length_le key v d :
  (List.length (dict_set key v d) <= S (List.length d))%nat.
Proof.
  destruct (in_dec string_dec key (dict_keys d)) as [Hin | Hnot].
  - destruct (dict_set_present key v d Hin) as [_ ->]. lia.
  - destruct (dict_set_absent key v d Hnot) as [_ ->]. lia.
Qed.

Lemma dict_set_keys_nodup key v d :
  NoDup (dict_keys d) -> NoDup (dict_keys (dict_set key v d)).
Proof.
  intros Hnd.
  destruct (in_dec string_dec key (dict_keys d)) as [Hin | Hnot].
  - destruct (dict_set_present key v d Hin) as [-> _]. exact Hnd.
  - destruct (dict_set_absent key v d Hnot) as [-> _].
    apply NoDup_app; [exact Hnd | repeat constructor; simpl; tauto |].
    intros k Hk [<- | []]. contradiction.
Qed.

End Dict.

Ltac step_in H :=
  match type of H with
  | context [match ?x with _ => _ end] => destruct x eqn:?; try discriminate H
  end.

(** ** One upload *)

Section OneUpload.

Context {F : FloatRuntime} {W : PdfWriter}.

Implicit Types (file : UploadedFile) (w : world) (acc : BatchResult).

Lemma build_pdf_stem file company logo w pdf filename w' :
  build_pdf file company logo w = (inr (pdf, filename), w') ->
  filename = stem (name file).
Proof.
  unfold build_pdf, bind, lift, ret. intros H.
  repeat step_in H. now inversion H.
Qed.

Lemma create_ok_inv file company logo w pdf_bytes filename w' :
  create_pdf_from_excel file company logo w = (inr (pdf_bytes, filename), w') ->
  filename = stem (name file) /\
  exists pdf w1,
    build_pdf file company logo w = (inr (pdf, filename), w1) /\
    pdf_output pdf w1 = (inr pdf_bytes, w').
Proof.
  unfold create_pdf_from_excel, try_except, bind, ret, raise. intros H.
  destruct (build_pdf file company logo w) as [[e | [pdf fn]] w1] eqn:Hb;
    [discriminate H|].
  destruct (pdf_output pdf w1) as [[e | data] w2] eqn:Ho; [discriminate H|].
  inversion H; subst. split.
  - eapply build_pdf_stem; eassumption.
  - now exists pdf, w1.
Qed.

Lemma create_error_inv file company logo w e w' :
  create_pdf_from_excel file company logo w = (inl e, w') ->
  exists cause, e = processing_error file cause.
Proof.
  unfold create_pdf_from_excel, try_except, bind, ret, raise. intros H.
  destruct (build_pdf file company logo w) as [[e0 | [pdf fn]] w1].
  - inversion H. now exists e0.
  - destruct (pdf_output pdf w1) as [[e0 | data] w2]; inversion H. now exists e0.
Qed.

Lemma convert_file_ok file company logo acc w pdf_bytes filename w' :
  create_pdf_from_excel file company logo w = (inr (pdf_bytes, filename), w') ->
  convert_file company logo acc file w
  = ((dict_set (output_name file) pdf_bytes (fst acc), snd acc), w').
Proof.
  intros H. unfold convert_file. rewrite H.
  apply create_ok_inv in H. destruct H as [-> _]. reflexivity.
Qed.

Lemma convert_file_error file company logo acc w e w' :
  create_pdf_from_excel file company logo w = (inl e, w') ->
  convert_file company logo acc file w
  = ((fst acc, (snd acc ++ [error_line file e])%list), w').
Proof. intros H. unfold convert_file. now rewrite H. Qed.

Lemma convert_loop_app files1 files2 company logo acc w :
  convert_loop (files1 ++ files2) company logo acc w
  = let (acc1, w1) := convert_loop files1 company logo acc w in
    convert_loop files2 company logo acc1 w1.
Proof.
  revert acc w. induction files1 as [|file rest IH]; intros acc w; simpl.
  - reflexivity.
  - destruct (convert_file company logo acc file w) as [acc' w']. apply IH.
Qed.

End OneUpload.

(** ** The batch *)

Section Batch.

Context {F : FloatRuntime} {W : PdfWriter}.

Implicit Types (file : UploadedFile) (w : world) (acc : BatchResult).

(** A turn of the loop adds one key or one error line, or replaces the value
    of a key that is there. *)
Lemma convert_file_cases file company logo acc w :
  (exists pdf_bytes w',
     create_pdf_from_excel file company logo w
       = (inr (pdf_bytes, stem (name file)), w') /\
     convert_file company logo acc file w
       = ((dict_set (output_name file) pdf_bytes (fst acc), snd acc), w'))
  \/
  (exists e w',
     create_pdf_from_excel file company logo w = (inl e, w') /\
     convert_file company logo acc file w
       = ((fst acc, (snd acc ++ [error_line file e])%list), w')).
Proof.
  destruct (create_pdf_from_excel file company logo w) as [[e | [data fn]] w'] eqn:H.
  - right. exists e, w'. split; [reflexivity|]. now apply convert_file_error.
  - left. exists data, w'.
    destruct (create_ok_inv _ _ _ _ _ _ _ H) as [-> _]. split; [reflexivity|].
    eapply convert_file_ok; eassumption.
Qed.

Lemma convert_loop_count_le files company logo acc w :
  let r := fst (convert_loop files company logo acc w) in
  (List.length (fst r) + List.length (snd r)
   <= List.length (fst acc) + List.length (snd acc) + List.length files)%nat.
Proof.
  revert acc w. induction files as [|file rest IH]; intros acc w; simpl.
  - lia.
  - destruct (convert_file_cases file company logo acc w)
      as [(data & w' & _ & ->) | (e & w' & _ & ->)].
    + specialize (IH (dict_set (output_name file) data (fst acc), snd acc) w').
      simpl in IH.
      pose proof (dict_set_length_le (output_name file) data (fst acc)). lia.
    + specialize (IH (fst acc, (snd acc ++ [error_line file e])%list) w').
      simpl in IH. rewrite length_app in IH. simpl in IH. lia.
Qed.

(** The keys at the end are those at the start and the names of the uploads
    that converted. *)
Lemma convert_loop_keys files company logo acc w k :
  In k (dict_keys (fst (fst (convert_loop files company logo acc w))))
  <-> In k (dict_keys (fst acc)) \/ In k (converted files company logo w).
Proof.
  revert acc w. induction files as [|file rest IH]; intros acc w; simpl.
  - tauto.
  - destruct (convert_file_cases file company logo acc w)
      as [(data & w' & Hc & ->) | (e & w' & Hc & ->)]; rewrite Hc, IH; simpl.
    + split.
      * intros [Hin | Hin]; [|tauto].
        apply dict_set_keys_incl in Hin. intuition.
      * intros [Hin | [<- | Hin]]; [| |tauto]; left.
        -- destruct (in_dec string_dec (output_name file) (dict_keys (fst acc))) as [Hp | Ha].
           ++ now destruct (dict_set_present (output_name file) data (fst acc) Hp) as [-> _].
           ++ destruct (dict_set_absent (output_name file) data (fst acc) Ha) as [-> _].
              apply in_app_iff. now left.
        -- destruct (in_dec string_dec (output_name file) (dict_keys (fst acc))) as [Hp | Ha].
           ++ now destruct (dict_set_present (output_name file) data (fst acc) Hp) as [-> _].
           ++ destruct (dict_set_absent (output_name file) data (fst acc) Ha) as [-> _].
              apply in_app_iff. right. now left.
    + tauto.
Qed.

(** Every upload that did not convert left one line in [errors]. *)
Lemma convert_loop_errors files company logo acc w :
  (List.length (snd (fst (convert_loop files company logo acc w)))
   + List.length (converted files company logo w)
   = List.length (snd acc) + List.length files)%nat.
Proof.
  revert acc w. induction files as [|file rest IH]; intros acc w; simpl.
  - lia.
  - destruct (convert_file_cases file company logo acc w)
      as [(data & w' & Hc & ->) | (e & w' & Hc & ->)]; rewrite Hc.
    + specialize (IH (dict_set (output_name file) data (fst acc), snd acc) w').
      simpl in *. lia.
    + specialize (IH (fst acc, (snd acc ++ [error_line file e])%list) w').
      simpl in IH. rewrite length_app in IH. simpl in IH. lia.
Qed.

Lemma convert_loop_keys_nodup files company logo acc w :
  NoDup (dict_keys (fst acc)) ->
  NoDup (dict_keys (fst (fst (convert_loop files company logo acc w)))).
Proof.
  revert acc w. induction files as [|file rest IH]; intros acc w Hnd; simpl.
  - exact Hnd.
  - destruct (convert_file_cases file company logo acc w)
      as [(data & w' & _ & ->) | (e & w' & _ & ->)]; apply IH; simpl.
    + now apply dict_set_keys_nodup.
    + exact Hnd.
Qed.

(** Uploads filed under other names leave the entry of [key] alone. *)
Lemma convert_loop_get_other files company logo acc w key :
  (forall file, In file files -> output_name file <> key) ->
  dict_get key (fst (fst (convert_loop files company logo acc w)))
  = dict_get key (fst acc).
Proof.
  revert acc w. induction files as [|file rest IH]; intros acc w Hother; simpl.
  - reflexivity.
  - assert (Hrest : forall f, In f rest -> output_name f <> key)
      by (intros f Hf; apply Hother; now right).
    destruct (convert_file_cases file company logo acc w)
      as [(data & w' & _ & ->) | (e & w' & _ & ->)]; rewrite (IH _ _ Hrest); simpl.
    + apply dict_get_set_other. intros ->. apply (Hother file); [now left | reflexivity].
    + reflexivity.
Qed.

(** C1, as amended: after [convert], [errors] holds one line for each upload
    that did not convert and [pdf_files] one entry for each distinct output
    filename among the uploads that converted.  So the number of entries of
    [pdf_files] plus the number of entries of [errors] is the number of
    uploads exactly when the uploads that converted have pairwise distinct
    output filenames. *)
Theorem convert_counts_every_upload files company logo w :
  let r := fst (convert files company logo w) in
  (List.length (snd r) + List.length (converted files company logo w)
   = List.length files)%nat /\
  (forall k, In k (dict_keys (fst r)) <-> In k (converted files company logo w)) /\
  NoDup (dict_keys (fst r)) /\
  (NoDup (converted files company logo w)
   <-> (List.length (fst r) + List.length (snd r) = List.length files)%nat).
Proof.
  intros r.
  pose proof (convert_loop_errors files company logo ([], []) w) as Herrors.
  assert (Hkeys : forall k, In k (dict_keys (fst r))
                            <-> In k (converted files company logo w)).
  { intros k. subst r. unfold convert. rewrite convert_loop_keys. simpl. tauto. }
  assert (Hnodup : NoDup (dict_keys (fst r))).
  { subst r. unfold convert. apply convert_loop_keys_nodup. constructor. }
  assert (Hlen : List.length (dict_keys (fst r)) = List.length (fst r))
    by apply length_map.
  fold (convert files company logo w) in Herrors. fold r in Herrors. simpl in Herrors.
  split; [exact Herrors | split; [exact Hkeys | split; [exact Hnodup|]]].
  split.
  - intros Hdistinct.
    assert (List.length (dict_keys (fst r))
            <= List.length (converted files company logo w))%nat
      by (apply NoDup_incl_length; [exact Hnodup | intros k; apply Hkeys]).
    assert (List.length (converted files company logo w)
            <= List.length (dict_keys (fst r)))%nat
      by (apply NoDup_incl_length; [exact Hdistinct | intros k; apply Hkeys]).
    lia.
  - intros Hcount.
    apply (NoDup_incl_NoDup Hnodup); [lia|].
    intros k. apply Hkeys.
Qed.

(** C4, as amended: for every upload that converts, the key stored in
    [pdf_files] is the whole stem of its name with ".pdf" appended, the stem
    [create_pdf_from_excel] returns and splits for the header, whether or
    not it holds hyphens. *)
Theorem output_key_is_stem file company logo acc w pdf_bytes filename w' :
  create_pdf_from_excel file company logo w = (inr (pdf_bytes, filename), w') ->
  filename = stem (name file) /\
  convert_file company logo acc file w
  = ((dict_set (stem (name file) ++ ".pdf") pdf_bytes (fst acc), snd acc), w').
Proof.
  intros H. split.
  - now destruct (create_ok_inv _ _ _ _ _ _ _ H).
  - eapply convert_file_ok; eassumption.
Qed.

(** C8: when an upload converts to a filename that an earlier upload of the
    batch already produced, its document replaces the earlier one under that
    key, no error line is added for it, the key keeps its single entry, and
    the document stays there unless a later upload takes the same name. *)
Theorem last_write_wins before file after company logo w acc1 w1 pdf_bytes w2 :
  convert_loop before company logo ([], []) w = (acc1, w1) ->
  In (output_name file) (dict_keys (fst acc1)) ->
  create_pdf_from_excel file company logo w1
    = (inr (pdf_bytes, stem (name file)), w2) ->
  (forall later, In later after -> output_name later <> output_name file) ->
  let step := fst (convert_file company logo acc1 file w1) in
  let final := fst (convert (before ++ file :: after) company logo w) in
  snd step = snd acc1 /\
  List.length (fst step) = List.length (fst acc1) /\
  dict_keys (fst step) = dict_keys (fst acc1) /\
  dict_get (output_name file) (fst final) = Some pdf_bytes /\
  count_occ string_dec (dict_keys (fst final)) (output_name file) = 1%nat.
Proof.
  intros Hbefore Hin Hcreate Hafter step final.
  pose proof (convert_file_ok _ _ _ acc1 _ _ _ _ Hcreate) as Hstep.
  assert (Hget : dict_get (output_name file) (fst final) = Some pdf_bytes).
  { subst final. unfold convert. rewrite convert_loop_app, Hbefore. simpl.
    rewrite Hstep, convert_loop_get_other by exact Hafter.
    simpl. apply dict_get_set_same. }
  subst step. rewrite Hstep. simpl.
  destruct (dict_set_present (output_name file) pdf_bytes (fst acc1) Hin) as [Hk Hl].
  repeat split; try assumption.
  apply NoDup_count_occ'.
  - subst final. unfold convert. apply convert_loop_keys_nodup. constructor.
  - unfold dict_get in Hget. unfold dict_keys.
    destruct (find _ (fst final)) as [[k v]|] eqn:Hfind; [|discriminate Hget].
    apply find_some in Hfind. destruct Hfind as [Hmem Heq].
    simpl in Heq. apply String.eqb_eq in Heq. subst k.
    now apply (in_map fst) in Hmem.
Qed.

End Batch.

(** ** Independence of the clock's fine print and of the working directory *)

Section Reproducible.

Context {F : FloatRuntime} {W : PdfWriter}.

Lemma agree_tick w1 w2 :
  agree w1 w2 ->
  agree {| clock := clock w1; reads := S (reads w1); disk := disk w1 |}
        {| clock := clock w2; reads := S (reads w2); disk := disk w2 |}.
Proof.
  intros H n. simpl. specialize (H (S n)).
  now rewrite <- !plus_n_Sm in H.
Qed.

Lemma agree_disk w1 w2 d1 d2 :
  agree w1 w2 -> agree (set_disk w1 d1) (set_disk w2 d2).
Proof. intros H n. exact (H n). Qed.

Lemma related_ret {A : Type} (R : A -> A -> Prop) a b :
  R a b -> related R (ret a) (ret b).
Proof. intros H w1 w2 Hw. now split. Qed.

Lemma related_lift {A : Type} (r : result A) : related eq (lift r) (lift r).
Proof. intros w1 w2 Hw. split; [|exact Hw]. simpl. now destruct r. Qed.

Lemma related_raise {A : Type} (R : A -> A -> Prop) e1 e2 :
  related R (raise e1) (raise e2).
Proof. intros w1 w2 Hw. now split. Qed.

Lemma related_bind {A B : Type} (R : A -> A -> Prop) (S : B -> B -> Prop)
    (m1 m2 : M A) (k1 k2 : A -> M B) :
  related R m1 m2 ->
  (forall a b, R a b -> related S (k1 a) (k2 b)) ->
  related S (bind m1 k1) (bind m2 k2).
Proof.
  intros Hm Hk w1 w2 Hw. unfold bind.
  destruct (Hm w1 w2 Hw) as [Hr Hw'].
  destruct (m1 w1) as [[e1 | a] w1'], (m2 w2) as [[e2 | b] w2']; simpl in *;
    try contradiction.
  - now split.
  - now apply Hk.
Qed.

Lemma related_try {A : Type} (R : A -> A -> Prop) (m1 m2 : M A) (h1 h2 : exn -> M A) :
  related R m1 m2 ->
  (forall e1 e2, related R (h1 e1) (h2 e2)) ->
  related R (try_except m1 h1) (try_except m2 h2).
Proof.
  intros Hm Hh w1 w2 Hw. unfold try_except.
  destruct (Hm w1 w2 Hw) as [Hr Hw'].
  destruct (m1 w1) as [[e1 | a] w1'], (m2 w2) as [[e2 | b] w2']; simpl in *;
    try contradiction.
  - now apply Hh.
  - now split.
Qed.

Lemma related_now : related same_reading datetime_now datetime_now.
Proof.
  intros w1 w2 Hw. split; simpl.
  - specialize (Hw 0%nat). now rewrite !Nat.add_0_r in Hw.
  - now apply agree_tick.
Qed.

Lemma file_content_written path data w d :
  file_content path (set_disk w ((path, data) :: d)) = Some data.
Proof. unfold file_content. simpl. now rewrite String.eqb_refl. Qed.

(** The logo goes through a file that is written, read back and removed: what
    comes of it depends on the bytes alone. *)
Lemma add_company_logo pdf company data w :
  let now := clock w (reads w) in
  let logo_path := "temp_logo_" ++ timestamp now ++ ".png" in
  let named := call (call pdf (set_font "Times" 10 "B")) (cell 25 8 company 0 0) in
  let others := filter (other_path logo_path) (disk w) in
  add_company pdf company (Some data) w
  = match image_error data with
    | Some failure =>
        (inl (failure logo_path),
         {| clock := clock w; reads := S (reads w);
            disk := (logo_path, data) :: others |})
    | None =>
        (inr (call named (image data 10)),
         {| clock := clock w; reads := S (reads w);
            disk := filter (other_path logo_path) ((logo_path, data) :: others) |})
    end.
Proof.
  intros now logo_path named others.
  unfold add_company, bind, datetime_now, write_file, pdf_image, os_remove, ret.
  fold now. fold logo_path. fold others. cbv beta iota.
  rewrite file_content_written.
  destruct (image_error data) as [failure|]; [reflexivity|].
  rewrite file_content_written. reflexivity.
Qed.

Lemma related_add_company pdf company logo :
  related eq (add_company pdf company logo) (add_company pdf company logo).
Proof.
  intros w1 w2 Hw. destruct logo as [data|].
  - rewrite !add_company_logo.
    destruct (image_error data); simpl; (split; [auto | now apply agree_tick]).
  - simpl. unfold ret. simpl. now split.
Qed.

Lemma related_output pdf : related eq (pdf_output pdf) (pdf_output pdf).
Proof.
  unfold pdf_output. eapply related_bind; [apply related_now|].
  intros a b [_ Ht]. rewrite Ht. apply related_lift.
Qed.

Lemma related_invoice_fields filename :
  related eq (invoice_fields filename) (invoice_fields filename).
Proof.
  unfold invoice_fields.
  destruct (2 <=? List.length (PyStr.split "-" filename))%nat.
  - now apply related_ret.
  - eapply related_bind; [apply related_now|].
    intros a b [Hd _]. rewrite Hd. now apply related_ret.
Qed.

Lemma related_build_pdf file company logo :
  related eq (build_pdf file company logo) (build_pdf file company logo).
Proof.
  unfold build_pdf.
  eapply related_bind; [apply related_invoice_fields|].
  intros [invoice_nr date] ? <-.
  eapply related_bind; [apply related_lift|]. intros df ? <-.
  eapply related_bind; [apply related_lift|]. intros pdf1 ? <-.
  eapply related_bind; [apply related_lift|]. intros pdf2 ? <-.
  eapply related_bind; [apply related_lift|]. intros total ? <-.
  eapply related_bind; [apply related_add_company|]. intros pdf3 ? <-.
  now apply related_ret.
Qed.

Lemma related_create file company logo :
  related eq (create_pdf_from_excel file company logo)
             (create_pdf_from_excel file company logo).
Proof.
  unfold create_pdf_from_excel. apply related_try.
  - eapply related_bind; [apply related_build_pdf|]. intros [pdf filename] ? <-.
    eapply related_bind; [apply related_output|]. intros data ? <-.
    now apply related_ret.
  - intros e1 e2. apply related_raise.
Qed.

Lemma convert_loop_related files company logo acc1 acc2 w1 w2 :
  agree w1 w2 ->
  fst acc1 = fst acc2 ->
  let r1 := convert_loop files company logo acc1 w1 in
  let r2 := convert_loop files company logo acc2 w2 in
  fst (fst r1) = fst (fst r2) /\
  (List.length (snd (fst r1)) + List.length (snd acc2)
   = List.length (snd (fst r2)) + List.length (snd acc1))%nat /\
  agree (snd r1) (snd r2).
Proof.
  revert acc1 acc2 w1 w2.
  induction files as [|file rest IH]; intros acc1 acc2 w1 w2 Hw Hacc; simpl.
  - split; [exact Hacc | split; [lia | exact Hw]].
  - unfold convert_file.
    destruct (related_create file company logo w1 w2 Hw) as [Hr Hw'].
    destruct (create_pdf_from_excel file company logo w1) as [[e1 | [d1 f1]] w1'],
             (create_pdf_from_excel file company logo w2) as [[e2 | [d2 f2]] w2'];
      simpl in Hr, Hw'; try contradiction.
    + specialize (IH (fst acc1, (snd acc1 ++ [error_line file e1])%list)
                     (fst acc2, (snd acc2 ++ [error_line file e2])%list)
                     w1' w2' Hw' Hacc).
      simpl in IH. rewrite !length_app in IH. simpl in IH.
      destruct IH as (H1 & H2 & H3). split; [exact H1 | split; [lia | exact H3]].
    + inversion Hr; subst.
      apply (IH (dict_set (f2 ++ ".pdf") d2 (fst acc1), snd acc1)
                (dict_set (f2 ++ ".pdf") d2 (fst acc2), snd acc2)); [exact Hw'|].
      simpl. now rewrite Hacc.
Qed.

(** C7, as amended: two runs of [convert] on the same uploads, company name
    and logo, in worlds whose clocks show the same at each reading (the same
    date to the script, the same creation time to the writer), file the same
    documents, byte for byte, under the same names.  The worlds may differ in
    the rest of what the clock shows, which names the temporary logo file,
    and in what the working directory holds.  The same date alone is not
    enough: the writer stamps a document with its creation time. *)
Theorem convert_twice_same_documents files company logo w1 w2 :
  agree w1 w2 ->
  fst (fst (convert files company logo w1)) = fst (fst (convert files company logo w2)).
Proof.
  intros Hw. unfold convert.
  now destruct (convert_loop_related files company logo ([], []) ([], []) w1 w2 Hw eq_refl)
    as (H & _ & _).
Qed.

(** C2, as amended: when the conversion of an upload raises, the loop appends
    exactly the line "❌ {name}: {failure}" to [errors], where the failure
    reads "Error processing {name}: {cause}"; [pdf_files] is left as it was,
    and the loop goes on with the uploads that follow.  When the clock shows
    them the same as it would have, the batch ends with the documents it
    would have without the failed upload. *)
Theorem failure_is_isolated file rest company logo acc w e w' :
  create_pdf_from_excel file company logo w = (inl e, w') ->
  (exists cause,
     str_exn e = "Error processing " ++ name file ++ ": " ++ str_exn cause) /\
  convert_file company logo acc file w
  = ((fst acc, (snd acc ++ [("❌ " ++ name file ++ ": " ++ str_exn e)%string])%list), w') /\
  convert_loop (file :: rest) company logo acc w
  = convert_loop rest company logo
      (fst acc, (snd acc ++ [("❌ " ++ name file ++ ": " ++ str_exn e)%string])%list) w' /\
  (agree w' w ->
   fst (fst (convert_loop (file :: rest) company logo acc w))
   = fst (fst (convert_loop rest company logo acc w))).
Proof.
  intros H.
  pose proof (convert_file_error _ _ _ acc _ _ _ H) as Hstep.
  assert (Hloop : convert_loop (file :: rest) company logo acc w
                  = convert_loop rest company logo
                      (fst acc, (snd acc ++ [error_line file e])%list) w')
    by (simpl; now rewrite Hstep).
  split; [|split; [|split]].
  - destruct (create_error_inv _ _ _ _ _ _ H) as [cause ->]. now exists cause.
  - exact Hstep.
  - exact Hloop.
  - intros Hw. rewrite Hloop.
    now destruct (convert_loop_related rest company logo
                    (fst acc, (snd acc ++ [error_line file e])%list) acc w' w Hw eq_refl)
      as (Hsame & _ & _).
Qed.

(** With a writer that stamps nothing of the clock into the document, the
    same date at each reading is enough for the same documents. *)
Lemma convert_twice_same_date files company logo w1 w2 :
  (forall a b, stamp a = stamp b) ->
  (forall n, date_Ymd (clock w1 (reads w1 + n)%nat)
             = date_Ymd (clock w2 (reads w2 + n)%nat)) ->
  fst (fst (convert files company logo w1)) = fst (fst (convert files company logo w2)).
Proof.
  intros Hstamp Hdate. unfold convert.
  assert (Hw : agree w1 w2) by (intros n; split; [apply Hdate | apply Hstamp]).
  now destruct (convert_loop_related files company logo ([], []) ([], []) w1 w2 Hw eq_refl)
    as (H & _ & _).
Qed.

End Reproducible.

(** ** The total *)

Section Totals.

Context {F : FloatRuntime} {W : PdfWriter}.

Lemma append_assoc (a b c : string) : (a ++ b) ++ c = a ++ (b ++ c).
Proof. induction a as [|ch a IH]; simpl; [reflexivity | now rewrite IH]. Qed.

Lemma append_empty_r (a : string) : a ++ "" = a.
Proof. induction a as [|ch a IH]; simpl; [reflexivity | now rewrite IH]. Qed.

Lemma fold_add_Zsum ns start : fold_left Z.add ns start = start + Zsum ns.
Proof.
  revert start. induction ns as [|n rest IH]; intros start; simpl.
  - lia.
  - rewrite IH. unfold Zsum. lia.
Qed.

Lemma fold_from_error vs e : fold_left add_next vs (inl e) = inl e.
Proof. induction vs as [|v rest IH]; simpl; [reflexivity | exact IH]. Qed.

Lemma fold_ints ns start :
  fold_left add_next (map PInt ns) (inr (PInt start)) = inr (PInt (start + Zsum ns)).
Proof.
  revert start. induction ns as [|n rest IH]; intros start; simpl.
  - f_equal. f_equal. lia.
  - rewrite IH. f_equal. f_equal. unfold Zsum. lia.
Qed.

Lemma fold_texts ts start :
  fold_left add_next (map PStr ts) (inr (PStr start)) = inr (PStr (start ++ join ts)).
Proof.
  revert start. induction ts as [|t rest IH]; intros start; simpl.
  - now rewrite append_empty_r.
  - rewrite IH. now rewrite append_assoc.
Qed.

Lemma add_number_text a x :
  is_text a = false -> is_text x = true -> exists e, py_add a x = inl e.
Proof. destruct a, x; simpl; intros; try discriminate; eauto. Qed.

Lemma add_text_number a x :
  is_text a = true -> is_number x = true -> exists e, py_add a x = inl e.
Proof. unfold is_number. destruct a, x; simpl; intros; try discriminate; eauto. Qed.

Lemma add_numbers a x v :
  is_text a = false -> is_text x = false -> py_add a x = inr v -> is_text v = false.
Proof.
  destruct a, x; simpl; intros Ha Hx H; try discriminate.
  - now inversion H.
  - destruct (int_too_large n); inversion H. reflexivity.
  - destruct (int_too_large n); inversion H. reflexivity.
  - now inversion H.
Qed.

Lemma add_texts a x v :
  is_text a = true -> is_text x = true -> py_add a x = inr v -> is_text v = true.
Proof. destruct a, x; simpl; intros Ha Hx H; try discriminate. now inversion H. Qed.

(** From a number, a text further on stops the sum. *)
Lemma fold_number_meets_text vs a :
  is_text a = false -> existsb is_text vs = true ->
  exists e, fold_left add_next vs (inr a) = inl e.
Proof.
  revert a. induction vs as [|x rest IH]; intros a Ha Hex; simpl in *; [discriminate|].
  destruct (is_text x) eqn:Hx.
  - destruct (add_number_text a x Ha Hx) as [e ->]. exists e. apply fold_from_error.
  - simpl in Hex. destruct (py_add a x) as [e | v] eqn:Hadd.
    + exists e. apply fold_from_error.
    + apply IH; [|exact Hex]. exact (add_numbers a x v Ha Hx Hadd).
Qed.

(** From a text, a number further on stops the sum. *)
Lemma fold_text_meets_number vs a :
  is_text a = true -> existsb is_number vs = true ->
  exists e, fold_left add_next vs (inr a) = inl e.
Proof.
  revert a. induction vs as [|x rest IH]; intros a Ha Hex; simpl in *; [discriminate|].
  destruct (is_number x) eqn:Hx.
  - destruct (add_text_number a x Ha Hx) as [e ->]. exists e. apply fold_from_error.
  - simpl in Hex. destruct (py_add a x) as [e | v] eqn:Hadd.
    + exists e. apply fold_from_error.
    + apply IH; [|exact Hex]. apply (add_texts a x v Ha); [|exact Hadd].
      unfold is_number in Hx. now apply negb_false_iff in Hx.
Qed.

Lemma fill_missing_is_text v : is_text (fill_missing v) = is_text v.
Proof. destruct v; simpl; try reflexivity. now destruct (float_isnan x). Qed.

Lemma existsb_fill_missing (p : pyobj -> bool) vs :
  (forall v, p (fill_missing v) = p v) ->
  existsb p (map fill_missing vs) = existsb p vs.
Proof.
  intros Hp. induction vs as [|v rest IH]; simpl; [reflexivity|]. now rewrite Hp, IH.
Qed.

Lemma object_sum_mixed vs :
  existsb is_text vs = true -> existsb is_number vs = true ->
  exists e, series_sum (Object vs) = inl e.
Proof.
  intros Ht Hn. simpl.
  rewrite <- (existsb_fill_missing is_text vs fill_missing_is_text) in Ht.
  rewrite <- (existsb_fill_missing is_number vs) in Hn
    by (intros v; unfold is_number; now rewrite fill_missing_is_text).
  destruct (map fill_missing vs) as [|v rest]; [discriminate|].
  simpl in *. unfold is_number in Hn. destruct (is_text v) eqn:Hv; simpl in *.
  - now apply fold_text_meets_number.
  - now apply fold_number_meets_text.
Qed.

Lemma fill_missing_ints ns : map fill_missing (map PInt ns) = map PInt ns.
Proof. induction ns as [|n rest IH]; simpl; [reflexivity | now rewrite IH]. Qed.

Lemma fill_missing_texts ts : map fill_missing (map PStr ts) = map PStr ts.
Proof. induction ts as [|t rest IH]; simpl; [reflexivity | now rewrite IH]. Qed.

Lemma object_sum_ints ns : series_sum (Object (map PInt ns)) = inr (PInt (Zsum ns)).
Proof.
  simpl. rewrite fill_missing_ints. destruct ns as [|n rest]; [reflexivity|].
  simpl. apply fold_ints.
Qed.

Lemma object_sum_texts ts :
  ts <> [] -> series_sum (Object (map PStr ts)) = inr (PStr (join ts)).
Proof.
  intros Hne. simpl. rewrite fill_missing_texts. destruct ts as [|t rest]; [congruence|].
  simpl. apply fold_texts.
Qed.

Lemma build_fails_with_total file company logo w df e :
  read_excel file "Sheet 1" = inr df ->
  total_price_sum df = inl e ->
  exists e' w', build_pdf file company logo w = (inl e', w').
Proof.
  intros Hread Hsum. unfold build_pdf, bind, lift.
  destruct (invoice_fields (stem (name file)) w) as [[e0 | [invoice_nr date]] w0];
    [eauto|].
  rewrite Hread.
  destruct (add_table_header _ df) as [e1 | pdf1]; [eauto|].
  destruct (add_table_rows pdf1 (iterrows df)) as [e2 | pdf2]; [eauto|].
  rewrite Hsum. eauto.
Qed.

Lemma create_fails_with_build file company logo w e w' :
  build_pdf file company logo w = (inl e, w') ->
  create_pdf_from_excel file company logo w = (inl (processing_error file e), w').
Proof.
  intros H. unfold create_pdf_from_excel, try_except, bind, raise. now rewrite H.
Qed.

(** C3, as amended: the total is the sum of the [total_price] column as the
    table library computes it, on the column as the reader returned it.  For
    an integer column it is the sum of the entries in 64-bit arithmetic, for
    a float column the float sum; for a column of Python values, the entries
    added left to right: the exact sum for integers, the texts joined one
    after the other for a column of nothing but texts, and an exception,
    which fails the conversion, for a column without missing cells that
    holds both a text and a number.  (The reader returns a column of Python
    values when some text cell does not read as a number: texts that all
    read as numbers come as a numeric column and are summed as numbers.) *)
Theorem total_is_column_sum file company logo w df column :
  read_excel file "Sheet 1" = inr df ->
  df_getitem df "total_price" = inr column ->
  match column with
  | Int64 ns => total_price_sum df = inr (PInt (wrap64 (Zsum ns)))
  | Float64 xs => total_price_sum df = inr (PFloat (float_sum xs))
  | Object vs =>
      (forall ns, vs = map PInt ns -> total_price_sum df = inr (PInt (Zsum ns))) /\
      (forall ts, vs = map PStr ts -> ts <> [] ->
                  total_price_sum df = inr (PStr (join ts))) /\
      (existsb is_text vs = true -> existsb is_number vs = true ->
       existsb is_missing vs = false ->
       (exists e, total_price_sum df = inl e) /\
       (exists e w', create_pdf_from_excel file company logo w = (inl e, w')))
  end.
Proof.
  intros Hread Hcol. unfold total_price_sum. rewrite Hcol. simpl rbind.
  destruct column as [ns | xs | vs].
  - simpl. now rewrite fold_add_Zsum.
  - reflexivity.
  - split; [|split].
    + intros ns ->. apply object_sum_ints.
    + intros ts -> Hne. now apply object_sum_texts.
    + intros Ht Hn _. destruct (object_sum_mixed vs Ht Hn) as [e He].
      split; [now exists e|].
      destruct (build_fails_with_total file company logo w df e Hread) as (e' & w' & Hb).
      { unfold total_price_sum. rewrite Hcol. exact He. }
      exists (processing_error file e'), w'. now apply create_fails_with_build.
Qed.

End Totals.

(** ** The stem and its split *)

Section Names.

Import PyStr.

Lemma length_append (a b : string) :
  String.length (a ++ b) = (String.length a + String.length b)%nat.
Proof. induction a as [|ch a IH]; simpl; [reflexivity | now rewrite IH]. Qed.

Lemma contains_append c (a b : string) :
  contains c (a ++ b) = contains c a || contains c b.
Proof.
  induction a as [|ch a IH]; simpl; [reflexivity|].
  now rewrite IH, orb_assoc.
Qed.

Lemma split_not_nil sep s : split sep s <> [].
Proof.
  destruct s as [|c rest]; simpl; [discriminate|].
  destruct (Ascii.eqb c sep); [discriminate|].
  destruct (split sep rest); discriminate.
Qed.

(** A text without the separator is one piece. *)
Lemma split_without sep s : contains sep s = false -> split sep s = [s].
Proof.
  induction s as [|c rest IH]; simpl; intros H; [reflexivity|].
  apply orb_false_iff in H. destruct H as [Hc Hrest].
  rewrite Hc, (IH Hrest). reflexivity.
Qed.

(** The first piece ends at the first separator. *)
Lemma split_at_first sep a rest :
  contains sep a = false ->
  split sep (a ++ String sep rest) = a :: split sep rest.
Proof.
  induction a as [|c a IH]; simpl; intros H.
  - now rewrite Ascii.eqb_refl.
  - apply orb_false_iff in H. destruct H as [Hc Ha].
    rewrite Hc, (IH Ha). reflexivity.
Qed.

Lemma rfind_without c s : contains c s = false -> rfind c s = None.
Proof.
  induction s as [|d rest IH]; simpl; intros H; [reflexivity|].
  apply orb_false_iff in H. destruct H as [Hd Hrest].
  now rewrite (IH Hrest), Hd.
Qed.

Lemma rfind_last c a rest :
  contains c rest = false ->
  rfind c (a ++ String c rest) = Some (String.length a).
Proof.
  intros H. induction a as [|d a IH]; simpl.
  - now rewrite (rfind_without c rest H), Ascii.eqb_refl.
  - now rewrite IH.
Qed.

Lemma prefix_append a b : prefix (String.length a) (a ++ b) = a.
Proof.
  unfold prefix. induction a as [|c a IH]; simpl.
  - now destruct b.
  - now rewrite IH.
Qed.

Lemma name_stem_strips base ext :
  base <> "" -> ext <> "" -> contains "." ext = false ->
  name_stem (base ++ "." ++ ext) = base.
Proof.
  intros Hbase Hext Hdot. unfold name_stem. simpl append.
  rewrite (rfind_last "." base ext Hdot).
  rewrite length_append. simpl String.length.
  destruct base as [|b0 base']; [congruence|].
  destruct ext as [|e0 ext']; [congruence|].
  simpl String.length.
  replace ((0 <? S (String.length base'))%nat
           && (S (String.length base') <? S (String.length base') + S (S (String.length ext')) - 1)%nat)
    with true.
  - exact (prefix_append (String b0 base') _).
  - symmetry. apply andb_true_iff. split; apply Nat.ltb_lt; lia.
Qed.

Lemma path_name_plain p :
  contains "/" p = false -> p <> "" -> p <> "." -> path_name p = p.
Proof.
  intros Hslash Hne Hdot. unfold path_name. rewrite (split_without "/" p Hslash).
  simpl. apply String.eqb_neq in Hne. apply String.eqb_neq in Hdot.
  now rewrite Hne, Hdot.
Qed.

Lemma stem_strips_extension base ext :
  base <> "" -> ext <> "" ->
  contains "/" (base ++ "." ++ ext) = false -> contains "." ext = false ->
  stem (base ++ "." ++ ext) = base.
Proof.
  intros Hbase Hext Hslash Hdot. unfold stem.
  rewrite path_name_plain; [now apply name_stem_strips | exact Hslash | |].
  - destruct base; [congruence | discriminate].
  - destruct base as [|b0 [|b1 base']]; [congruence | | discriminate].
    simpl. destruct ext; [congruence | discriminate].
Qed.

(** C5: the stem is the file name without its extension, and the header
    fields come from cutting the stem at its hyphens: when the stem reads
    [a-b] or [a-b-...], the invoice number is [a] and the date is [b],
    whatever follows; when the stem has no hyphen, the invoice number is the
    whole stem and the date is the date the clock shows, as YYYYMMDD. *)
Theorem invoice_number_and_date (file_name : string) (w : world) :
  let filename := stem file_name in
  (forall base ext,
      file_name = base ++ "." ++ ext -> base <> "" -> ext <> "" ->
      contains "/" file_name = false -> contains "." ext = false ->
      filename = base) /\
  (forall a b rest,
      filename = a ++ "-" ++ b ++ rest ->
      contains "-" a = false -> contains "-" b = false ->
      rest = "" \/ (exists more, rest = "-" ++ more) ->
      (2 <= List.length (split "-" filename))%nat /\
      invoice_fields filename w = (inr (a, b), w)) /\
  (contains "-" filename = false ->
   List.length (split "-" filename) = 1%nat /\
   invoice_fields filename w
   = (inr (filename, date_Ymd (clock w (reads w))),
      {| clock := clock w; reads := S (reads w); disk := disk w |})).
Proof.
  intros filename. split; [|split].
  - intros base ext -> Hbase Hext Hslash Hdot. now apply stem_strips_extension.
  - intros a b rest Hname Ha Hb Hrest.
    assert (Hsplit : exists pieces, split "-" filename = a :: b :: pieces).
    { rewrite Hname. simpl append. rewrite (split_at_first "-" a _ Ha).
      destruct Hrest as [-> | [more ->]].
      - rewrite append_empty_r, (split_without "-" b Hb). now exists [].
      - simpl append. rewrite (split_at_first "-" b _ Hb). now eexists. }
    destruct Hsplit as [pieces Hsplit]. unfold invoice_fields.
    rewrite Hsplit. simpl. split; [lia | reflexivity].
  - intros Hnone. unfold invoice_fields.
    rewrite (split_without "-" filename Hnone). simpl. split; reflexivity.
Qed.

End Names.

(** ** The document *)

Section Document.

Context {F : FloatRuntime} {W : PdfWriter}.

Implicit Types (file : UploadedFile) (w : world) (pdf : FPDF).

Lemma invoice_fields_total filename w :
  exists invoice_nr date w0, invoice_fields filename w = (inr (invoice_nr, date), w0).
Proof.
  unfold invoice_fields, bind, datetime_now, ret.
  destruct (2 <=? List.length (PyStr.split "-" filename))%nat; eauto.
Qed.

Lemma build_pdf_ok_inv file company logo w pdf filename w' :
  build_pdf file company logo w = (inr (pdf, filename), w') ->
  exists invoice_nr date w0 df pdf1 pdf2 total_sum,
    invoice_fields (stem (name file)) w = (inr (invoice_nr, date), w0) /\
    read_excel file "Sheet 1" = inr df /\
    add_table_header
      (add_invoice_header (call (FPDF_new "P" "mm" "A4") add_page) invoice_nr date) df
      = inr pdf1 /\
    add_table_rows pdf1 (iterrows df) = inr pdf2 /\
    total_price_sum df = inr total_sum /\
    add_company (add_total_text (add_total_row pdf2 total_sum) total_sum) company logo w0
      = (inr pdf, w').
Proof.
  unfold build_pdf, bind, lift, ret. intros H.
  destruct (invoice_fields (stem (name file)) w) as [[e0 | [invoice_nr date]] w0] eqn:H0;
    [discriminate H|].
  destruct (read_excel file "Sheet 1") as [e1 | df] eqn:H1; [discriminate H|].
  destruct (add_table_header _ df) as [e2 | pdf1] eqn:H2; [discriminate H|].
  destruct (add_table_rows pdf1 (iterrows df)) as [e3 | pdf2] eqn:H3; [discriminate H|].
  destruct (total_price_sum df) as [e4 | total_sum] eqn:H4; [discriminate H|].
  destruct (add_company _ company logo w0) as [[e5 | pdf5] w5] eqn:H5; [discriminate H|].
  inversion H; subst.
  exists invoice_nr, date, w0, df, pdf1, pdf2, total_sum. now repeat split.
Qed.

Lemma build_pdf_eval file company logo w invoice_nr date w0 df pdf1 pdf2 total_sum :
  invoice_fields (stem (name file)) w = (inr (invoice_nr, date), w0) ->
  read_excel file "Sheet 1" = inr df ->
  add_table_header
    (add_invoice_header (call (FPDF_new "P" "mm" "A4") add_page) invoice_nr date) df
    = inr pdf1 ->
  add_table_rows pdf1 (iterrows df) = inr pdf2 ->
  total_price_sum df = inr total_sum ->
  build_pdf file company logo w
  = match add_company (add_total_text (add_total_row pdf2 total_sum) total_sum)
                      company logo w0 with
    | (inr pdf, w') => (inr (pdf, stem (name file)), w')
    | (inl e, w') => (inl e, w')
    end.
Proof.
  intros H0 H1 H2 H3 H4. unfold build_pdf, bind, lift, ret.
  rewrite H0, H1, H2, H3, H4.
  now destruct (add_company _ company logo w0) as [[e | pdf] w'].
Qed.

Lemma add_company_ok pdf0 company logo w :
  logo_decodes logo ->
  exists w',
    add_company pdf0 company logo w
    = (inr {| orientation := orientation pdf0; unit_ := unit_ pdf0; format := format pdf0;
              calls := calls pdf0
                       ++ [set_font "Times" 10 "B"; cell 25 8 company 0 0]
                       ++ logo_calls logo |}, w').
Proof.
  intros Hlogo. destruct logo as [data|].
  - rewrite add_company_logo, (Hlogo data eq_refl). eexists.
    unfold call. simpl. now rewrite <- !app_assoc.
  - eexists. unfold add_company, ret, call. simpl.
    now rewrite <- !app_assoc.
Qed.

Lemma add_company_calls pdf0 company logo w pdf w' :
  add_company pdf0 company logo w = (inr pdf, w') ->
  calls pdf = (calls pdf0 ++ [set_font "Times" 10 "B"; cell 25 8 company 0 0]
               ++ logo_calls logo)%list.
Proof.
  destruct logo as [data|].
  - rewrite add_company_logo. destruct (image_error data); intros H; inversion H.
    unfold call. simpl. now rewrite <- !app_assoc.
  - unfold add_company, ret, call. intros H. inversion H. simpl.
    now rewrite <- !app_assoc.
Qed.

Lemma total_calls pdf total_sum :
  calls (add_total_text (add_total_row pdf total_sum) total_sum)
  = (calls pdf
     ++ [ set_font "Times" 10 ""; set_text_color 80 80 80;
          cell 30 8 "" 1 0; cell 70 8 "" 1 0; cell 30 8 "" 1 0; cell 30 8 "" 1 0;
          cell 30 8 (py_str total_sum) 1 1;
          set_font "Times" 10 "B";
          cell 30 8 ("The total price is " ++ py_str total_sum) 0 1 ])%list.
Proof. unfold add_total_text, add_total_row, call. simpl. now rewrite <- !app_assoc. Qed.

End Document.

(** C6: in every upload that converts, the summary line is the text "The
    total price is " followed by [str] of the sum of the [total_price]
    column, drawn in bold right after the total row and before the company
    name.  With binary64 floats, the rows whose totals are 100, 250.5 and
    49.5 sum to 400.0 and the line reads "The total price is 400.0". *)
Theorem summary_line_shows_total :
  (forall (F : FloatRuntime) (W : PdfWriter) (file : UploadedFile)
          (company : string) (logo : option (list byte)) (w w' : world)
          (pdf_bytes : list byte) (filename : string),
      create_pdf_from_excel file company logo w = (inr (pdf_bytes, filename), w') ->
      exists pdf df total_sum before,
        fst (build_pdf file company logo w) = inr (pdf, filename) /\
        read_excel file "Sheet 1" = inr df /\
        total_price_sum df = inr total_sum /\
        calls pdf
        = (before
           ++ [ cell 30 8 (py_str total_sum) 1 1;
                set_font "Times" 10 "B";
                cell 30 8 ("The total price is " ++ py_str total_sum) 0 1;
                set_font "Times" 10 "B";
                cell 25 8 company 0 0 ]
           ++ logo_calls logo)%list)
  /\
  (@total_price_sum binary64 Samples.three_items
     = inr (@PFloat binary64 (Binary64.of_Z 400)) /\
   py_str (@PFloat binary64 (Binary64.of_Z 400)) = "400.0" /\
   exists pdf,
     Samples.run_build (Samples.upload "2024-001.xlsx" Samples.three_items)
       = inr (pdf, "2024-001") /\
     skipn 39 (calls pdf)
     = [ cell 30 8 "400.0" 1 1;
         set_font "Times" 10 "B";
         cell 30 8 "The total price is 400.0" 0 1;
         set_font "Times" 10 "B";
         cell 25 8 "PythonHow" 0 0 ]).
Proof.
  split.
  - intros F W file company logo w w' pdf_bytes filename H.
    destruct (create_ok_inv _ _ _ _ _ _ _ H) as (_ & pdf & w1 & Hbuild & _).
    destruct (build_pdf_ok_inv _ _ _ _ _ _ _ Hbuild)
      as (invoice_nr & date & w0 & df & pdf1 & pdf2 & total_sum
          & _ & Hread & _ & _ & Hsum & Hcompany).
    exists pdf, df, total_sum.
    exists (calls pdf2
            ++ [ set_font "Times" 10 ""; set_text_color 80 80 80;
                 cell 30 8 "" 1 0; cell 70 8 "" 1 0; cell 30 8 "" 1 0;
                 cell 30 8 "" 1 0 ])%list.
    rewrite Hbuild. repeat split; try assumption.
    rewrite (add_company_calls _ _ _ _ _ _ Hcompany), total_calls.
    rewrite <- !app_assoc. reflexivity.
  - split; [reflexivity | split; [reflexivity|]].
    eexists. split; reflexivity.
Qed.

(** ** The table *)

Section Table.

Context {F : FloatRuntime} {W : PdfWriter}.

Implicit Types (file : UploadedFile) (w : world) (pdf : FPDF) (df : DataFrame).

Lemma header_texts_ok labels :
  forallb is_text labels = true -> exists titles, rmap header_text labels = inr titles.
Proof.
  induction labels as [|label rest IH]; simpl; intros H; [now eexists|].
  apply andb_true_iff in H. destruct H as [Hl Hrest].
  destruct (IH Hrest) as [titles ->].
  destruct label; try discriminate. simpl. now eexists.
Qed.

Lemma add_table_header_ok pdf df h0 h1 h2 h3 h4 extra :
  df_columns df = PStr h0 :: PStr h1 :: PStr h2 :: PStr h3 :: PStr h4 :: extra ->
  forallb is_text extra = true ->
  add_table_header pdf df
  = inr {| orientation := orientation pdf; unit_ := unit_ pdf; format := format pdf;
           calls := calls pdf
                    ++ [ set_font "Times" 10 "B"; set_text_color 80 80 80;
                         cell 30 8 (titled h0) 1 0; cell 70 8 (titled h1) 1 0;
                         cell 30 8 (titled h2) 1 0; cell 30 8 (titled h3) 1 0;
                         cell 30 8 (titled h4) 1 1 ] |}.
Proof.
  intros Hcols Hextra. unfold add_table_header. rewrite Hcols.
  destruct (header_texts_ok extra Hextra) as [titles Htitles].
  simpl. rewrite Htitles. simpl. unfold call. simpl.
  now rewrite <- !app_assoc.
Qed.

Lemma series_item_some common (s : Series) i :
  (i < series_len s)%nat -> exists v, series_item common s i = Some v.
Proof.
  intros Hi. destruct s as [ns | xs | vs]; simpl in *.
  - destruct (nth_error ns i) eqn:E; [simpl; eauto|].
    apply nth_error_None in E. lia.
  - destruct (nth_error xs i) eqn:E; [simpl; eauto|].
    apply nth_error_None in E. lia.
  - destruct (nth_error vs i) eqn:E; [eauto|].
    apply nth_error_None in E. lia.
Qed.

(** In a rectangular table every row holds a value under every label. *)
Lemma row_getitem_ok df i key :
  rectangular df -> (i < nrows df)%nat -> In (PStr key) (df_columns df) ->
  exists v, row_getitem (row_at df i) key = inr v.
Proof.
  intros Hrect Hi Hin. unfold df_columns in Hin.
  apply in_map_iff in Hin. destruct Hin as [[label s] [Hlabel Hcol]].
  simpl in Hlabel. subst label.
  destruct (series_item_some (common_dtype df) s i) as [v Hv].
  { pose proof (Hrect _ Hcol) as Hlen. simpl in Hlen. rewrite Hlen. exact Hi. }
  assert (Hentry : In (PStr key, v) (row_at df i)).
  { unfold row_at. apply in_flat_map. exists (PStr key, s). split; [exact Hcol|].
    simpl. rewrite Hv. now left. }
  unfold row_getitem.
  destruct (find (fun entry => label_is key (fst entry)) (row_at df i)) as [entry|] eqn:E.
  - now eexists.
  - apply (find_none _ _ E) in Hentry. simpl in Hentry.
    now rewrite String.eqb_refl in Hentry.
Qed.

Lemma add_table_row_ok pdf (row : Row) :
  (forall key, In key required_columns -> exists v, row_getitem row key = inr v) ->
  add_table_row pdf row
  = inr {| orientation := orientation pdf; unit_ := unit_ pdf; format := format pdf;
           calls := calls pdf ++ row_calls row |}.
Proof.
  intros Hkeys. unfold add_table_row, row_calls, shown.
  destruct (Hkeys "product_id") as [v1 H1]; [simpl; tauto|].
  destruct (Hkeys "product_name") as [v2 H2]; [simpl; tauto|].
  destruct (Hkeys "amount_purchased") as [v3 H3]; [simpl; tauto|].
  destruct (Hkeys "price_per_unit") as [v4 H4]; [simpl; tauto|].
  destruct (Hkeys "total_price") as [v5 H5]; [simpl; tauto|].
  rewrite H1, H2, H3, H4, H5. simpl. unfold call. simpl.
  now rewrite <- !app_assoc.
Qed.

Lemma add_table_rows_ok (rows : list Row) pdf :
  (forall row, In row rows ->
     forall key, In key required_columns -> exists v, row_getitem row key = inr v) ->
  add_table_rows pdf rows
  = inr {| orientation := orientation pdf; unit_ := unit_ pdf; format := format pdf;
           calls := calls pdf ++ flat_map row_calls rows |}.
Proof.
  revert pdf. induction rows as [|row rest IH]; intros pdf Hrows; simpl.
  - rewrite app_nil_r. now destruct pdf.
  - rewrite (add_table_row_ok pdf row) by (apply Hrows; now left).
    simpl. rewrite IH by (intros r Hr; apply Hrows; now right).
    simpl. now rewrite <- app_assoc.
Qed.

Lemma iterrows_ok df :
  rectangular df ->
  (forall key, In key required_columns -> In (PStr key) (df_columns df)) ->
  forall row, In row (iterrows df) ->
    forall key, In key required_columns -> exists v, row_getitem row key = inr v.
Proof.
  intros Hrect Hcols row Hrow key Hkey. unfold iterrows in Hrow.
  apply in_map_iff in Hrow. destruct Hrow as [i [<- Hi]].
  apply in_seq in Hi. apply row_getitem_ok; [exact Hrect | lia | now apply Hcols].
Qed.

Lemma flat_map_row_calls_length (rows : list Row) :
  List.length (flat_map row_calls rows) = (7 * List.length rows)%nat.
Proof. induction rows as [|row rest IH]; simpl; [reflexivity | rewrite IH; lia]. Qed.

Lemma create_eval file company logo w pdf filename w1 :
  build_pdf file company logo w = (inr (pdf, filename), w1) ->
  create_pdf_from_excel file company logo w
  = match pdf_output pdf w1 with
    | (inr pdf_bytes, w2) => (inr (pdf_bytes, filename), w2)
    | (inl e, w2) => (inl (processing_error file e), w2)
    end.
Proof.
  intros H. unfold create_pdf_from_excel, try_except, bind, ret, raise. rewrite H.
  now destruct (pdf_output pdf w1) as [[e | data] w2].
Qed.

(** Once the document is drawn, the conversion ends as the writer does: with
    the bytes it makes of the document and of the creation time it takes of
    the next reading of the clock, or with its exception, wrapped. *)
Lemma create_by_output file company logo w pdf filename w1 :
  build_pdf file company logo w = (inr (pdf, filename), w1) ->
  create_pdf_from_excel file company logo w
  = (match output pdf (stamp (clock w1 (reads w1))) with
     | inr pdf_bytes => inr (pdf_bytes, filename)
     | inl e => inl (processing_error file e)
     end,
     {| clock := clock w1; reads := S (reads w1); disk := disk w1 |}).
Proof.
  intros H. rewrite (create_eval _ _ _ _ _ _ _ H).
  unfold pdf_output, bind, datetime_now, lift.
  now destruct (output pdf (stamp (clock w1 (reads w1)))).
Qed.

(** C9, as amended: a sheet with more than five columns, all with text
    headers and the five required names among them, converts like any other.
    The header row shows the first five headers of the sheet, title-cased
    with spaces for underscores (stated for headers of ASCII characters),
    every body row shows the five required fields and no other, and once the
    total is computed and the logo decoded the only step left that can fail
    is the writer's: the conversion returns the bytes the writer makes of
    this document, or fails with the writer's exception. *)
Theorem extra_columns_are_not_drawn file company logo w df h0 h1 h2 h3 h4 extra total_sum :
  read_excel file "Sheet 1" = inr df ->
  df_columns df = PStr h0 :: PStr h1 :: PStr h2 :: PStr h3 :: PStr h4 :: extra ->
  forallb ascii_only [h0; h1; h2; h3; h4] = true ->
  extra <> [] ->
  forallb is_text extra = true ->
  (forall key, In key required_columns -> In (PStr key) (df_columns df)) ->
  rectangular df ->
  total_price_sum df = inr total_sum ->
  logo_decodes logo ->
  exists invoice_nr date w1,
    let pdf :=
      {| orientation := "P"; unit_ := "mm"; format := "A4";
         calls :=
           [ add_page;
             set_font "Times" 16 "B"; cell 50 8 ("Invoice nr." ++ invoice_nr) 0 1;
             set_font "Times" 16 "B"; cell 50 8 ("Date: " ++ date) 0 1;
             set_font "Times" 10 "B"; set_text_color 80 80 80;
             cell 30 8 (titled h0) 1 0; cell 70 8 (titled h1) 1 0;
             cell 30 8 (titled h2) 1 0; cell 30 8 (titled h3) 1 0;
             cell 30 8 (titled h4) 1 1 ]
           ++ flat_map row_calls (iterrows df)
           ++ [ set_font "Times" 10 ""; set_text_color 80 80 80;
                cell 30 8 "" 1 0; cell 70 8 "" 1 0; cell 30 8 "" 1 0; cell 30 8 "" 1 0;
                cell 30 8 (py_str total_sum) 1 1;
                set_font "Times" 10 "B";
                cell 30 8 ("The total price is " ++ py_str total_sum) 0 1;
                set_font "Times" 10 "B"; cell 25 8 company 0 0 ]
           ++ logo_calls logo |} in
    fst (invoice_fields (stem (name file)) w) = inr (invoice_nr, date) /\
    build_pdf file company logo w = (inr (pdf, stem (name file)), w1) /\
    create_pdf_from_excel file company logo w
    = (match output pdf (stamp (clock w1 (reads w1))) with
       | inr pdf_bytes => inr (pdf_bytes, stem (name file))
       | inl e => inl (processing_error file e)
       end,
       {| clock := clock w1; reads := S (reads w1); disk := disk w1 |}).
Proof.
  intros Hread Hcols _ _ Hextra Hnames Hrect Hsum Hlogo.
  destruct (invoice_fields_total (stem (name file)) w) as (invoice_nr & date & w0 & Hfields).
  pose proof (add_table_header_ok
                (add_invoice_header (call (FPDF_new "P" "mm" "A4") add_page) invoice_nr date)
                df h0 h1 h2 h3 h4 extra Hcols Hextra) as Hheader.
  match type of Hheader with
  | _ = inr ?pdf1 =>
      pose proof (add_table_rows_ok (iterrows df) pdf1 (iterrows_ok df Hrect Hnames))
        as Hrows
  end.
  pose proof (build_pdf_eval file company logo w _ _ _ _ _ _ _
                Hfields Hread Hheader Hrows Hsum) as Hbuild.
  match type of Hbuild with
  | context [add_company ?pdf3 company logo w0] =>
      destruct (add_company_ok pdf3 company logo w0 Hlogo) as [w1 Hcompany]
  end.
  rewrite Hcompany in Hbuild.
  exists invoice_nr, date, w1. cbv zeta.
  match type of Hbuild with
  | _ = (inr (?p, _), _) =>
      match goal with
      | |- _ /\ build_pdf _ _ _ _ = (inr (?q, _), _) /\ _ => assert (Hpdf : p = q)
      end
  end.
  { rewrite total_calls. simpl. rewrite <- !app_assoc. reflexivity. }
  rewrite <- Hpdf. split; [now rewrite Hfields | split; [exact Hbuild|]].
  exact (create_by_output _ _ _ _ _ _ _ Hbuild).
Qed.

End Table.

Section EmptyTable.

Context {F : FloatRuntime} {W : PdfWriter}.

(** C10, as amended: of a sheet that holds the five-column header and no
    data row the script draws a document with no body row, whose total row
    shows 0 and whose summary line reads "The total price is 0", provided
    the logo, when there is one, decodes.  The conversion then ends as the
    writer does on that document: it returns the bytes the writer makes of
    it, and it fails, with the writer's exception wrapped, when the writer
    cannot write it out.  (A sheet read with nothing under its header has
    columns of Python values; an empty integer column gives the same.) *)
Theorem header_only_sheet (file : UploadedFile) company logo w (df : DataFrame) column :
  read_excel file "Sheet 1" = inr df ->
  df_columns df = map PStr required_columns ->
  nrows df = 0%nat ->
  df_getitem df "total_price" = inr column ->
  column = Object [] \/ column = Int64 [] ->
  logo_decodes logo ->
  exists invoice_nr date w1,
    let pdf :=
      {| orientation := "P"; unit_ := "mm"; format := "A4";
         calls :=
           [ add_page;
             set_font "Times" 16 "B"; cell 50 8 ("Invoice nr." ++ invoice_nr) 0 1;
             set_font "Times" 16 "B"; cell 50 8 ("Date: " ++ date) 0 1;
             set_font "Times" 10 "B"; set_text_color 80 80 80;
             cell 30 8 "Product Id" 1 0; cell 70 8 "Product Name" 1 0;
             cell 30 8 "Amount Purchased" 1 0; cell 30 8 "Price Per Unit" 1 0;
             cell 30 8 "Total Price" 1 1;
             set_font "Times" 10 ""; set_text_color 80 80 80;
             cell 30 8 "" 1 0; cell 70 8 "" 1 0; cell 30 8 "" 1 0; cell 30 8 "" 1 0;
             cell 30 8 "0" 1 1;
             set_font "Times" 10 "B"; cell 30 8 "The total price is 0" 0 1;
             set_font "Times" 10 "B"; cell 25 8 company 0 0 ]
           ++ logo_calls logo |} in
    fst (invoice_fields (stem (name file)) w) = inr (invoice_nr, date) /\
    iterrows df = [] /\
    total_price_sum df = inr (PInt 0) /\
    build_pdf file company logo w = (inr (pdf, stem (name file)), w1) /\
    create_pdf_from_excel file company logo w
    = (match output pdf (stamp (clock w1 (reads w1))) with
       | inr pdf_bytes => inr (pdf_bytes, stem (name file))
       | inl e => inl (processing_error file e)
       end,
       {| clock := clock w1; reads := S (reads w1); disk := disk w1 |}).
Proof.
  intros Hread Hcols Hrows Hcol Hempty Hlogo.
  destruct (invoice_fields_total (stem (name file)) w) as (invoice_nr & date & w0 & Hfields).
  assert (Hiter : iterrows df = []) by (unfold iterrows; now rewrite Hrows).
  assert (Hsum : total_price_sum df = inr (PInt 0)).
  { unfold total_price_sum. rewrite Hcol. now destruct Hempty as [-> | ->]. }
  pose proof (add_table_header_ok
                (add_invoice_header (call (FPDF_new "P" "mm" "A4") add_page) invoice_nr date)
                df _ _ _ _ _ [] Hcols eq_refl) as Hheader.
  match type of Hheader with
  | _ = inr ?pdf1 =>
      assert (Hbody : add_table_rows pdf1 (iterrows df) = inr pdf1)
        by (now rewrite Hiter)
  end.
  pose proof (build_pdf_eval file company logo w _ _ _ _ _ _ _
                Hfields Hread Hheader Hbody Hsum) as Hbuild.
  match type of Hbuild with
  | context [add_company ?pdf3 company logo w0] =>
      destruct (add_company_ok pdf3 company logo w0 Hlogo) as [w1 Hcompany]
  end.
  rewrite Hcompany in Hbuild.
  exists invoice_nr, date, w1. cbv zeta.
  match type of Hbuild with
  | _ = (inr (?p, _), _) =>
      match goal with
      | |- _ /\ _ /\ _ /\ build_pdf _ _ _ _ = (inr (?q, _), _) /\ _ =>
          assert (Hpdf : p = q)
      end
  end.
  { rewrite total_calls. simpl. rewrite <- ?app_assoc. reflexivity. }
  rewrite <- Hpdf.
  split; [now rewrite Hfields | split; [exact Hiter | split; [exact Hsum | split; [exact Hbuild|]]]].
  exact (create_by_output _ _ _ _ _ _ _ Hbuild).
Qed.

End EmptyTable.

(** ** What makes an upload fail *)

Section Failures.

Context {F : FloatRuntime} {W : PdfWriter}.

Implicit Types (file : UploadedFile) (w : world) (pdf : FPDF) (df : DataFrame).

(** Reading the header fields leaves the directory alone and reads the clock
    at most once. *)
Lemma invoice_fields_world filename w :
  exists invoice_nr date w0,
    invoice_fields filename w = (inr (invoice_nr, date), w0) /\
    clock w0 = clock w /\ disk w0 = disk w /\
    (reads w <= reads w0 <= reads w + 1)%nat.
Proof.
  unfold invoice_fields, bind, datetime_now, ret.
  destruct (2 <=? List.length (PyStr.split "-" filename))%nat;
    do 3 eexists; (split; [reflexivity|]); simpl; repeat split; lia.
Qed.

(** An exception before the company line ends the conversion with the world
    as the header fields left it. *)
Lemma create_fails_early file company logo w e :
  (forall invoice_nr date w0,
      invoice_fields (stem (name file)) w = (inr (invoice_nr, date), w0) ->
      build_pdf file company logo w = (inl e, w0)) ->
  fst (create_pdf_from_excel file company logo w) = inl (processing_error file e) /\
  disk (snd (create_pdf_from_excel file company logo w)) = disk w.
Proof.
  intros Hbuild.
  destruct (invoice_fields_world (stem (name file)) w)
    as (invoice_nr & date & w0 & Hfields & _ & Hdisk & _).
  rewrite (create_fails_with_build _ _ _ _ _ _ (Hbuild _ _ _ Hfields)). now split.
Qed.

Lemma build_fails_at_read file company logo w e invoice_nr date w0 :
  read_excel file "Sheet 1" = inl e ->
  invoice_fields (stem (name file)) w = (inr (invoice_nr, date), w0) ->
  build_pdf file company logo w = (inl e, w0).
Proof.
  intros Hread Hfields. unfold build_pdf, bind, lift. now rewrite Hfields, Hread.
Qed.

Lemma build_fails_at_header file company logo w df e invoice_nr date w0 :
  read_excel file "Sheet 1" = inr df ->
  (forall pdf, add_table_header pdf df = inl e) ->
  invoice_fields (stem (name file)) w = (inr (invoice_nr, date), w0) ->
  build_pdf file company logo w = (inl e, w0).
Proof.
  intros Hread Hheader Hfields. unfold build_pdf, bind, lift.
  now rewrite Hfields, Hread, Hheader.
Qed.

Lemma build_fails_at_rows file company logo w df e invoice_nr date w0 :
  read_excel file "Sheet 1" = inr df ->
  (forall pdf, exists pdf1, add_table_header pdf df = inr pdf1) ->
  (forall pdf, add_table_rows pdf (iterrows df) = inl e) ->
  invoice_fields (stem (name file)) w = (inr (invoice_nr, date), w0) ->
  build_pdf file company logo w = (inl e, w0).
Proof.
  intros Hread Hheader Hrows Hfields. unfold build_pdf, bind, lift.
  rewrite Hfields, Hread.
  destruct (Hheader (add_invoice_header (call (FPDF_new "P" "mm" "A4") add_page)
                                        invoice_nr date)) as [pdf1 ->].
  now rewrite Hrows.
Qed.

Lemma build_fails_at_total file company logo w df e invoice_nr date w0 :
  read_excel file "Sheet 1" = inr df ->
  (forall pdf, exists pdf1, add_table_header pdf df = inr pdf1) ->
  (forall pdf, exists pdf2, add_table_rows pdf (iterrows df) = inr pdf2) ->
  total_price_sum df = inl e ->
  invoice_fields (stem (name file)) w = (inr (invoice_nr, date), w0) ->
  build_pdf file company logo w = (inl e, w0).
Proof.
  intros Hread Hheader Hrows Hsum Hfields. unfold build_pdf, bind, lift.
  rewrite Hfields, Hread.
  destruct (Hheader (add_invoice_header (call (FPDF_new "P" "mm" "A4") add_page)
                                        invoice_nr date)) as [pdf1 ->].
  destruct (Hrows pdf1) as [pdf2 ->].
  now rewrite Hsum.
Qed.

(** X1: an upload whose workbook has no sheet named exactly "Sheet 1" does
    not convert, whatever else it holds: the failure reads "Error processing
    {name}: Worksheet named 'Sheet 1' not found", and nothing is written to
    the working directory. *)
Theorem missing_sheet_fails file sheets company logo w :
  content file = Workbook sheets ->
  (forall sh, In sh sheets -> fst sh <> "Sheet 1") ->
  fst (create_pdf_from_excel file company logo w)
  = inl (Raise "Exception"
               ("Error processing " ++ name file
                ++ ": Worksheet named 'Sheet 1' not found")) /\
  disk (snd (create_pdf_from_excel file company logo w)) = disk w.
Proof.
  intros Hcontent Hnone.
  assert (Hread : read_excel file "Sheet 1" = inl (sheet_not_found "Sheet 1")).
  { unfold read_excel. rewrite Hcontent.
    destruct (find (fun sh => String.eqb (fst sh) "Sheet 1") sheets) as [sh|] eqn:E;
      [|reflexivity].
    apply find_some in E. destruct E as [Hin Heq].
    apply String.eqb_eq in Heq. now apply Hnone in Hin. }
  apply (create_fails_early file company logo w (sheet_not_found "Sheet 1")).
  intros invoice_nr date w0. now apply build_fails_at_read.
Qed.

Lemma header_texts_length labels titles :
  rmap header_text labels = inr titles -> List.length titles = List.length labels.
Proof.
  revert titles. induction labels as [|label rest IH]; simpl; intros titles H.
  - now inversion H.
  - destruct (header_text label) as [e | t]; [discriminate H|]. simpl in H.
    destruct (rmap header_text rest) as [e | ts]; [discriminate H|]. simpl in H.
    inversion H. simpl. now rewrite (IH ts eq_refl).
Qed.

(** X2: a sheet with fewer than five columns, all with text headers, does not
    convert, with or without data rows: the header row asks for a fifth title
    and the failure reads "Error processing {name}: list index out of
    range". *)
Theorem too_few_columns_fail file df company logo w :
  read_excel file "Sheet 1" = inr df ->
  forallb is_text (df_columns df) = true ->
  (List.length (df_columns df) < 5)%nat ->
  fst (create_pdf_from_excel file company logo w)
  = inl (Raise "Exception"
               ("Error processing " ++ name file ++ ": list index out of range")).
Proof.
  intros Hread Htext Hfew.
  apply (create_fails_early file company logo w IndexError).
  intros invoice_nr date w0. apply (build_fails_at_header _ _ _ _ df); [exact Hread|].
  intros pdf. unfold add_table_header.
  destruct (header_texts_ok _ Htext) as [titles Htitles]. rewrite Htitles.
  apply header_texts_length in Htitles. rewrite <- Htitles in Hfew.
  destruct titles as [|t0 [|t1 [|t2 [|t3 [|t4 more]]]]]; simpl in *;
    try reflexivity; lia.
Qed.

Lemma header_texts_stop labels label :
  find (fun l => negb (is_text l)) labels = Some label ->
  rmap header_text labels = inl (no_replace label).
Proof.
  induction labels as [|first rest IH]; simpl; intros H; [discriminate H|].
  destruct first as [n | x | s]; simpl in *; try (now inversion H).
  now rewrite (IH H).
Qed.

(** X3: a column whose header cell is not a text (a number, say) makes the
    upload fail wherever the column stands, also past the fifth: the failure
    names the type of the first such header, as in "'int' object has no
    attribute 'replace'". *)
Theorem non_text_header_fails file df label company logo w :
  read_excel file "Sheet 1" = inr df ->
  find (fun l => negb (is_text l)) (df_columns df) = Some label ->
  fst (create_pdf_from_excel file company logo w)
  = inl (Raise "Exception"
               ("Error processing " ++ name file ++ ": " ++ quote ++ type_name label
                ++ quote ++ " object has no attribute " ++ quote ++ "replace" ++ quote)).
Proof.
  intros Hread Hfind.
  apply (create_fails_early file company logo w (no_replace label)).
  intros invoice_nr date w0. apply (build_fails_at_header _ _ _ _ df); [exact Hread|].
  intros pdf. unfold add_table_header. now rewrite (header_texts_stop _ _ Hfind).
Qed.

End Failures.

(** ** Columns the rows are read by *)

Section RequiredColumns.

Context {F : FloatRuntime} {W : PdfWriter}.

Implicit Types (file : UploadedFile) (w : world) (pdf : FPDF) (df : DataFrame).

Lemma label_is_true key label : label_is key label = true <-> label = PStr key.
Proof.
  destruct label as [n | x | s]; simpl; try (split; [discriminate | congruence]).
  rewrite String.eqb_eq. split; [now intros -> | now inversion 1].
Qed.

Lemma existsb_label_is key labels :
  existsb (label_is key) labels = true <-> In (PStr key) labels.
Proof.
  rewrite existsb_exists. split.
  - intros (label & Hin & His). apply label_is_true in His. now subst.
  - intros Hin. exists (PStr key). split; [exact Hin | now apply label_is_true].
Qed.

Lemma row_at_labels df i label v :
  In (label, v) (row_at df i) -> In label (df_columns df).
Proof.
  unfold row_at. rewrite in_flat_map. intros ([l s] & Hcol & Hin). simpl in Hin.
  destruct (series_item (common_dtype df) s i); simpl in Hin; [|contradiction].
  destruct Hin as [Heq | []]. inversion Heq; subst.
  unfold df_columns. now apply (in_map fst) in Hcol.
Qed.

(** A row holds nothing under a label the table does not have. *)
Lemma row_getitem_missing df i key :
  ~ In (PStr key) (df_columns df) ->
  row_getitem (row_at df i) key = inl (KeyError key).
Proof.
  intros Hmissing. unfold row_getitem.
  destruct (find (fun entry => label_is key (fst entry)) (row_at df i))
    as [[label v]|] eqn:E; [|reflexivity].
  apply find_some in E. destruct E as [Hin His]. simpl in His.
  apply label_is_true in His. subst label.
  now apply row_at_labels in Hin.
Qed.

Lemma add_table_rows_first_error pdf (row : Row) rest e :
  add_table_row pdf row = inl e -> add_table_rows pdf (row :: rest) = inl e.
Proof. intros H. simpl. now rewrite H. Qed.

(** The first row stops at the first required column that is missing. *)
Lemma add_table_row_missing pdf df i key :
  rectangular df -> (i < nrows df)%nat ->
  find (fun k => negb (existsb (label_is k) (df_columns df))) required_columns = Some key ->
  add_table_row pdf (row_at df i) = inl (KeyError key).
Proof.
  intros Hrect Hi Hfind. unfold add_table_row.
  unfold required_columns in Hfind. simpl in Hfind.
  repeat match type of Hfind with
         | context [existsb (label_is ?k) (df_columns df)] =>
             let E := fresh "E" in
             destruct (existsb (label_is k) (df_columns df)) eqn:E; simpl in Hfind;
             [ apply existsb_label_is in E;
               destruct (row_getitem_ok df i k Hrect Hi E) as [? ->]; simpl rbind
             | inversion Hfind; subst key;
               rewrite row_getitem_missing;
                 [reflexivity
                 | rewrite <- existsb_label_is; now rewrite E] ]
         end.
  discriminate Hfind.
Qed.

(** X4: in a sheet with data rows, the first of the five required columns
    (in the order product_id, product_name, amount_purchased, price_per_unit,
    total_price) that the sheet does not have fails the upload, with that
    column's name in quotes as the cause. *)
Theorem missing_column_fails file df company logo w h0 h1 h2 h3 h4 extra key :
  read_excel file "Sheet 1" = inr df ->
  df_columns df = PStr h0 :: PStr h1 :: PStr h2 :: PStr h3 :: PStr h4 :: extra ->
  forallb is_text extra = true ->
  rectangular df ->
  (0 < nrows df)%nat ->
  find (fun k => negb (existsb (label_is k) (df_columns df))) required_columns = Some key ->
  fst (create_pdf_from_excel file company logo w)
  = inl (Raise "Exception"
               ("Error processing " ++ name file ++ ": " ++ quote ++ key ++ quote)).
Proof.
  intros Hread Hcols Hextra Hrect Hrows Hfind.
  apply (create_fails_early file company logo w (KeyError key)).
  intros invoice_nr date w0. apply (build_fails_at_rows _ _ _ _ df); [exact Hread | |].
  - intros pdf. rewrite (add_table_header_ok pdf df _ _ _ _ _ _ Hcols Hextra). now eexists.
  - intros pdf. unfold iterrows.
    destruct (nrows df) as [|n] eqn:Hn; [lia|]. simpl.
    rewrite (add_table_row_missing pdf df 0 key Hrect); [reflexivity | lia | exact Hfind].
Qed.

(** X5: a sheet without data rows is only asked for its [total_price] column.
    Without that column the upload fails on the total; with it, and at least
    five text headers, the document is drawn (header row, total row, summary
    line, company line) even when the other four required names are
    missing.  (The header texts are stated for headers of ASCII
    characters.) *)
Theorem header_only_needs_the_total file df company logo w h0 h1 h2 h3 h4 extra :
  read_excel file "Sheet 1" = inr df ->
  df_columns df = PStr h0 :: PStr h1 :: PStr h2 :: PStr h3 :: PStr h4 :: extra ->
  forallb is_text extra = true ->
  nrows df = 0%nat ->
  (~ In (PStr "total_price") (df_columns df) ->
   fst (create_pdf_from_excel file company logo w)
   = inl (Raise "Exception"
                ("Error processing " ++ name file ++ ": " ++ quote ++ "total_price" ++ quote)))
  /\
  (forall total_sum,
      total_price_sum df = inr total_sum ->
      forallb ascii_only [h0; h1; h2; h3; h4] = true ->
      logo_decodes logo ->
      exists invoice_nr date w1,
        build_pdf file company logo w
        = (inr ({| orientation := "P"; unit_ := "mm"; format := "A4";
                   calls :=
                     [ add_page;
                       set_font "Times" 16 "B";
                       cell 50 8 ("Invoice nr." ++ invoice_nr) 0 1;
                       set_font "Times" 16 "B"; cell 50 8 ("Date: " ++ date) 0 1;
                       set_font "Times" 10 "B"; set_text_color 80 80 80;
                       cell 30 8 (titled h0) 1 0; cell 70 8 (titled h1) 1 0;
                       cell 30 8 (titled h2) 1 0; cell 30 8 (titled h3) 1 0;
                       cell 30 8 (titled h4) 1 1;
                       set_font "Times" 10 ""; set_text_color 80 80 80;
                       cell 30 8 "" 1 0; cell 70 8 "" 1 0; cell 30 8 "" 1 0;
                       cell 30 8 "" 1 0; cell 30 8 (py_str total_sum) 1 1;
                       set_font "Times" 10 "B";
                       cell 30 8 ("The total price is " ++ py_str total_sum) 0 1;
                       set_font "Times" 10 "B"; cell 25 8 company 0 0 ]
                     ++ logo_calls logo |},
                stem (name file)), w1)).
Proof.
  intros Hread Hcols Hextra Hrows.
  assert (Hiter : iterrows df = []) by (unfold iterrows; now rewrite Hrows).
  split.
  - intros Hmissing.
    apply (create_fails_early file company logo w (KeyError "total_price")).
    intros invoice_nr date w0. apply (build_fails_at_total _ _ _ _ df); [exact Hread | | |].
    + intros pdf. rewrite (add_table_header_ok pdf df _ _ _ _ _ _ Hcols Hextra). now eexists.
    + intros pdf. rewrite Hiter. now eexists.
    + unfold total_price_sum, df_getitem.
      destruct (find (fun col => label_is "total_price" (fst col)) df) as [[label s]|] eqn:E;
        [|reflexivity].
      apply find_some in E. destruct E as [Hin His]. simpl in His.
      apply label_is_true in His. subst label.
      exfalso. apply Hmissing. unfold df_columns. now apply (in_map fst) in Hin.
  - intros total_sum Hsum _ Hlogo.
    destruct (invoice_fields_total (stem (name file)) w)
      as (invoice_nr & date & w0 & Hfields).
    pose proof (add_table_header_ok
                  (add_invoice_header (call (FPDF_new "P" "mm" "A4") add_page)
                                      invoice_nr date)
                  df _ _ _ _ _ _ Hcols Hextra) as Hheader.
    match type of Hheader with
    | _ = inr ?pdf1 =>
        assert (Hbody : add_table_rows pdf1 (iterrows df) = inr pdf1)
          by (now rewrite Hiter)
    end.
    pose proof (build_pdf_eval file company logo w _ _ _ _ _ _ _
                  Hfields Hread Hheader Hbody Hsum) as Hbuild.
    match type of Hbuild with
    | context [add_company ?pdf3 company logo w0] =>
        destruct (add_company_ok pdf3 company logo w0 Hlogo) as [w1 Hcompany]
    end.
    rewrite Hcompany in Hbuild.
    exists invoice_nr, date, w1.
    match type of Hbuild with
    | _ = (inr (?p, _), _) =>
        match goal with
        | |- _ = (inr (?q, _), _) => assert (Hpdf : p = q)
        end
    end.
    { rewrite total_calls. simpl. rewrite <- ?app_assoc. reflexivity. }
    rewrite <- Hpdf. exact Hbuild.
Qed.

End RequiredColumns.

(** ** The order of the columns *)

Section ColumnOrder.

Context {F : FloatRuntime}.

Implicit Types (df : DataFrame) (pdf : FPDF).

Lemma find_unique_permutation {A : Type} (p : A -> bool) (l l' : list A) :
  Permutation l l' ->
  (forall x y, In x l -> In y l -> p x = true -> p y = true -> x = y) ->
  find p l = find p l'.
Proof.
  induction 1 as [| a l l' Hperm IH | a b l | l l' l'' H1 IH1 H2 IH2]; intros Huniq.
  - reflexivity.
  - simpl. destruct (p a); [reflexivity|].
    apply IH. intros x y Hx Hy. apply Huniq; now right.
  - simpl. destruct (p a) eqn:Ha, (p b) eqn:Hb; try reflexivity.
    f_equal. apply Huniq; simpl; auto.
  - rewrite IH1 by exact Huniq. apply IH2.
    intros x y Hx Hy. apply Huniq; eapply Permutation_in; try eassumption;
      now apply Permutation_sym.
Qed.

Lemma existsb_permutation {A : Type} (p : A -> bool) (l l' : list A) :
  Permutation l l' -> existsb p l = existsb p l'.
Proof.
  induction 1 as [| a l l' Hperm IH | a b l | l l' l'' H1 IH1 H2 IH2]; simpl.
  - reflexivity.
  - now rewrite IH.
  - destruct (p a), (p b); reflexivity.
  - now rewrite IH1.
Qed.

Lemma labels_determine_columns df label (s s' : Series) :
  NoDup (df_columns df) -> In (label, s) df -> In (label, s') df -> s = s'.
Proof.
  unfold df_columns. induction df as [|[l c] rest IH]; simpl; intros Hnd Hs Hs';
    [contradiction|].
  inversion Hnd as [|? ? Hnotin Hnd']; subst.
  destruct Hs as [Hs | Hs], Hs' as [Hs' | Hs'].
  - congruence.
  - inversion Hs; subst. exfalso. apply Hnotin. now apply (in_map fst) in Hs'.
  - inversion Hs'; subst. exfalso. apply Hnotin. now apply (in_map fst) in Hs.
  - now apply IH.
Qed.

Lemma row_at_entry df i label v :
  In (label, v) (row_at df i) ->
  exists s, In (label, s) df /\ series_item (common_dtype df) s i = Some v.
Proof.
  unfold row_at. rewrite in_flat_map. intros ([l s] & Hcol & Hin). simpl in Hin.
  destruct (series_item (common_dtype df) s i) as [v0|] eqn:E; simpl in Hin;
    [|contradiction].
  destruct Hin as [Heq | []]. inversion Heq; subst. now exists s.
Qed.

Lemma common_dtype_permutation df df' :
  Permutation df df' -> common_dtype df = common_dtype df'.
Proof.
  intros Hperm. unfold common_dtype.
  now rewrite !(existsb_permutation _ df df' Hperm).
Qed.

Lemma nrows_permutation df df' :
  Permutation df df' -> rectangular df -> nrows df' = nrows df.
Proof.
  intros Hperm Hrect. destruct df' as [|[label s] rest].
  - apply Permutation_sym, Permutation_nil in Hperm. now subst.
  - simpl. apply (Hrect (label, s)).
    apply (Permutation_in _ (Permutation_sym Hperm)). now left.
Qed.

Lemma row_getitem_permutation df df' i key :
  Permutation df df' -> NoDup (df_columns df) ->
  row_getitem (row_at df i) key = row_getitem (row_at df' i) key.
Proof.
  intros Hperm Hnd. unfold row_getitem.
  rewrite (find_unique_permutation _ (row_at df i) (row_at df' i)); [reflexivity | |].
  - unfold row_at. rewrite (common_dtype_permutation df df' Hperm).
    now apply Permutation_flat_map.
  - intros [l v] [l' v'] Hx Hy Hpx Hpy. simpl in Hpx, Hpy.
    destruct l as [n | x | t]; try discriminate Hpx.
    destruct l' as [n | x | t']; try discriminate Hpy.
    apply String.eqb_eq in Hpx. apply String.eqb_eq in Hpy. subst t t'.
    apply row_at_entry in Hx. apply row_at_entry in Hy.
    destruct Hx as (s & Hs & Hv), Hy as (s' & Hs' & Hv').
    rewrite (labels_determine_columns df _ s s' Hnd Hs Hs') in Hv. congruence.
Qed.

Lemma add_table_row_by_name pdf (row row' : Row) :
  (forall key, row_getitem row key = row_getitem row' key) ->
  add_table_row pdf row = add_table_row pdf row'.
Proof. intros H. unfold add_table_row. now rewrite !H. Qed.

Lemma add_table_rows_by_name (f g : nat -> Row) (l : list nat) pdf :
  (forall i key, row_getitem (f i) key = row_getitem (g i) key) ->
  add_table_rows pdf (map f l) = add_table_rows pdf (map g l).
Proof.
  intros H. revert pdf. induction l as [|i rest IH]; intros pdf; simpl; [reflexivity|].
  rewrite (add_table_row_by_name pdf (f i) (g i) (H i)).
  destruct (add_table_row pdf (g i)); simpl; [reflexivity | apply IH].
Qed.

(** X6: the body rows and the total do not depend on the order in which the
    sheet has its columns: two tables with the same labelled columns in
    different orders give the same body cells and the same total (only the
    header row follows the sheet's order). *)
Theorem body_ignores_column_order df df' pdf :
  Permutation df df' ->
  NoDup (df_columns df) ->
  rectangular df ->
  add_table_rows pdf (iterrows df) = add_table_rows pdf (iterrows df') /\
  total_price_sum df = total_price_sum df'.
Proof.
  intros Hperm Hnd Hrect. split.
  - unfold iterrows. rewrite (nrows_permutation df df' Hperm Hrect).
    apply add_table_rows_by_name. intros i key.
    now apply row_getitem_permutation.
  - unfold total_price_sum, df_getitem.
    rewrite (find_unique_permutation _ df df' Hperm); [reflexivity|].
    intros [l s] [l' s'] Hx Hy Hpx Hpy. simpl in Hpx, Hpy.
    destruct l as [n | x | t]; try discriminate Hpx.
    destruct l' as [n | x | t']; try discriminate Hpy.
    apply String.eqb_eq in Hpx. apply String.eqb_eq in Hpy. subst t t'.
    now rewrite (labels_determine_columns df _ s s' Hnd Hx Hy).
Qed.

End ColumnOrder.

(** ** The working directory and the clock *)

Section Footprint.

Context {F : FloatRuntime} {W : PdfWriter}.

Implicit Types (file : UploadedFile) (w : world) (pdf : FPDF).

Lemma file_content_disk path w w' : disk w = disk w' -> file_content path w = file_content path w'.
Proof. unfold file_content. now intros ->. Qed.

Lemma file_content_removed path w d :
  file_content path (set_disk w (filter (other_path path) d)) = None.
Proof.
  unfold file_content. simpl.
  destruct (find (fun entry => String.eqb (fst entry) path) (filter (other_path path) d))
    as [entry|] eqn:E; [|reflexivity].
  apply find_some in E. destruct E as [Hin Heq].
  apply filter_In in Hin. destruct Hin as [_ Hother].
  unfold other_path in Hother. now rewrite Heq in Hother.
Qed.

Lemma find_path_filter path p (d : list (string * list byte)) :
  p <> path ->
  find (fun entry => String.eqb (fst entry) p) (filter (other_path path) d)
  = find (fun entry => String.eqb (fst entry) p) d.
Proof.
  intros Hne.
  induction d as [|[q data] rest IH]; simpl; [reflexivity|].
  unfold other_path at 1. simpl.
  destruct (String.eqb q path) eqn:Eq; simpl.
  - apply String.eqb_eq in Eq. subst q.
    destruct (String.eqb path p) eqn:Ep; [|exact IH].
    apply String.eqb_eq in Ep. congruence.
  - destruct (String.eqb q p); [reflexivity | exact IH].
Qed.

Lemma find_path_cons path p data (d : list (string * list byte)) :
  p <> path ->
  find (fun entry => String.eqb (fst entry) p) ((path, data) :: d)
  = find (fun entry => String.eqb (fst entry) p) d.
Proof.
  intros Hne. simpl.
  destruct (String.eqb path p) eqn:E; [|reflexivity].
  apply String.eqb_eq in E. congruence.
Qed.

Lemma footprint_ret {A : Type} (a : A) t : footprint t (ret a).
Proof. intros w. simpl. now split. Qed.

Lemma footprint_lift {A : Type} (r : result A) t : footprint t (lift r).
Proof. intros w. simpl. now split. Qed.

Lemma footprint_raise {A : Type} (e : exn) t : footprint t (@raise A e).
Proof. intros w. simpl. now split. Qed.

Lemma footprint_more {A : Type} (m : M A) t : footprint false m -> footprint t m.
Proof.
  intros H w. destruct (H w) as (Hc & Hf).
  split; [exact Hc|]. intros p _. apply Hf. now left.
Qed.

Lemma footprint_bind {A B : Type} (m : M A) (k : A -> M B) t :
  footprint t m -> (forall a, footprint t (k a)) -> footprint t (bind m k).
Proof.
  intros Hm Hk w. unfold bind. destruct (Hm w) as (Hc & Hf).
  destruct (m w) as [[e | a] w1]; simpl in *.
  - split; [exact Hc | exact Hf].
  - destruct (Hk a w1) as (Hc' & Hf').
    split; [congruence|].
    intros p Hp. rewrite (Hf' p Hp). now apply Hf.
Qed.

Lemma footprint_try {A : Type} (m : M A) (h : exn -> M A) t :
  footprint t m -> (forall e, footprint t (h e)) -> footprint t (try_except m h).
Proof.
  intros Hm Hh w. unfold try_except. destruct (Hm w) as (Hc & Hf).
  destruct (m w) as [[e | a] w1]; simpl in *.
  - destruct (Hh e w1) as (Hc' & Hf').
    split; [congruence|].
    intros p Hp. rewrite (Hf' p Hp). now apply Hf.
  - split; [exact Hc | exact Hf].
Qed.

Lemma footprint_now : footprint false datetime_now.
Proof. intros w. simpl. now split. Qed.

Lemma footprint_invoice_fields filename t : footprint t (invoice_fields filename).
Proof.
  unfold invoice_fields.
  destruct (2 <=? List.length (PyStr.split "-" filename))%nat.
  - apply footprint_ret.
  - apply footprint_more.
    apply footprint_bind; [apply footprint_now|].
    intros now. apply footprint_ret.
Qed.

Lemma footprint_output pdf t : footprint t (pdf_output pdf).
Proof.
  unfold pdf_output. apply footprint_more.
  apply footprint_bind; [apply footprint_now|].
  intros now. apply footprint_lift.
Qed.

Lemma logo_path_is_temporary now p :
  String.prefix "temp_logo_" p = false -> p <> logo_path_at now.
Proof.
  intros H ->. unfold logo_path_at in H. cbn in H.
  destruct (timestamp now ++ ".png")%string; discriminate H.
Qed.

Lemma footprint_add_company pdf company logo :
  footprint (has_logo logo) (add_company pdf company logo).
Proof.
  destruct logo as [data|]; unfold has_logo.
  - intros w. rewrite add_company_logo. cbv zeta.
    fold (logo_path_at (clock w (reads w))).
    destruct (image_error data); cbn [snd clock reads];
      (split; [reflexivity|]);
      intros p [Hp | Hp]; try discriminate Hp;
      pose proof (logo_path_is_temporary (clock w (reads w)) p Hp) as Hne.
    + unfold file_content. cbn [disk].
      now rewrite find_path_cons, find_path_filter by exact Hne.
    + unfold file_content. cbn [disk].
      now rewrite find_path_filter, find_path_cons, find_path_filter by exact Hne.
  - apply footprint_ret.
Qed.

Lemma footprint_build_pdf file company logo :
  footprint (has_logo logo) (build_pdf file company logo).
Proof.
  unfold build_pdf.
  apply footprint_bind; [apply footprint_invoice_fields|].
  intros [invoice_nr date].
  apply footprint_bind; [apply footprint_lift|]. intros df.
  apply footprint_bind; [apply footprint_lift|]. intros pdf1.
  apply footprint_bind; [apply footprint_lift|]. intros pdf2.
  apply footprint_bind; [apply footprint_lift|]. intros total_sum.
  apply footprint_bind; [apply footprint_add_company|]. intros pdf3.
  apply footprint_ret.
Qed.

Lemma footprint_create file company logo :
  footprint (has_logo logo) (create_pdf_from_excel file company logo).
Proof.
  unfold create_pdf_from_excel.
  apply footprint_try.
  - apply footprint_bind; [apply footprint_build_pdf|]. intros [pdf filename].
    apply footprint_bind; [apply footprint_output|]. intros pdf_bytes.
    apply footprint_ret.
  - intros e. apply footprint_raise.
Qed.

Lemma convert_loop_footprint files company logo acc w :
  let w' := snd (convert_loop files company logo acc w) in
  clock w' = clock w /\
  forall p, has_logo logo = false \/ String.prefix "temp_logo_" p = false ->
            file_content p w' = file_content p w.
Proof.
  revert acc w. induction files as [|file rest IH]; intros acc w; simpl.
  - now split.
  - destruct (footprint_create file company logo w) as (Hc & Hf).
    unfold convert_file.
    destruct (create_pdf_from_excel file company logo w) as [[e | [data fn]] w1];
      simpl in Hc, Hf;
      match goal with
      | |- context [convert_loop rest company logo ?a w1] =>
          destruct (IH a w1) as (Hc' & Hf')
      end;
      (split; [congruence|]);
      intros p Hp; rewrite (Hf' p Hp); now apply Hf.
Qed.

(** X7: a batch keeps its hands off the working directory.  After it every
    file is as it was before, save files whose names start with
    "temp_logo_"; without a logo no file changes at all, whatever the
    uploads hold and whether they convert or fail. *)
Theorem convert_footprint files company logo w :
  let w' := snd (convert files company logo w) in
  (forall p, String.prefix "temp_logo_" p = false ->
             file_content p w' = file_content p w) /\
  (logo = None -> forall p, file_content p w' = file_content p w).
Proof.
  destruct (convert_loop_footprint files company logo ([], []) w) as (_ & Hf).
  unfold convert. cbv zeta. split.
  - intros p Hp. apply Hf. now right.
  - intros -> p. apply Hf. now left.
Qed.

Lemma pdf_output_inv pdf w pdf_bytes w' :
  pdf_output pdf w = (inr pdf_bytes, w') ->
  clock w' = clock w /\ reads w' = S (reads w) /\ disk w' = disk w.
Proof.
  unfold pdf_output, bind, datetime_now, lift. cbn.
  destruct (output pdf (stamp (clock w (reads w)))); intros H; inversion H.
  now subst.
Qed.

Lemma create_with_logo_inv file company data res w w' :
  create_pdf_from_excel file company (Some data) w = (inr res, w') ->
  image_error data = None /\
  exists w0,
    clock w0 = clock w /\ disk w0 = disk w /\
    clock w' = clock w /\ reads w' = S (S (reads w0)) /\
    disk w' = filter (other_path (logo_path_at (clock w (reads w0))))
                ((logo_path_at (clock w (reads w0)), data)
                 :: filter (other_path (logo_path_at (clock w (reads w0)))) (disk w0)).
Proof.
  destruct res as [pdf_bytes filename]. intros H.
  apply create_ok_inv in H. destruct H as (_ & pdf & w1 & Hbuild & Hout).
  apply pdf_output_inv in Hout. destruct Hout as (Hc1 & Hr1 & Hd1).
  apply build_pdf_ok_inv in Hbuild.
  destruct Hbuild as (nr & date & w0 & df & pdf1 & pdf2 & total & Hfields & _ & _ & _ & _ & Hco).
  destruct (invoice_fields_world (stem (name file)) w)
    as (nr' & date' & w0' & Hfields' & Hc0 & Hd0 & _).
  rewrite Hfields in Hfields'. inversion Hfields'. subst nr' date' w0'.
  rewrite add_company_logo in Hco. cbv zeta in Hco.
  fold (logo_path_at (clock w0 (reads w0))) in Hco.
  remember (logo_path_at (clock w0 (reads w0))) as path eqn:Hpath.
  remember (filter (other_path path) ((path, data) :: filter (other_path path) (disk w0)))
    as after eqn:Hafter.
  destruct (image_error data) as [failure|]; [discriminate Hco|].
  injection Hco as _ Hw1. subst w1. cbn [clock reads disk] in Hc1, Hr1, Hd1.
  split; [reflexivity|]. exists w0.
  subst after path. rewrite Hc0 in Hd1.
  split; [exact Hc0 | split; [exact Hd0 | split; [congruence | split; [lia | exact Hd1]]]].
Qed.

(** X8: the temporary logo file of a successful conversion is gone when the
    conversion returns, and it is the only file the conversion touched: the
    writer decoded the logo, no file is left under the temporary name, and
    every other path holds what it held before. *)
Theorem logo_file_is_removed file company data res w w' :
  create_pdf_from_excel file company (Some data) w = (inr res, w') ->
  image_error data = None /\
  exists now,
    file_content (logo_path_at now) w' = None /\
    forall p, p <> logo_path_at now -> file_content p w' = file_content p w.
Proof.
  intros H. apply create_with_logo_inv in H.
  destruct H as (Hdec & w0 & Hc0 & Hd0 & Hc & Hr & Hd).
  split; [exact Hdec|]. exists (clock w (reads w0)). split.
  - rewrite (file_content_disk _ w' (set_disk w' _) Hd). apply file_content_removed.
  - intros p Hne. unfold file_content. rewrite Hd.
    rewrite find_path_filter, find_path_cons, find_path_filter by exact Hne.
    now rewrite Hd0.
Qed.

Lemma create_fails_at_logo file company data failure w pdf filename w1 :
  image_error data = Some failure ->
  build_pdf file company None w = (inr (pdf, filename), w1) ->
  create_pdf_from_excel file company (Some data) w
  = (inl (processing_error file (failure (logo_path_at (clock w (reads w1))))),
     {| clock := clock w; reads := S (reads w1);
        disk := (logo_path_at (clock w (reads w1)), data)
                :: filter (other_path (logo_path_at (clock w (reads w1)))) (disk w) |}).
Proof.
  intros Hdec Hbuild.
  apply build_pdf_ok_inv in Hbuild.
  destruct Hbuild as (nr & date & w0 & df & pdf1 & pdf2 & total
                      & Hfields & Hread & Hheader & Hrows & Hsum & Hco).
  unfold add_company, ret in Hco. inversion Hco. subst w1.
  destruct (invoice_fields_world (stem (name file)) w)
    as (nr' & date' & w0' & Hfields' & Hc0 & Hd0 & _).
  rewrite Hfields in Hfields'. inversion Hfields'. subst nr' date' w0'.
  apply create_fails_with_build.
  rewrite (build_pdf_eval _ _ _ _ _ _ _ _ _ _ _ Hfields Hread Hheader Hrows Hsum).
  rewrite add_company_logo. cbv zeta. rewrite Hdec.
  unfold logo_path_at. now rewrite Hc0, Hd0.
Qed.

(** X9: a logo the writer cannot decode fails the conversion of a file that
    converts without a logo, and the temporary file is left behind: the
    error names the temporary path, and after the failure that path holds
    the logo's bytes. *)
Theorem undecodable_logo_is_left_behind file company data failure w pdf filename w1 :
  image_error data = Some failure ->
  build_pdf file company None w = (inr (pdf, filename), w1) ->
  let path := logo_path_at (clock w (reads w1)) in
  fst (create_pdf_from_excel file company (Some data) w)
  = inl (processing_error file (failure path)) /\
  file_content path (snd (create_pdf_from_excel file company (Some data) w)) = Some data.
Proof.
  intros Hdec Hbuild path.
  rewrite (create_fails_at_logo _ _ _ _ _ _ _ _ Hdec Hbuild). fold path.
  split; [reflexivity|].
  unfold file_content. cbn [snd disk find fst]. now rewrite String.eqb_refl.
Qed.

Lemma create_needs_the_logo file company data failure w :
  image_error data = Some failure ->
  exists e w', create_pdf_from_excel file company (Some data) w = (inl e, w').
Proof.
  intros Hdec.
  destruct (create_pdf_from_excel file company (Some data) w) as [[e | res] w'] eqn:H.
  - now exists e, w'.
  - apply create_with_logo_inv in H. destruct H as [Hnone _]. congruence.
Qed.

Lemma convert_loop_all_fail files company data failure acc w :
  image_error data = Some failure ->
  fst (fst (convert_loop files company (Some data) acc w)) = fst acc /\
  List.length (snd (fst (convert_loop files company (Some data) acc w)))
  = (List.length (snd acc) + List.length files)%nat.
Proof.
  intros Hdec. revert acc w. induction files as [|file rest IH]; intros acc w; simpl.
  - split; [reflexivity | lia].
  - destruct (create_needs_the_logo file company data failure w Hdec) as (e & w' & He).
    rewrite (convert_file_error _ _ _ acc _ _ _ He).
    destruct (IH (fst acc, (snd acc ++ [error_line file e])%list) w') as [Hk Hl].
    split; [exact Hk|]. rewrite Hl. cbn [snd]. rewrite length_app. simpl. lia.
Qed.

(** X10: with a logo the writer cannot decode no upload of the batch is
    converted: the batch stores no document and reports one error for every
    upload. *)
Theorem undecodable_logo_fails_every_upload files company data failure w :
  image_error data = Some failure ->
  fst (fst (convert files company (Some data) w)) = [] /\
  List.length (snd (fst (convert files company (Some data) w))) = List.length files.
Proof.
  intros Hdec. unfold convert.
  exact (convert_loop_all_fail files company data failure ([], []) w Hdec).
Qed.

End Footprint.

(** ** The order of the results *)

Section BatchOrder.

Context {F : FloatRuntime} {W : PdfWriter}.

Implicit Types (file : UploadedFile) (w : world) (acc : BatchResult).

Lemma absent_from_spec keys k : absent_from keys k = true <-> ~ In k keys.
Proof.
  unfold absent_from. rewrite negb_true_iff. split.
  - intros H Hin. assert (existsb (String.eqb k) keys = true); [|congruence].
    apply existsb_exists. exists k. split; [exact Hin | apply String.eqb_refl].
  - intros Hnin. destruct (existsb (String.eqb k) keys) eqn:E; [|reflexivity].
    apply existsb_exists in E. destruct E as (x & Hin & Heq).
    apply String.eqb_eq in Heq. subst x. contradiction.
Qed.

Lemma filter_filter_absorb {A : Type} (p q : A -> bool) (l : list A) :
  (forall x, p x = true -> q x = true) -> filter p (filter q l) = filter p l.
Proof.
  intros Hpq. induction l as [|x l IH]; simpl; [reflexivity|].
  destruct (q x) eqn:Eq; simpl.
  - now rewrite IH.
  - destruct (p x) eqn:Ep; [|exact IH]. apply Hpq in Ep. congruence.
Qed.

Lemma filter_filter_both {A : Type} (p q : A -> bool) (l : list A) :
  filter p (filter q l) = filter (fun x => p x && q x) l.
Proof.
  induction l as [|x l IH]; simpl; [reflexivity|].
  destruct (q x); simpl; rewrite ?andb_false_r, ?andb_true_r.
  - destruct (p x); now rewrite IH.
  - exact IH.
Qed.

Lemma dict_set_keys {V : Type} key (v : V) (d : list (string * V)) :
  dict_keys (dict_set key v d)
  = (dict_keys d ++ filter (absent_from (dict_keys d)) [key])%list.
Proof.
  simpl. destruct (absent_from (dict_keys d) key) eqn:E.
  - apply absent_from_spec in E. now destruct (dict_set_absent key v d E) as [-> _].
  - rewrite app_nil_r.
    destruct (in_dec string_dec key (dict_keys d)) as [Hin | Hnin].
    + now destruct (dict_set_present key v d Hin) as [-> _].
    + apply absent_from_spec in Hnin. congruence.
Qed.

Lemma convert_loop_order files company logo acc w :
  dict_keys (fst (fst (convert_loop files company logo acc w)))
  = (dict_keys (fst acc)
     ++ filter (absent_from (dict_keys (fst acc)))
               (first_occurrences (converted files company logo w)))%list /\
  snd (fst (convert_loop files company logo acc w))
  = (snd acc ++ failures files company logo w)%list.
Proof.
  revert acc w. induction files as [|file rest IH]; intros acc w; simpl.
  - now rewrite !app_nil_r.
  - destruct (convert_file_cases file company logo acc w)
      as [(data & w' & Hc & ->) | (e & w' & Hc & ->)]; rewrite Hc;
      match goal with
      | |- context [convert_loop rest company logo ?a w'] =>
          destruct (IH a w') as [Hk He]
      end; rewrite Hk, He; cbn [fst snd].
    + split; [|reflexivity].
      rewrite dict_set_keys. cbn [first_occurrences filter].
      destruct (absent_from (dict_keys (fst acc)) (output_name file)) eqn:E.
      * rewrite <- app_assoc. cbn [app]. f_equal. f_equal.
        rewrite filter_filter_both. apply filter_ext. intros k.
        unfold absent_from, differs_from.
        rewrite existsb_app. cbn [existsb]. rewrite orb_false_r.
        now rewrite negb_orb.
      * rewrite app_nil_r. f_equal.
        rewrite filter_filter_absorb; [reflexivity|].
        intros k Hk'. unfold differs_from. apply negb_true_iff.
        destruct (String.eqb k (output_name file)) eqn:Ek; [|reflexivity].
        apply String.eqb_eq in Ek. subst k. congruence.
    + split; [reflexivity|]. now rewrite <- app_assoc.
Qed.

Lemma convert_order files company logo w :
  dict_keys (fst (fst (convert files company logo w)))
  = first_occurrences (converted files company logo w) /\
  snd (fst (convert files company logo w)) = failures files company logo w.
Proof.
  unfold convert.
  destruct (convert_loop_order files company logo ([], []) w) as [Hk He].
  rewrite Hk, He. cbn [fst snd dict_keys map app]. split; [|reflexivity].
  clear. induction (first_occurrences (converted files company logo w)) as [|k l IH];
    simpl; [reflexivity | now rewrite IH].
Qed.

(** X11: the results of a batch come in batch order.  The keys of
    [pdf_files] are the output names of the uploads that converted, each at
    the place of its first conversion, and [errors] holds the lines of the
    uploads that failed, in the order of the uploads. *)
Theorem batch_results_in_order files company logo w :
  let r := fst (convert files company logo w) in
  dict_keys (fst r) = first_occurrences (converted files company logo w) /\
  snd r = failures files company logo w.
Proof. exact (convert_order files company logo w). Qed.

Lemma failures_lines files company logo w :
  Forall (fun line =>
            exists file cause,
              In file files /\
              line = ("❌ " ++ name file ++ ": Error processing " ++ name file ++ ": "
                      ++ str_exn cause)%string)
         (failures files company logo w).
Proof.
  revert w. induction files as [|file rest IH]; intros w; simpl; [constructor|].
  destruct (create_pdf_from_excel file company logo w) as [[e | res] w'] eqn:Hc.
  - constructor.
    + destruct (create_error_inv _ _ _ _ _ _ Hc) as [cause ->].
      exists file, cause. split; [now left | reflexivity].
    + eapply Forall_impl; [|apply IH].
      intros line (f & cause & Hin & ->). exists f, cause. split; [now right | reflexivity].
  - eapply Forall_impl; [|apply IH].
    intros line (f & cause & Hin & ->). exists f, cause. split; [now right | reflexivity].
Qed.

(** X12: every line of [errors] names its upload twice: it is the mark, the
    name of an upload of the batch, and the text of the exception
    [create_pdf_from_excel] raised, which starts with "Error processing" and
    the same name again. *)
Theorem error_lines_name_the_upload_twice files company logo w :
  Forall (fun line =>
            exists file cause,
              In file files /\
              line = ("❌ " ++ name file ++ ": Error processing " ++ name file ++ ": "
                      ++ str_exn cause)%string)
         (snd (fst (convert files company logo w))).
Proof.
  destruct (convert_order files company logo w) as [_ ->]. apply failures_lines.
Qed.

End BatchOrder.

(** ** Output names *)

Section OutputNames.

Context {F : FloatRuntime}.

Import PyStr.

Lemma split_pieces_without sep s piece :
  In piece (split sep s) -> contains sep piece = false.
Proof.
  revert piece. induction s as [|c rest IH]; intros piece; simpl.
  - intros [<- | []]. reflexivity.
  - destruct (Ascii.eqb c sep) eqn:E.
    + intros [<- | Hin]; [reflexivity | now apply IH].
    + destruct (split sep rest) as [|first pieces].
      * intros [<- | []]. simpl. now rewrite E.
      * intros [<- | Hin].
        -- simpl. rewrite E. apply IH. now left.
        -- apply IH. now right.
Qed.

Lemma last_in_or_default {A : Type} (l : list A) (d : A) : In (last l d) l \/ last l d = d.
Proof.
  induction l as [|x l IH]; [now right|].
  destruct l as [|y l']; [left; now left|].
  change (last (x :: y :: l') d) with (last (y :: l') d).
  destruct IH as [Hin | Heq]; [left; now right | now right].
Qed.

Lemma path_name_without_slash p : contains "/" (path_name p) = false.
Proof.
  unfold path_name.
  match goal with |- contains _ (last ?l _) = false => destruct (last_in_or_default l "") as [Hin | ->] end.
  - apply filter_In in Hin. destruct Hin as [Hin _].
    now apply split_pieces_without in Hin.
  - reflexivity.
Qed.

Lemma contains_substring c i s :
  contains c s = false -> contains c (substring 0 i s) = false.
Proof.
  revert i. induction s as [|d rest IH]; intros i; simpl.
  - now destruct i.
  - intros H. apply orb_false_iff in H. destruct H as [Hd Hrest].
    destruct i as [|i]; simpl; [reflexivity|]. now rewrite Hd, IH.
Qed.

Lemma name_stem_without c n : contains c n = false -> contains c (name_stem n) = false.
Proof.
  intros H. unfold name_stem. destruct (rfind "." n) as [i|]; [|exact H].
  destruct ((0 <? i) && (i <? String.length n - 1))%nat; [|exact H].
  now apply contains_substring.
Qed.

Lemma stem_without_slash p : contains "/" (stem p) = false.
Proof. apply name_stem_without, path_name_without_slash. Qed.

(** X13: no output name holds a path separator: the stem taken from the
    name of an upload has no "/", whatever the upload is called, so the key
    in [pdf_files], which is also the download's file name and the member
    name in the ZIP file, names a file and no directory. *)
Theorem output_name_has_no_separator (file : UploadedFile) :
  contains "/" (stem (name file)) = false /\
  contains "/" (output_name file) = false.
Proof.
  split; [apply stem_without_slash|].
  unfold output_name. rewrite contains_append, stem_without_slash. reflexivity.
Qed.

End OutputNames.

(** ** What a cell shows *)

Section Cells.

Context {F : FloatRuntime}.

Implicit Types (df : DataFrame).

Lemma find_label_first (c : dtype) df i key s v :
  find (fun col => label_is key (fst col)) df = Some (PStr key, s) ->
  series_item c s i = Some v ->
  find (fun entry : pyobj * pyobj => label_is key (fst entry))
       (flat_map (fun col => match series_item c (snd col) i with
                             | Some v => [(fst col, v)]
                             | None => []
                             end) df)
  = Some (PStr key, v).
Proof.
  intros Hfind Hitem. induction df as [|[label s0] rest IH]; simpl in *; [discriminate|].
  destruct (label_is key label) eqn:E.
  - inversion Hfind; subst. rewrite Hitem. simpl. now rewrite String.eqb_refl.
  - destruct (series_item c s0 i); simpl; [rewrite E|]; now apply IH.
Qed.

Lemma row_getitem_first df i key s v :
  df_getitem df key = inr s ->
  series_item (common_dtype df) s i = Some v ->
  row_getitem (row_at df i) key = inr v.
Proof.
  unfold df_getitem, row_getitem, row_at. intros Hget Hitem.
  destruct (find (fun col => label_is key (fst col)) df) as [[label s0]|] eqn:Hfind;
    [|discriminate].
  inversion Hget; subst. simpl in Hitem.
  destruct (find_some _ _ Hfind) as [_ Hlabel]. simpl in Hlabel.
  apply label_is_true in Hlabel. subst label.
  now rewrite (find_label_first _ df i key s v Hfind Hitem).
Qed.

Lemma common_dtype_object df col vs :
  In col df -> snd col = Object vs -> common_dtype df = object.
Proof.
  intros Hin Hcol. unfold common_dtype.
  replace (existsb _ df) with true; [reflexivity|]. symmetry.
  apply existsb_exists. exists col. split; [exact Hin|]. now rewrite Hcol.
Qed.

Lemma common_dtype_float df col xs :
  In col df -> snd col = Float64 xs ->
  (forall c, In c df -> series_dtype (snd c) <> object) ->
  common_dtype df = float64.
Proof.
  intros Hin Hcol Hnone. unfold common_dtype.
  destruct (existsb (fun c => match series_dtype (snd c) with object => true | _ => false end) df)
    eqn:E.
  - apply existsb_exists in E. destruct E as (c & Hc & Hobj).
    specialize (Hnone c Hc). destruct (series_dtype (snd c)); congruence.
  - replace (existsb _ df) with true; [reflexivity|]. symmetry.
    apply existsb_exists. exists col. split; [exact Hin|]. now rewrite Hcol.
Qed.

(** X14: whether an integer is shown as an integer depends on the other
    columns.  A row is taken across the columns with one type for all of
    them: in a table with a column of Python values (a column of texts, say)
    a cell of an integer column shows the integer, and in a table of
    numeric columns only with a float column among them it shows the
    integer converted to a float. *)
Theorem integer_cells_follow_the_table df key ns i n :
  df_getitem df key = inr (Int64 ns) ->
  nth_error ns i = Some n ->
  (forall col vs, In col df -> snd col = Object vs ->
                  shown (row_at df i) key = PyStr.of_Z n) /\
  (forall col xs, In col df -> snd col = Float64 xs ->
                  (forall c, In c df -> series_dtype (snd c) <> object) ->
                  shown (row_at df i) key = float_str (float_of_int n)).
Proof.
  intros Hget Hnth. split.
  - intros col vs Hin Hcol. unfold shown.
    rewrite (row_getitem_first df i key (Int64 ns) (PInt n) Hget); [reflexivity|].
    rewrite (common_dtype_object df col vs Hin Hcol). simpl. now rewrite Hnth.
  - intros col xs Hin Hcol Hnone. unfold shown.
    rewrite (row_getitem_first df i key (Int64 ns) (PFloat (float_of_int n)) Hget);
      [reflexivity|].
    rewrite (common_dtype_float df col xs Hin Hcol Hnone). simpl. now rewrite Hnth.
Qed.

Lemma wrap64_exact z : wrap64 z = z <-> - 2 ^ 63 <= z < 2 ^ 63.
Proof.
  unfold wrap64. split.
  - intros H. pose proof (Z.mod_pos_bound (z + 2 ^ 63) (2 ^ 64) ltac:(lia)). lia.
  - intros H. rewrite Z.mod_small; lia.
Qed.

(** X15: the total of an integer column is the sum of its entries exactly
    when that sum fits in 64 bits; a sum that does not fit is wrapped
    without an error. *)
Theorem integer_total_is_exact_when_it_fits df ns :
  df_getitem df "total_price" = inr (Int64 ns) ->
  (exists total, total_price_sum df = inr (PInt total) /\
                 (total = Zsum ns <-> - 2 ^ 63 <= Zsum ns < 2 ^ 63) /\
                 - 2 ^ 63 <= total < 2 ^ 63).
Proof.
  intros Hget. exists (wrap64 (Zsum ns)). split; [|split].
  - unfold total_price_sum. rewrite Hget. simpl. now rewrite fold_add_Zsum.
  - apply wrap64_exact.
  - unfold wrap64. pose proof (Z.mod_pos_bound (Zsum ns + 2 ^ 63) (2 ^ 64) ltac:(lia)). lia.
Qed.

End Cells.

(** ** The header texts *)

Section HeaderTexts.

Import PyStr.

Lemma cased_letters c :
  if is_lower c || is_upper c
  then (is_lower (to_lower c) || is_upper (to_lower c) = true /\
        is_lower (to_upper c) || is_upper (to_upper c) = true /\
        to_lower (to_lower c) = to_lower c /\
        to_upper (to_upper c) = to_upper c /\
        Ascii.eqb (to_lower c) "_" = false /\
        Ascii.eqb (to_upper c) "_" = false)
  else Ascii.eqb c "_" = false \/ c = "_"%char.
Proof.
  destruct c as [[] [] [] [] [] [] [] []]; vm_compute;
    try (split; [|split; [|split; [|split; [|split]]]]; reflexivity);
    try (left; reflexivity); right; reflexivity.
Qed.

Lemma replace_length old new s : String.length (replace old new s) = String.length s.
Proof. induction s as [|c rest IH]; simpl; [reflexivity | now rewrite IH]. Qed.

Lemma title_from_length b s : String.length (title_from b s) = String.length s.
Proof.
  revert b. induction s as [|c rest IH]; intros b; simpl; [reflexivity|].
  destruct (is_lower c || is_upper c); simpl; now rewrite IH.
Qed.

Lemma replace_removes old new s :
  Ascii.eqb new old = false -> contains old (replace old new s) = false.
Proof.
  intros Hne. induction s as [|c rest IH]; simpl; [reflexivity|].
  rewrite IH, orb_false_r. destruct (Ascii.eqb c old) eqn:E; [exact Hne | exact E].
Qed.

Lemma replace_without old new s : contains old s = false -> replace old new s = s.
Proof.
  induction s as [|c rest IH]; simpl; [reflexivity|].
  intros H. apply orb_false_iff in H. destruct H as [Hc Hrest].
  now rewrite Hc, IH.
Qed.

Lemma title_from_without_underscore b s :
  contains "_" s = false -> contains "_" (title_from b s) = false.
Proof.
  revert b. induction s as [|c rest IH]; intros b; simpl; [reflexivity|].
  intros H. apply orb_false_iff in H. destruct H as [Hc Hrest].
  pose proof (cased_letters c) as Hcased.
  destruct (is_lower c || is_upper c); simpl.
  - destruct Hcased as (_ & _ & _ & _ & Hl & Hu).
    rewrite (IH true Hrest), orb_false_r. now destruct b.
  - now rewrite Hc, (IH false Hrest).
Qed.

Lemma title_from_again b s : title_from b (title_from b s) = title_from b s.
Proof.
  revert b. induction s as [|c rest IH]; intros b; simpl; [reflexivity|].
  pose proof (cased_letters c) as Hcased.
  destruct (is_lower c || is_upper c) eqn:E; simpl.
  - destruct Hcased as (Hl & Hu & Hll & Huu & _ & _).
    destruct b; [rewrite Hl, Hll | rewrite Hu, Huu]; now rewrite IH.
  - now rewrite E, IH.
Qed.

(** X16: the header text of a column name of ASCII characters has the
    length of the name and no underscore, and making a header text of it
    again changes nothing. *)
Theorem header_text_shape column_name :
  ascii_only column_name = true ->
  String.length (titled column_name) = String.length column_name /\
  contains "_" (titled column_name) = false /\
  titled (titled column_name) = titled column_name.
Proof.
  intros _. unfold titled, title.
  assert (Hnone : contains "_" (title_from false (replace "_" " " column_name)) = false)
    by (apply title_from_without_underscore, replace_removes; reflexivity).
  split; [|split].
  - now rewrite title_from_length, replace_length.
  - exact Hnone.
  - rewrite (replace_without _ _ _ Hnone). apply title_from_again.
Qed.

End HeaderTexts.

(** ** The results on the page *)

Section Results.

Context {F : FloatRuntime} {W : PdfWriter}.

Implicit Types (file : UploadedFile) (w : world) (page : list element).

Lemma writestr_all_items (pdf_files : list (string * list byte)) :
  writestr_all pdf_files = pdf_files.
Proof.
  unfold writestr_all.
  assert (H : forall acc, fold_left (fun members item => (members ++ [item])%list)
                                    pdf_files acc = (acc ++ pdf_files)%list).
  { induction pdf_files as [|item rest IH]; intros acc; simpl.
    - now rewrite app_nil_r.
    - rewrite IH, <- app_assoc. reflexivity. }
  apply H.
Qed.

Lemma column_of idx : list_getitem [0; 1; 2]%nat (idx mod 3) = inr (idx mod 3)%nat.
Proof.
  pose proof (Nat.mod_upper_bound idx 3 ltac:(lia)) as Hlt.
  destruct (idx mod 3)%nat as [|[|[|k]]]; try reflexivity. lia.
Qed.

Lemma download_buttons_ok idx (items : list (string * list byte)) :
  exists buttons,
    download_buttons [0; 1; 2]%nat idx items = inr buttons /\
    pdf_downloads buttons = items /\
    zip_downloads buttons = [] /\
    metrics buttons = [] /\
    download_columns buttons
    = map (fun k => (k mod 3)%nat) (seq idx (List.length items)) /\
    error_box buttons = None /\
    leading_writes buttons = [].
Proof.
  revert idx. induction items as [|[pdf_name pdf_data] rest IH]; intros idx.
  - exists []. repeat split.
  - destruct (IH (S idx)) as (buttons & Heq & Hp & Hz & Hm & Hc & He & Hl).
    cbn [download_buttons]. rewrite column_of, Heq. cbn [rbind].
    eexists. split; [reflexivity|].
    unfold pdf_downloads, zip_downloads, metrics, download_columns in *.
    cbn [flat_map unwrap app error_box leading_writes List.length seq map].
    rewrite Hp, Hz, Hm, Hc, He. repeat split.
Qed.

Lemma pdf_downloads_app page1 page2 :
  pdf_downloads (page1 ++ page2) = (pdf_downloads page1 ++ pdf_downloads page2)%list.
Proof. apply flat_map_app. Qed.

Lemma zip_downloads_app page1 page2 :
  zip_downloads (page1 ++ page2) = (zip_downloads page1 ++ zip_downloads page2)%list.
Proof. apply flat_map_app. Qed.

Lemma metrics_app page1 page2 :
  metrics (page1 ++ page2) = (metrics page1 ++ metrics page2)%list.
Proof. apply flat_map_app. Qed.

Lemma download_columns_app page1 page2 :
  download_columns (page1 ++ page2)
  = (download_columns page1 ++ download_columns page2)%list.
Proof. apply flat_map_app. Qed.

Lemma leading_writes_lines lines page :
  leading_writes (map st_write lines ++ page) = (lines ++ leading_writes page)%list.
Proof. induction lines as [|l rest IH]; simpl; [reflexivity | now rewrite IH]. Qed.

Lemma error_box_app page1 page2 :
  error_box page1 = None -> error_box (page1 ++ page2) = error_box page2.
Proof.
  induction page1 as [|e rest IH]; simpl; [reflexivity|].
  destruct e; try exact IH. discriminate.
Qed.

Lemma written_lines_show_nothing (lines : list string) :
  pdf_downloads (map st_write lines) = [] /\
  zip_downloads (map st_write lines) = [] /\
  metrics (map st_write lines) = [] /\
  download_columns (map st_write lines) = [].
Proof. induction lines as [|l rest IH]; simpl; [repeat split | exact IH]. Qed.

(** The page [show_results] makes, through what it shows. *)
Lemma show_results_ok total (pdf_files : list (string * list byte)) (errors : list string) w :
  let now := clock w (reads w) in
  let several := (1 <? List.length pdf_files)%nat in
  exists page,
    show_results total pdf_files errors w
    = (inr page,
       if several
       then {| clock := clock w; reads := S (reads w); disk := disk w |}
       else w) /\
    pdf_downloads page = pdf_files /\
    zip_downloads page
    = (if several
       then [("invoices_" ++ date_Ymd now ++ "_" ++ time_HMS now ++ ".zip", pdf_files)]
       else []) /\
    metrics page = [ ("Total Files", total); ("Successful", List.length pdf_files);
                     ("Errors", List.length errors) ] /\
    download_columns page
    = map (fun k => (k mod 3)%nat) (seq 0 (List.length pdf_files)) /\
    error_box page = match errors with
                     | [] => None
                     | _ :: _ => Some errors
                     end.
Proof.
  intros now several.
  destruct (download_buttons_ok 0 pdf_files) as (buttons & Hb & Hp & Hz & Hm & Hc & He & Hl).
  destruct (written_lines_show_nothing errors) as (Hwp & Hwz & Hwm & Hwc).
  unfold show_results, bind, lift, ret, datetime_now.
  assert (Hseveral : several = (1 <? List.length pdf_files)%nat) by reflexivity.
  clearbody several.
  destruct pdf_files as [|item rest] eqn:Hfiles.
  - subst several. cbn [List.length Nat.ltb Nat.leb].
    eexists. split; [reflexivity|].
    destruct errors as [|e es]; [repeat split|].
    change (st_error "**Errors occurred:**" :: map st_write (e :: es))
      with ([st_error "**Errors occurred:**"] ++ map st_write (e :: es))%list.
    rewrite !pdf_downloads_app, !zip_downloads_app, !metrics_app, !download_columns_app.
    rewrite Hwp, Hwz, Hwm, Hwc.
    split; [reflexivity | split; [reflexivity | split; [reflexivity | split; [reflexivity|]]]].
    cbn [app error_box].
    rewrite <- (app_nil_r (map st_write (e :: es))).
    now rewrite leading_writes_lines, app_nil_r.
  - rewrite Hb. rewrite <- Hseveral.
    destruct several; eexists; (split; [reflexivity|]).
    + rewrite writestr_all_items.
      destruct errors as [|e es].
      * rewrite !pdf_downloads_app, !zip_downloads_app, !metrics_app, !download_columns_app.
        rewrite Hp, Hz, Hm, Hc.
        split; [simpl; now rewrite ?app_nil_r|].
        split; [simpl; now rewrite ?app_nil_r|]. split; [simpl; now rewrite ?app_nil_r|].
        split; [simpl; now rewrite ?app_nil_r|].
        rewrite <- !app_assoc. cbn [app error_box].
        now rewrite (error_box_app _ _ He).
      * change (st_error "**Errors occurred:**" :: map st_write (e :: es))
          with ([st_error "**Errors occurred:**"] ++ map st_write (e :: es))%list.
        rewrite !pdf_downloads_app, !zip_downloads_app, !metrics_app, !download_columns_app.
        rewrite Hp, Hz, Hm, Hc, Hwp, Hwz, Hwm, Hwc.
        split; [simpl; now rewrite ?app_nil_r|].
        split; [simpl; now rewrite ?app_nil_r|]. split; [simpl; now rewrite ?app_nil_r|].
        split; [simpl; now rewrite ?app_nil_r|].
        rewrite <- !app_assoc. cbn [app error_box].
        now rewrite leading_writes_lines, app_nil_r.
    + destruct errors as [|e es].
      * rewrite !pdf_downloads_app, !zip_downloads_app, !metrics_app, !download_columns_app.
        rewrite Hp, Hz, Hm, Hc.
        split; [simpl; now rewrite ?app_nil_r|].
        split; [simpl; now rewrite ?app_nil_r|]. split; [simpl; now rewrite ?app_nil_r|].
        split; [simpl; now rewrite ?app_nil_r|].
        rewrite <- !app_assoc. cbn [app error_box].
        exact He.
      * change (st_error "**Errors occurred:**" :: map st_write (e :: es))
          with ([st_error "**Errors occurred:**"] ++ map st_write (e :: es))%list.
        rewrite !pdf_downloads_app, !zip_downloads_app, !metrics_app, !download_columns_app.
        rewrite Hp, Hz, Hm, Hc, Hwp, Hwz, Hwm, Hwc.
        split; [simpl; now rewrite ?app_nil_r|].
        split; [simpl; now rewrite ?app_nil_r|]. split; [simpl; now rewrite ?app_nil_r|].
        split; [simpl; now rewrite ?app_nil_r|].
        rewrite <- !app_assoc. cbn [app error_box].
        now rewrite leading_writes_lines, app_nil_r.
Qed.

Lemma on_convert_eval files company logo w :
  on_convert files company logo w
  = show_results (List.length files)
                 (fst (fst (convert files company logo w)))
                 (snd (fst (convert files company logo w)))
                 (snd (convert files company logo w)).
Proof.
  unfold on_convert. now destruct (convert files company logo w) as [[pdf_files errors] w1].
Qed.

Lemma convert_keys_nodup files company logo w :
  NoDup (dict_keys (fst (fst (convert files company logo w)))).
Proof. unfold convert. apply convert_loop_keys_nodup. constructor. Qed.

(** X17: the page offers every stored document once.  After a press of the
    button the page has one PDF download for each entry of [pdf_files], in
    the order of the entries and with the entry's bytes: one for each output
    name among the uploads that converted, at the place of its first
    conversion, no name twice; the buttons go round the three columns, and
    picking the column never fails. *)
Theorem page_offers_every_document_once files company logo w :
  let r := fst (convert files company logo w) in
  exists page,
    fst (on_convert files company logo w) = inr page /\
    pdf_downloads page = fst r /\
    map fst (pdf_downloads page) = first_occurrences (converted files company logo w) /\
    NoDup (map fst (pdf_downloads page)) /\
    download_columns page = map (fun k => (k mod 3)%nat) (seq 0 (List.length (fst r))).
Proof.
  intros r. rewrite on_convert_eval.
  destruct (show_results_ok (List.length files) (fst r) (snd r)
                            (snd (convert files company logo w)))
    as (page & Hrun & Hp & _ & _ & Hc & _).
  exists page. fold r. rewrite Hrun, Hp.
  split; [reflexivity | split; [reflexivity | split; [|split]]].
  - apply (convert_order files company logo w).
  - apply convert_keys_nodup.
  - exact Hc.
Qed.

(** X18: the ZIP download holds what the PDF downloads offer.  The page has
    a ZIP download exactly when it offers two documents or more; its members
    are the offered documents, names and bytes, in the same order, and its
    file name is made of the reading of the clock taken after the last
    conversion. *)
Theorem zip_holds_the_offered_documents files company logo w :
  let now := clock w (reads (snd (convert files company logo w))) in
  exists page,
    fst (on_convert files company logo w) = inr page /\
    zip_downloads page
    = if (2 <=? List.length (pdf_downloads page))%nat
      then [("invoices_" ++ date_Ymd now ++ "_" ++ time_HMS now ++ ".zip",
             pdf_downloads page)]
      else [].
Proof.
  intros now. rewrite on_convert_eval.
  destruct (show_results_ok (List.length files)
                            (fst (fst (convert files company logo w)))
                            (snd (fst (convert files company logo w)))
                            (snd (convert files company logo w)))
    as (page & Hrun & Hp & Hz & _).
  exists page. rewrite Hrun, Hp, Hz. split; [reflexivity|].
  destruct (convert_loop_footprint files company logo ([], []) w) as (Hclock & _).
  unfold convert in *. cbv zeta in Hclock. subst now. now rewrite Hclock.
Qed.

(** X19: the three metrics of the page.  "Total Files" is the number of
    uploads, "Successful" the number of distinct output names among the
    uploads that converted, and "Errors" the number of uploads that failed;
    the uploads that converted and those that failed are all the uploads, so
    "Successful" and "Errors" never add up to more than "Total Files". *)
Theorem page_counts_the_batch files company logo w :
  let successful := List.length (first_occurrences (converted files company logo w)) in
  let failed := List.length (failures files company logo w) in
  exists page,
    fst (on_convert files company logo w) = inr page /\
    metrics page = [ ("Total Files", List.length files); ("Successful", successful);
                     ("Errors", failed) ] /\
    (List.length (converted files company logo w) + failed = List.length files)%nat /\
    (successful + failed <= List.length files)%nat.
Proof.
  intros successful failed. rewrite on_convert_eval.
  destruct (show_results_ok (List.length files)
                            (fst (fst (convert files company logo w)))
                            (snd (fst (convert files company logo w)))
                            (snd (convert files company logo w)))
    as (page & Hrun & _ & _ & Hm & _).
  destruct (convert_order files company logo w) as [Hkeys Herrors].
  pose proof (convert_loop_errors files company logo ([], []) w) as Hlen.
  pose proof (convert_loop_count_le files company logo ([], []) w) as Hle.
  fold (convert files company logo w) in Hlen, Hle. simpl in Hlen, Hle.
  exists page. rewrite Hrun, Hm. split; [reflexivity|].
  subst successful failed. rewrite <- Hkeys, <- Herrors.
  unfold dict_keys. rewrite length_map.
  split; [reflexivity | split; lia].
Qed.

(** X20: the page lists every failure.  It has an error box exactly when
    some upload failed, and under the box it writes the lines of the uploads
    that failed, all of them, in the order of the uploads. *)
Theorem page_lists_every_failure files company logo w :
  exists page,
    fst (on_convert files company logo w) = inr page /\
    error_box page = match failures files company logo w with
                     | [] => None
                     | line :: lines => Some (line :: lines)
                     end.
Proof.
  rewrite on_convert_eval.
  destruct (show_results_ok (List.length files)
                            (fst (fst (convert files company logo w)))
                            (snd (fst (convert files company logo w)))
                            (snd (convert files company logo w)))
    as (page & Hrun & _ & _ & _ & _ & He).
  destruct (convert_order files company logo w) as [_ Herrors].
  exists page. rewrite Hrun, He, Herrors. split; [reflexivity|].
  now destruct (failures files company logo w).
Qed.

(** X21: a run of the script under the uploads always ends with a page: no
    step of the results can raise, whatever the uploads hold.  It leaves
    every file whose name does not start with "temp_logo_" as it was, without
    a logo it changes no file at all, and without a press of the button it
    converts nothing and leaves the world alone. *)
Theorem page_body_footprint files pressed company logo w :
  let run := page_body files pressed company logo w in
  (exists page, fst run = inr page) /\
  (forall p, String.prefix "temp_logo_" p = false ->
             file_content p (snd run) = file_content p w) /\
  (logo = None -> forall p, file_content p (snd run) = file_content p w) /\
  (pressed = false -> snd run = w).
Proof.
  intros run. subst run. unfold page_body.
  destruct files as [|file rest]; [simpl; repeat split; eauto|].
  destruct pressed; [|simpl; repeat split; eauto].
  remember (file :: rest) as files eqn:Hfiles. clear Hfiles file rest.
  unfold bind, ret. rewrite on_convert_eval.
  destruct (show_results_ok (List.length files)
                            (fst (fst (convert files company logo w)))
                            (snd (fst (convert files company logo w)))
                            (snd (convert files company logo w)))
    as (page & Hrun & _).
  rewrite Hrun. cbn [fst snd].
  destruct (convert_loop_footprint files company logo ([], []) w) as (_ & Hf).
  fold (convert files company logo w) in Hf. cbv zeta in Hf.
  split; [now eexists|].
  destruct (1 <? List.length (fst (fst (convert files company logo w))))%nat;
    (split; [|split; [|discriminate]]).
  - intros p Hp. rewrite <- (Hf p (or_intror Hp)). reflexivity.
  - intros -> p. rewrite <- (Hf p (or_introl eq_refl)). reflexivity.
  - intros p Hp. rewrite <- (Hf p (or_intror Hp)). reflexivity.
  - intros -> p. rewrite <- (Hf p (or_introl eq_refl)). reflexivity.
Qed.

End Results.

(** ** The claims on the sample uploads *)

Section OnSamples.

Import Samples.

#[local] Existing Instance binary64.
#[local] Existing Instance plain_writer.

Lemma convert_counts_every_upload_witness :
  converted three_uploads "PythonHow" None monday = ["A-20240115.pdf"; "C.pdf"] /\
  NoDup (converted three_uploads "PythonHow" None monday) /\
  (List.length (fst (run_convert three_uploads))
   + List.length (snd (run_convert three_uploads)) = 3)%nat.
Proof.
  assert (Hnames : converted three_uploads "PythonHow" None monday
                   = ["A-20240115.pdf"; "C.pdf"]) by (vm_compute; reflexivity).
  assert (H : NoDup (converted three_uploads "PythonHow" None monday)).
  { rewrite Hnames. repeat constructor; simpl; intuition discriminate. }
  split; [exact Hnames | split; [exact H|]].
  exact (proj1 (proj2 (proj2 (proj2
           (convert_counts_every_upload (F := binary64) (W := plain_writer)
              three_uploads "PythonHow" None monday)))) H).
Defined.

(** Against C1 as stated: two uploads named "A.xlsx" both convert, and leave
    one entry in [pdf_files] and none in [errors]. *)
Lemma same_name_counts_once :
  converted same_name "PythonHow" None monday = ["A.pdf"; "A.pdf"] /\
  run_convert same_name = ([("A.pdf", document (upload "A.xlsx" header_only))], []) /\
  (List.length (fst (run_convert same_name))
   + List.length (snd (run_convert same_name)) = 1)%nat /\
  List.length same_name = 2%nat.
Proof. split; [|split; [|split]]; vm_compute; reflexivity. Qed.

Lemma failure_is_isolated_witness :
  create_pdf_from_excel (wrong_sheet "B.xlsx") "PythonHow" None monday
  = (inl (Raise "Exception"
                "Error processing B.xlsx: Worksheet named 'Sheet 1' not found"),
     after 1) /\
  convert_file "PythonHow" None ([], []) (wrong_sheet "B.xlsx") monday
  = (([], ["❌ B.xlsx: Error processing B.xlsx: Worksheet named 'Sheet 1' not found"]),
     after 1).
Proof.
  assert (H : create_pdf_from_excel (wrong_sheet "B.xlsx") "PythonHow" None monday
              = (inl (Raise "Exception"
                            "Error processing B.xlsx: Worksheet named 'Sheet 1' not found"),
                 after 1)) by reflexivity.
  split; [exact H|].
  exact (proj1 (proj2 (failure_is_isolated (F := binary64) (W := plain_writer)
                         (wrong_sheet "B.xlsx") [] "PythonHow" None ([], []) monday _ _ H))).
Defined.

(** Against C2 as stated: in a batch of three whose second upload has no
    sheet named "Sheet 1", the line appended to [errors] starts with the
    cross mark, so it is not the upload's name, a colon and a description. *)
Lemma error_line_has_a_mark :
  run_convert three_uploads
  = ([ ("A-20240115.pdf", document (upload "A-20240115.xlsx" three_items));
       ("C.pdf", document (upload "C.xlsx" header_only)) ],
     [ "❌ B.xlsx: Error processing B.xlsx: Worksheet named 'Sheet 1' not found" ]) /\
  (forall description,
      "❌ B.xlsx: Error processing B.xlsx: Worksheet named 'Sheet 1' not found"
      <> "B.xlsx: " ++ description).
Proof.
  split.
  - vm_compute. reflexivity.
  - intros description H. discriminate H.
Qed.

Lemma total_is_column_sum_witness :
  read_excel (upload "2024-002.xlsx" mixed_totals) "Sheet 1" = inr mixed_totals /\
  df_getitem mixed_totals "total_price" = inr (Object [PInt 10; PStr "20 EUR"]) /\
  (exists e, total_price_sum mixed_totals = inl e) /\
  (exists e w', create_pdf_from_excel (upload "2024-002.xlsx" mixed_totals) "PythonHow" None monday
                = (inl e, w')).
Proof.
  assert (Hread : read_excel (upload "2024-002.xlsx" mixed_totals) "Sheet 1"
                  = inr mixed_totals) by reflexivity.
  assert (Hcol : df_getitem mixed_totals "total_price"
                 = inr (Object [PInt 10; PStr "20 EUR"])) by reflexivity.
  split; [exact Hread | split; [exact Hcol|]].
  pose proof (total_is_column_sum (F := binary64) (W := plain_writer)
                (upload "2024-002.xlsx" mixed_totals) "PythonHow" None monday
                mixed_totals (Object [PInt 10; PStr "20 EUR"]) Hread Hcol) as T.
  destruct T as (_ & _ & Hmixed). apply Hmixed; reflexivity.
Defined.

(** Against C3 as stated: totals typed with their currency, "10 EUR" and
    "20 EUR", are texts that do not read as numbers; they are joined to
    "10 EUR20 EUR", the upload converts, and the summary line shows the
    joined text. *)
Lemma text_totals_are_joined :
  total_price_sum text_totals = inr (PStr "10 EUR20 EUR") /\
  run_create (upload "2024-001.xlsx" text_totals)
  = inr (document (upload "2024-001.xlsx" text_totals), "2024-001") /\
  exists pdf,
    run_build (upload "2024-001.xlsx" text_totals) = inr (pdf, "2024-001") /\
    skipn 32 (calls pdf)
    = [ cell 30 8 "10 EUR20 EUR" 1 1;
        set_font "Times" 10 "B";
        cell 30 8 "The total price is 10 EUR20 EUR" 0 1;
        set_font "Times" 10 "B";
        cell 25 8 "PythonHow" 0 0 ].
Proof.
  split; [reflexivity | split; [vm_compute; reflexivity|]].
  eexists. split; reflexivity.
Qed.

Lemma output_key_is_stem_witness :
  create_pdf_from_excel (upload "2024-001.xlsx" three_items) "PythonHow" None monday
  = (inr (document (upload "2024-001.xlsx" three_items), "2024-001"), after 1) /\
  convert_file "PythonHow" None ([], []) (upload "2024-001.xlsx" three_items) monday
  = (([("2024-001.pdf", document (upload "2024-001.xlsx" three_items))], []), after 1).
Proof.
  assert (H : create_pdf_from_excel (upload "2024-001.xlsx" three_items) "PythonHow" None monday
              = (inr (document (upload "2024-001.xlsx" three_items), "2024-001"), after 1))
    by (vm_compute; reflexivity).
  split; [exact H|].
  exact (proj2 (output_key_is_stem (F := binary64) (W := plain_writer)
                  (upload "2024-001.xlsx" three_items) "PythonHow" None ([], []) monday
                  _ _ _ H)).
Defined.

(** Against C4 as stated: the upload "2024-001.xlsx" has the invoice number
    "2024", and is filed under "2024-001.pdf", not under "2024.pdf". *)
Lemma key_is_not_the_invoice_number :
  fst (invoice_fields (stem "2024-001.xlsx") monday) = inr ("2024", "001") /\
  dict_keys (fst (run_convert [upload "2024-001.xlsx" three_items])) = ["2024-001.pdf"] /\
  dict_get "2024.pdf" (fst (run_convert [upload "2024-001.xlsx" three_items])) = None.
Proof. split; [|split]; vm_compute; reflexivity. Qed.

Lemma invoice_number_and_date_witness :
  stem "2024-001-20240115.xlsx" = "2024-001-20240115" /\
  invoice_fields "2024-001-20240115" monday = (inr ("2024", "001"), monday) /\
  invoice_fields (stem "INV2024.xlsx") monday = (inr ("INV2024", "20240115"), after 1).
Proof.
  destruct (invoice_number_and_date "2024-001-20240115.xlsx" monday) as (Hstem & Hsplit & _).
  destruct (invoice_number_and_date "INV2024.xlsx" monday) as (_ & _ & Hwhole).
  split; [|split].
  - exact (Hstem "2024-001-20240115" "xlsx" eq_refl ltac:(discriminate) ltac:(discriminate)
             eq_refl eq_refl).
  - exact (proj2 (Hsplit "2024" "001" "-20240115" eq_refl eq_refl eq_refl
                    (or_intror (ex_intro _ "20240115" eq_refl)))).
  - exact (proj2 (Hwhole eq_refl)).
Defined.

Lemma summary_line_shows_total_witness :
  exists pdf df total_sum before,
    fst (build_pdf (upload "2024-001.xlsx" three_items)
           "PythonHow" None monday) = inr (pdf, "2024-001") /\
    read_excel (upload "2024-001.xlsx" three_items) "Sheet 1" = inr df /\
    total_price_sum df = inr total_sum /\
    calls pdf
    = (before
       ++ [ cell 30 8 (py_str total_sum) 1 1;
            set_font "Times" 10 "B";
            cell 30 8 ("The total price is " ++ py_str total_sum) 0 1;
            set_font "Times" 10 "B";
            cell 25 8 "PythonHow" 0 0 ]
       ++ logo_calls None)%list.
Proof.
  assert (H : create_pdf_from_excel (upload "2024-001.xlsx" three_items) "PythonHow" None monday
              = (inr (document (upload "2024-001.xlsx" three_items), "2024-001"), after 1))
    by (vm_compute; reflexivity).
  exact (proj1 summary_line_shows_total binary64 plain_writer _ _ _ _ _ _ _ H).
Defined.

Lemma convert_twice_same_documents_witness :
  agree monday monday_again /\
  fst (fst (convert three_uploads "PythonHow" (Some png_logo) monday))
  = fst (fst (convert three_uploads "PythonHow" (Some png_logo) monday_again)).
Proof.
  assert (H : agree monday monday_again)
    by (intros n; split; reflexivity).
  split; [exact H|].
  exact (convert_twice_same_documents (F := binary64) (W := plain_writer)
           three_uploads "PythonHow" (Some png_logo) monday monday_again H).
Defined.

(** Against C7 as stated: the same upload, converted twice on the same day
    one second apart, gives two documents that differ, although the date the
    fallback branch prints is the same: the writer stamps each document with
    its creation time to the second. *)
Lemma a_second_later_differs :
  (forall n, date_Ymd (clock monday n) = date_Ymd (clock a_second_later n)) /\
  fst (invoice_fields (stem "INV2024.xlsx") monday)
  = fst (invoice_fields (stem "INV2024.xlsx") a_second_later) /\
  dict_keys (fst (fst (convert [upload "INV2024.xlsx" three_items] "PythonHow" None monday)))
  = ["INV2024.pdf"] /\
  dict_keys (fst (fst (convert [upload "INV2024.xlsx" three_items] "PythonHow" None
                         a_second_later)))
  = ["INV2024.pdf"] /\
  dict_get "INV2024.pdf"
    (fst (fst (convert [upload "INV2024.xlsx" three_items] "PythonHow" None monday)))
  <> dict_get "INV2024.pdf"
       (fst (fst (convert [upload "INV2024.xlsx" three_items] "PythonHow" None
                    a_second_later))).
Proof.
  split; [reflexivity|].
  split; [reflexivity|].
  split; [vm_compute; reflexivity|].
  split; [vm_compute; reflexivity|].
  intros H. apply (f_equal (option_map (firstn 32))) in H.
  vm_compute in H. discriminate H.
Qed.

Lemma last_write_wins_witness :
  convert [upload "A.xlsx" three_items] "PythonHow" None monday
  = (([("A.pdf", document (upload "A.xlsx" three_items))], []), after 2) /\
  create_pdf_from_excel (upload "A.xlsx" header_only) "PythonHow" None (after 2)
  = (inr (document (upload "A.xlsx" header_only), "A"), after 4) /\
  dict_get "A.pdf"
    (fst (run_convert [ upload "A.xlsx" three_items; upload "A.xlsx" header_only;
                        wrong_sheet "B.xlsx" ]))
  = Some (document (upload "A.xlsx" header_only)) /\
  count_occ string_dec
    (dict_keys (fst (run_convert [ upload "A.xlsx" three_items; upload "A.xlsx" header_only;
                                   wrong_sheet "B.xlsx" ])))
    "A.pdf" = 1%nat.
Proof.
  assert (Hbefore : convert_loop
                      [upload "A.xlsx" three_items] "PythonHow" None ([], []) monday
                    = (([("A.pdf", document (upload "A.xlsx" three_items))], []), after 2))
    by (vm_compute; reflexivity).
  assert (Hcreate : create_pdf_from_excel (upload "A.xlsx" header_only) "PythonHow" None (after 2)
                    = (inr (document (upload "A.xlsx" header_only),
                            stem (name (upload "A.xlsx" header_only))), after 4))
    by (vm_compute; reflexivity).
  destruct (last_write_wins (F := binary64) (W := plain_writer)
              [upload "A.xlsx" three_items] (upload "A.xlsx" header_only)
              [wrong_sheet "B.xlsx"] "PythonHow" None monday _ _ _ _
              Hbefore (or_introl eq_refl) Hcreate)
    as (_ & _ & _ & Hget & Hcount).
  { intros later [<- | []] H. vm_compute in H. discriminate H. }
  split; [exact Hbefore | split; [exact Hcreate | split; [exact Hget | exact Hcount]]].
Defined.

Lemma extra_columns_are_not_drawn_witness :
  rectangular noted /\
  total_price_sum noted = inr (@PFloat binary64 (Binary64.of_Z 400)) /\
  exists pdf w1,
    build_pdf (upload "2024-001.xlsx" noted) "PythonHow" None monday
    = (inr (pdf, "2024-001"), w1) /\
    firstn 7 (skipn 5 (calls pdf))
    = [ set_font "Times" 10 "B"; set_text_color 80 80 80;
        cell 30 8 "Product Id" 1 0; cell 70 8 "Product Name" 1 0;
        cell 30 8 "Amount Purchased" 1 0; cell 30 8 "Price Per Unit" 1 0;
        cell 30 8 "Total Price" 1 1 ] /\
    List.length (calls pdf) = (5 + 7 + 7 * 3 + 9 + 2)%nat.
Proof.
  assert (Hrect : rectangular noted).
  { intros col Hin. simpl in Hin.
    repeat (destruct Hin as [<- | Hin]; [reflexivity|]). contradiction. }
  assert (Hsum : total_price_sum noted = inr (@PFloat binary64 (Binary64.of_Z 400)))
    by reflexivity.
  split; [exact Hrect | split; [exact Hsum|]].
  destruct (extra_columns_are_not_drawn (F := binary64) (W := plain_writer)
              (upload "2024-001.xlsx" noted) "PythonHow" None monday noted
              "product_id" "product_name" "amount_purchased" "price_per_unit" "total_price"
              [PStr "note"] (@PFloat binary64 (Binary64.of_Z 400)) eq_refl eq_refl eq_refl)
    as (invoice_nr & date & w1 & _ & Hbuild & _).
  - discriminate.
  - reflexivity.
  - intros key Hkey. simpl in Hkey. simpl.
    repeat (destruct Hkey as [<- | Hkey]; [tauto|]). contradiction.
  - exact Hrect.
  - exact Hsum.
  - intros data H. discriminate H.
  - eexists. exists w1. split; [exact Hbuild|]. split; reflexivity.
Defined.

(** Against C9 as stated: a sheet with the five required columns and a sixth
    whose header cell holds the number 2024 does not convert: the header is
    not a text, and making its title raises. *)
Lemma numbered_header_fails :
  List.length (df_columns numbered_column) = 6%nat /\
  forallb (fun key => existsb (label_is key) (df_columns numbered_column)) required_columns
  = true /\
  run_create (upload "2024-001.xlsx" numbered_column)
  = inl (Raise "Exception"
               "Error processing 2024-001.xlsx: 'int' object has no attribute 'replace'").
Proof. split; [|split]; vm_compute; reflexivity. Qed.

Lemma header_only_sheet_witness :
  exists w1,
    build_pdf (upload "INV2024.xlsx" header_only) "PythonHow" None monday
    = (inr ({| orientation := "P"; unit_ := "mm"; format := "A4";
               calls :=
                 [ add_page;
                   set_font "Times" 16 "B"; cell 50 8 "Invoice nr.INV2024" 0 1;
                   set_font "Times" 16 "B"; cell 50 8 "Date: 20240115" 0 1;
                   set_font "Times" 10 "B"; set_text_color 80 80 80;
                   cell 30 8 "Product Id" 1 0; cell 70 8 "Product Name" 1 0;
                   cell 30 8 "Amount Purchased" 1 0; cell 30 8 "Price Per Unit" 1 0;
                   cell 30 8 "Total Price" 1 1;
                   set_font "Times" 10 ""; set_text_color 80 80 80;
                   cell 30 8 "" 1 0; cell 70 8 "" 1 0; cell 30 8 "" 1 0;
                   cell 30 8 "" 1 0; cell 30 8 "0" 1 1;
                   set_font "Times" 10 "B"; cell 30 8 "The total price is 0" 0 1;
                   set_font "Times" 10 "B"; cell 25 8 "PythonHow" 0 0 ] |},
            "INV2024"), w1).
Proof.
  destruct (header_only_sheet (F := binary64) (W := plain_writer)
              (upload "INV2024.xlsx" header_only) "PythonHow" None monday header_only
              (Object []) eq_refl eq_refl eq_refl eq_refl (or_introl eq_refl))
    as (invoice_nr & date & w1 & Hfields & _ & _ & Hbuild & _).
  - intros data H. discriminate H.
  - vm_compute in Hfields. inversion Hfields; subst invoice_nr date.
    exists w1. rewrite Hbuild. reflexivity.
Defined.

(** Against C10 as stated: a sheet that holds the five-column header and no
    data row does not convert when the upload is named "Ł.xlsx".  The
    document is drawn, with the invoice number "Ł" in its first line, and
    the writer cannot write that letter out in latin-1. *)
Lemma unwritable_name_fails :
  df_columns header_only = map PStr required_columns /\
  nrows header_only = 0%nat /\
  (exists pdf,
      run_build (upload "Ł.xlsx" header_only) = inr (pdf, "Ł") /\
      nth_error (calls pdf) 2 = Some (cell 50 8 "Invoice nr.Ł" 0 1)) /\
  (exists cause,
      run_create (upload "Ł.xlsx" header_only)
      = inl (processing_error (upload "Ł.xlsx" header_only) cause) /\
      exn_class cause = "UnicodeEncodeError").
Proof.
  split; [reflexivity|]. split; [reflexivity|]. split.
  - eexists. split; reflexivity.
  - exists PlainWriter.encode_error. split; [vm_compute|]; reflexivity.
Qed.

End OnSamples.

(** ** The further properties on sample sheets *)

Section OnCases.

Import Samples Cases.

#[local] Existing Instance binary64.
#[local] Existing Instance plain_writer.

Lemma three_items_rectangular : rectangular three_items.
Proof.
  intros col Hin. simpl in Hin.
  repeat (destruct Hin as [<- | Hin]; [reflexivity|]). contradiction.
Qed.

Lemma three_items_labels : NoDup (df_columns three_items).
Proof. repeat constructor; simpl; intuition discriminate. Qed.

Lemma missing_sheet_fails_witness :
  fst (create_pdf_from_excel (wrong_sheet "B.xlsx") "PythonHow" (Some png_logo) monday)
  = inl (Raise "Exception" "Error processing B.xlsx: Worksheet named 'Sheet 1' not found") /\
  disk (snd (create_pdf_from_excel (wrong_sheet "B.xlsx") "PythonHow" (Some png_logo) monday))
  = [].
Proof.
  apply (missing_sheet_fails (F := binary64) (W := plain_writer)
           (wrong_sheet "B.xlsx") [("Sheet1", three_items)] "PythonHow" (Some png_logo) monday
           eq_refl).
  intros sh [<- | []]. discriminate.
Defined.

Lemma too_few_columns_fail_witness :
  List.length (df_columns four_columns) = 4%nat /\
  fst (create_pdf_from_excel (upload "2024-003.xlsx" four_columns) "PythonHow" None monday)
  = inl (Raise "Exception" "Error processing 2024-003.xlsx: list index out of range").
Proof.
  split; [reflexivity|].
  apply (too_few_columns_fail (F := binary64) (W := plain_writer)
           (upload "2024-003.xlsx" four_columns) four_columns "PythonHow" None monday
           eq_refl eq_refl).
  simpl. lia.
Defined.

Lemma non_text_header_fails_witness :
  nth_error (df_columns numbered_column) 5 = Some (PInt 2024) /\
  fst (create_pdf_from_excel (upload "2024-001.xlsx" numbered_column) "PythonHow" None monday)
  = inl (Raise "Exception"
               "Error processing 2024-001.xlsx: 'int' object has no attribute 'replace'").
Proof.
  split; [reflexivity|].
  exact (non_text_header_fails (F := binary64) (W := plain_writer)
           (upload "2024-001.xlsx" numbered_column) numbered_column (PInt 2024)
           "PythonHow" None monday eq_refl eq_refl).
Defined.

Lemma missing_column_fails_witness :
  df_columns renamed_total
  = [ PStr "product_id"; PStr "product_name"; PStr "amount_purchased";
      PStr "price_per_unit"; PStr "total" ] /\
  fst (create_pdf_from_excel (upload "2024-004.xlsx" renamed_total) "PythonHow" None monday)
  = inl (Raise "Exception" "Error processing 2024-004.xlsx: 'total_price'").
Proof.
  split; [reflexivity|].
  apply (missing_column_fails (F := binary64) (W := plain_writer)
           (upload "2024-004.xlsx" renamed_total) renamed_total "PythonHow" None monday
           "product_id" "product_name" "amount_purchased" "price_per_unit" "total" []
           "total_price" eq_refl eq_refl eq_refl).
  - intros col Hin. simpl in Hin.
    repeat (destruct Hin as [<- | Hin]; [reflexivity|]). contradiction.
  - simpl. lia.
  - reflexivity.
Defined.

Lemma header_only_needs_the_total_witness :
  map (fun key => existsb (label_is key) (df_columns other_headers)) required_columns
  = [false; false; false; false; true] /\
  fst (create_pdf_from_excel (upload "2024-005.xlsx" bare_headers) "PythonHow" None monday)
  = inl (Raise "Exception" "Error processing 2024-005.xlsx: 'total_price'") /\
  exists invoice_nr date w1,
    build_pdf (upload "2024-005.xlsx" other_headers) "PythonHow" None monday
    = (inr ({| orientation := "P"; unit_ := "mm"; format := "A4";
               calls :=
                 [ add_page;
                   set_font "Times" 16 "B"; cell 50 8 ("Invoice nr." ++ invoice_nr) 0 1;
                   set_font "Times" 16 "B"; cell 50 8 ("Date: " ++ date) 0 1;
                   set_font "Times" 10 "B"; set_text_color 80 80 80;
                   cell 30 8 "Id" 1 0; cell 70 8 "Name" 1 0; cell 30 8 "Qty" 1 0;
                   cell 30 8 "Price" 1 0; cell 30 8 "Total Price" 1 1;
                   set_font "Times" 10 ""; set_text_color 80 80 80;
                   cell 30 8 "" 1 0; cell 70 8 "" 1 0; cell 30 8 "" 1 0;
                   cell 30 8 "" 1 0; cell 30 8 "0" 1 1;
                   set_font "Times" 10 "B"; cell 30 8 "The total price is 0" 0 1;
                   set_font "Times" 10 "B"; cell 25 8 "PythonHow" 0 0 ] |},
            "2024-005"), w1).
Proof.
  split; [reflexivity|]. split.
  - apply (proj1 (header_only_needs_the_total (F := binary64) (W := plain_writer)
                    (upload "2024-005.xlsx" bare_headers) bare_headers "PythonHow" None
                    monday "id" "name" "qty" "price" "total" []
                    eq_refl eq_refl eq_refl eq_refl)).
    simpl. intuition discriminate.
  - destruct (proj2 (header_only_needs_the_total (F := binary64) (W := plain_writer)
                       (upload "2024-005.xlsx" other_headers) other_headers "PythonHow" None
                       monday "id" "name" "qty" "price" "total_price" []
                       eq_refl eq_refl eq_refl eq_refl)
                (PInt 0) eq_refl eq_refl)
      as (invoice_nr & date & w1 & Hbuild).
    + intros data H. discriminate H.
    + exists invoice_nr, date, w1. exact Hbuild.
Defined.

Lemma body_ignores_column_order_witness :
  df_columns reordered
  = [ PStr "total_price"; PStr "price_per_unit"; PStr "amount_purchased";
      PStr "product_name"; PStr "product_id" ] /\
  add_table_rows (FPDF_new "P" "mm" "A4") (iterrows three_items)
  = add_table_rows (FPDF_new "P" "mm" "A4") (iterrows reordered) /\
  total_price_sum three_items = total_price_sum reordered.
Proof.
  split; [reflexivity|].
  exact (body_ignores_column_order (F := binary64) three_items reordered
           (FPDF_new "P" "mm" "A4") (Permutation_rev three_items)
           three_items_labels three_items_rectangular).
Defined.

Lemma logo_file_is_removed_witness :
  image_error png_logo = None /\
  exists now,
    file_content (logo_path_at now)
      (snd (create_pdf_from_excel (upload "2024-001.xlsx" three_items) "PythonHow"
              (Some png_logo) monday_again)) = None /\
    forall p,
      p <> logo_path_at now ->
      file_content p
        (snd (create_pdf_from_excel (upload "2024-001.xlsx" three_items) "PythonHow"
                (Some png_logo) monday_again))
      = file_content p monday_again.
Proof.
  assert (H : exists res,
             create_pdf_from_excel (upload "2024-001.xlsx" three_items) "PythonHow"
               (Some png_logo) monday_again
             = (inr res,
                snd (create_pdf_from_excel (upload "2024-001.xlsx" three_items) "PythonHow"
                       (Some png_logo) monday_again)))
    by (eexists; vm_compute; reflexivity).
  destruct H as [res H].
  exact (logo_file_is_removed (F := binary64) (W := plain_writer) _ _ _ _ _ _ H).
Defined.

Lemma undecodable_logo_is_left_behind_witness :
  fst (create_pdf_from_excel (upload "2024-001.xlsx" three_items) "PythonHow"
         (Some no_image) monday)
  = inl (Raise "Exception"
               ("Error processing 2024-001.xlsx: "
                ++ "FPDF error: Not a PNG file: temp_logo_1705311000.25.png")) /\
  file_content "temp_logo_1705311000.25.png"
    (snd (create_pdf_from_excel (upload "2024-001.xlsx" three_items) "PythonHow"
            (Some no_image) monday))
  = Some no_image.
Proof.
  assert (H : exists pdf,
             build_pdf (upload "2024-001.xlsx" three_items) "PythonHow" None monday
             = (inr (pdf, "2024-001"), monday))
    by (eexists; vm_compute; reflexivity).
  destruct H as [pdf H].
  exact (undecodable_logo_is_left_behind (F := binary64) (W := plain_writer)
           (upload "2024-001.xlsx" three_items) "PythonHow" no_image PlainWriter.not_png
           monday pdf "2024-001" monday eq_refl H).
Defined.

Lemma undecodable_logo_fails_every_upload_witness :
  fst (fst (convert three_uploads "PythonHow" (Some no_image) monday)) = [] /\
  List.length (snd (fst (convert three_uploads "PythonHow" (Some no_image) monday))) = 3%nat.
Proof.
  exact (undecodable_logo_fails_every_upload (F := binary64) (W := plain_writer)
           three_uploads "PythonHow" no_image PlainWriter.not_png monday eq_refl).
Defined.

Lemma integer_cells_follow_the_table_witness :
  shown (row_at three_items 0) "product_id" = "101" /\
  shown (row_at numbers_only 0) "product_id" = "1.0".
Proof.
  split.
  - exact (proj1 (integer_cells_follow_the_table (F := binary64)
                    three_items "product_id" [101; 102; 103] 0 101 eq_refl eq_refl)
             (PStr "product_name", Object [PStr "Pen"; PStr "Desk lamp"; PStr "Ink"])
             [PStr "Pen"; PStr "Desk lamp"; PStr "Ink"]
             (or_intror (or_introl eq_refl)) eq_refl).
  - apply (proj2 (integer_cells_follow_the_table (F := binary64)
                    numbers_only "product_id" [1; 2] 0 1 eq_refl eq_refl)
             (PStr "price_per_unit", Float64 (F := binary64) [half 5; half 3])
             [half 5; half 3]).
    + simpl. tauto.
    + reflexivity.
    + intros c Hin. simpl in Hin.
      repeat (destruct Hin as [<- | Hin]; [discriminate|]). contradiction.
Defined.

Lemma integer_total_is_exact_when_it_fits_witness :
  exists total,
    total_price_sum whole_totals = inr (PInt total) /\
    (total = Zsum [10; 20] <-> - 2 ^ 63 <= Zsum [10; 20] < 2 ^ 63) /\
    - 2 ^ 63 <= total < 2 ^ 63.
Proof.
  exact (integer_total_is_exact_when_it_fits (F := binary64) whole_totals [10; 20] eq_refl).
Defined.

Lemma header_text_shape_witness :
  titled "amount_purchased" = "Amount Purchased" /\
  String.length (titled "amount_purchased") = String.length "amount_purchased" /\
  PyStr.contains "_" (titled "amount_purchased") = false /\
  titled (titled "amount_purchased") = titled "amount_purchased".
Proof.
  split; [reflexivity|].
  exact (header_text_shape "amount_purchased" eq_refl).
Defined.

(** The page of a batch of three whose second upload fails. *)
Example page_of_three_uploads :
  exists page,
    fst (on_convert three_uploads "PythonHow" None monday) = inr page /\
    pdf_downloads page
    = [ ("A-20240115.pdf", document (upload "A-20240115.xlsx" three_items));
        ("C.pdf", document (upload "C.xlsx" header_only)) ] /\
    zip_downloads page = [("invoices_20240115_093000.zip", pdf_downloads page)] /\
    metrics page = [("Total Files", 3); ("Successful", 2); ("Errors", 1)]%nat /\
    download_columns page = [0; 1]%nat /\
    error_box page
    = Some ["❌ B.xlsx: Error processing B.xlsx: Worksheet named 'Sheet 1' not found"].
Proof.
  eexists. split; [vm_compute; reflexivity|].
  split; [|split; [|split; [|split]]]; vm_compute; reflexivity.
Qed.

End OnCases.
